(** * Recommendation pipeline: a shallow embedding of the Python helpers

    The development follows the helper modules of the backend:
    [azure_openai_helper.py] (LLM call with retry, reply parser),
    [recommendation_manager.py] (post-processing of the parsed reply),
    [user_manager.py] (skip-update policy), [cosmos_helper.py] (candidate
    pool, article cache) and [trending_helper.py] (trend aggregation).

    Python values are modelled by [pyval]; a function whose body can raise is
    a function into [Except]; a [try ... except Exception] block is a match
    on that result.  External services (document store, chat endpoint, trend
    feeds, [json.loads], [float(str)], [datetime.fromisoformat]) are section
    variables: every theorem holds for each behaviour of the service. *)

From Stdlib Require Import ZArith QArith Qround String Ascii List Bool Lia Lqa.
From Stdlib Require Import Sorted Permutation.
From stdpp Require Import gmap strings list.

(** ** Exceptions *)

Inductive exn : Type :=
| TypeError
| ValueError
| KeyError
| AttributeError
| OverflowError
| JSONDecodeError
| ServiceError (msg : string).

Inductive Except (A : Type) : Type :=
| Ok (a : A)
| Raise (e : exn).

Arguments Ok {A} a.
Arguments Raise {A} e.

#[global] Instance except_ret : MRet Except := fun A a => Ok a.

#[global] Instance except_bind : MBind Except := fun A B k m =>
  match m with
  | Ok a => k a
  | Raise e => Raise e
  end.

(** ** Python values *)

(** A Python [float]: the two special values and the finite ones.  Finite
    floats are kept as exact rationals; the operations used below ([min],
    [max], comparisons) select one of their arguments, and [round] is decimal
    rounding. *)
Inductive pyfloat : Type :=
| FNan
| FInf (negative : bool)
| FFin (q : Q).

#[warnings="-register-all"]
Inductive pyval : Type :=
| PNone
| PBool (b : bool)
| PInt (z : Z)
| PFloat (f : pyfloat)
| PStr (s : string)
| PList (l : list pyval)
| PDict (d : list (string * pyval)).

(** A dict with string keys, in insertion order. *)
Abbreviation pydict := (list (string * pyval)).

Fixpoint dict_get (k : string) (d : pydict) : option pyval :=
  match d with
  | [] => None
  | (k', v) :: d' => if String.eqb k k' then Some v else dict_get k d'
  end.

(** [d.get(k, default)] *)
Definition dict_get_default (k : string) (default : pyval) (d : pydict) : pyval :=
  match dict_get k d with
  | Some v => v
  | None => default
  end.

(** [k in d] *)
Definition dict_has (k : string) (d : pydict) : bool :=
  match dict_get k d with
  | Some _ => true
  | None => false
  end.

(** [d[k]] *)
Definition dict_item (k : string) (d : pydict) : Except pyval :=
  match dict_get k d with
  | Some v => Ok v
  | None => Raise KeyError
  end.

(** [d.setdefault(k, default)]: the key is added only when it is missing. *)
Definition dict_setdefault (k : string) (default : pyval) (d : pydict) : pydict :=
  if dict_has k d then d else d ++ [(k, default)].

Definition dict_keys (d : pydict) : list string := map fst d.

(** Comparison of floats: every comparison with NaN is false. *)
Definition float_lt (a b : pyfloat) : bool :=
  match a, b with
  | FNan, _ | _, FNan => false
  | FInf true, FInf true => false
  | FInf true, _ => true
  | _, FInf true => false
  | FInf false, _ => false
  | _, FInf false => true
  | FFin x, FFin y => if Qlt_le_dec x y then true else false
  end.

Definition float_is_zero (f : pyfloat) : bool :=
  match f with
  | FFin q => Qeq_bool q 0
  | _ => false
  end.

(** Truth value of an object: [bool(v)], [if v:], [not v]. *)
Definition py_truthy (v : pyval) : bool :=
  match v with
  | PNone => false
  | PBool b => b
  | PInt z => negb (z =? 0)%Z
  | PFloat f => negb (float_is_zero f)
  | PStr s => negb (String.eqb s "")
  | PList l => match l with [] => false | _ => true end
  | PDict d => match d with [] => false | _ => true end
  end.

(** [min(a, b)] and [max(a, b)] of the builtins: the first argument is kept
    unless the second is strictly smaller (larger). *)
Definition py_min (a b : pyfloat) : pyfloat := if float_lt b a then b else a.
Definition py_max (a b : pyfloat) : pyfloat := if float_lt a b then b else a.

(** Rounding of a rational to the nearest integer, ties to even. *)
Definition round_half_even (q : Q) : Z :=
  let f := Qfloor q in
  match (q - inject_Z f ?= 1 # 2)%Q with
  | Lt => f
  | Gt => (f + 1)%Z
  | Eq => if Z.even f then f else (f + 1)%Z
  end.

(** [round(x, 4)] *)
Definition py_round4 (x : pyfloat) : pyfloat :=
  match x with
  | FFin q => FFin (round_half_even (q * 10000) # 10000)
  | _ => x
  end.

(** The largest magnitude an [int] may have for [float(int)] not to raise
    [OverflowError]. *)
Definition float_int_bound : Z := (2 ^ 1024 - 2 ^ 970)%Z.

(** Iteration [for x in v]: lists yield their items, strings their
    characters, dicts their keys; other values are not iterable. *)
Definition py_iter (v : pyval) : Except (list pyval) :=
  match v with
  | PList l => Ok l
  | PStr s => Ok (map (fun c => PStr (String c EmptyString)) (list_ascii_of_string s))
  | PDict d => Ok (map PStr (dict_keys d))
  | _ => Raise TypeError
  end.

(** ** Strings *)

(** Whitespace removed by [str.strip()], among the characters below 128. *)
Definition is_space (c : ascii) : bool :=
  let n := nat_of_ascii c in
  ((9 <=? n) && (n <=? 13)) || ((28 <=? n) && (n <=? 32)).

Fixpoint lstrip_chars (l : list ascii) : list ascii :=
  match l with
  | c :: l' => if is_space c then lstrip_chars l' else l
  | [] => []
  end.

(** [s.strip()] *)
Definition strip (s : string) : string :=
  string_of_list_ascii
    (rev (lstrip_chars (rev (lstrip_chars (list_ascii_of_string s))))).

(** [s.startswith(p)] and [s.endswith(p)] *)
Definition startswith (p s : string) : bool := String.prefix p s.

Definition endswith (p s : string) : bool :=
  String.prefix (String.rev p) (String.rev s).

(** [s[n:]] for [n >= 0] *)
Definition str_from (n : nat) (s : string) : string :=
  string_of_list_ascii (drop n (list_ascii_of_string s)).

(** [s[:-n]] for [n > 0]: the last [n] characters are removed, and nothing is
    left of a shorter string. *)
Definition str_drop_last (n : nat) (s : string) : string :=
  string_of_list_ascii (take (String.length s - n) (list_ascii_of_string s)).

(** [l[:n]] for a list and an [int]: a negative bound counts from the end. *)
Definition py_slice_to {A : Type} (n : Z) (l : list A) : list A :=
  if (n <? 0)%Z then take (length l - Z.to_nat (- n)) l else take (Z.to_nat n) l.

(** ** The reply parser ([azure_openai_helper.py]) *)

(** The dict [{"tags": ..., "articles": ...}] returned by the parser and by
    the post-processing step. *)
Record recommendations : Type := {
  tags : list pydict;
  articles : list pydict
}.

Definition empty_recommendations : recommendations :=
  {| tags := []; articles := [] |}.

Section Parser.

(** [json.loads]: the decoded document, or [JSONDecodeError]. *)
Variable json_loads : string -> Except pyval.

(** [float(s)] on a string: the number it denotes, or nothing
    ([ValueError]). *)
Variable float_of_str : string -> option pyfloat.

(** [float(v)] *)
Definition py_float (v : pyval) : Except pyfloat :=
  match v with
  | PFloat f => Ok f
  | PInt z =>
      if (Z.abs z <? float_int_bound)%Z then Ok (FFin (inject_Z z))
      else Raise OverflowError
  | PBool b => Ok (FFin (if b then 1 else 0))
  | PStr s =>
      match float_of_str s with
      | Some f => Ok f
      | None => Raise ValueError
      end
  | PNone | PList _ | PDict _ => Raise TypeError
  end.

(** One round of the loop over [data.get("tags", [])]: the entry appended
    to [tags], or nothing when the item is skipped. *)
Definition parse_tag (t : pyval) : option pydict :=
  match t with
  | PDict d =>
      match dict_get "tag" d, dict_get "score" d with
      | Some tag, Some raw =>
          match py_float raw with
          | Ok score =>
              Some [("tag", tag);
                    ("score", PFloat (py_max (FFin 1) (py_min (FFin 5) score)));
                    ("wildcard",
                     PBool (py_truthy (dict_get_default "wildcard" (PBool false) d)))]
          | Raise _ => None
          end
      | _, _ => None
      end
  | _ => None
  end.

(** One round of the loop over [data.get("articles", [])]. *)
Definition parse_article (a : pyval) : option pydict :=
  match a with
  | PDict d =>
      match dict_get "id" d, dict_get "score" d with
      | Some id, Some raw =>
          match py_float raw with
          | Ok score =>
              Some [("id", id);
                    ("score",
                     PFloat (py_round4 (py_max (FFin 0) (py_min (FFin 5) score))));
                    ("wildcard",
                     PBool (py_truthy (dict_get_default "wildcard" (PBool false) d)))]
          | Raise _ => None
          end
      | _, _ => None
      end
  | _ => None
  end.

(** The text handed to [json.loads]. *)
Definition strip_code_fence (response : string) : string :=
  let text := strip response in
  let text := if startswith "```json" text then str_from 7 text else text in
  if endswith "```" text then str_drop_last 3 text else text.

(** [data.get]: only a dict has the method. *)
Definition as_dict (data : pyval) : Except pydict :=
  match data with
  | PDict d => Ok d
  | _ => Raise AttributeError
  end.

(** The body of the [try] block. *)
Definition _parse_llm_only_output_body (response : string) : Except recommendations :=
  data ← json_loads (strip_code_fence response);
  d ← as_dict data;
  ts ← py_iter (dict_get_default "tags" (PList []) d);
  let tags := omap parse_tag ts in
  arts ← py_iter (dict_get_default "articles" (PList []) d);
  let articles := omap parse_article arts in
  Ok {| tags := tags; articles := articles |}.

Definition _parse_llm_only_output (response : string) : recommendations :=
  match _parse_llm_only_output_body response with
  | Ok r => r
  | Raise _ => empty_recommendations
  end.

End Parser.

(** A finite score between two bounds, stored under the key [score]. *)
Definition score_between (lo hi : Q) (e : pydict) : Prop :=
  exists q : Q, dict_get "score" e = Some (PFloat (FFin q)) /\ (lo <= q <= hi)%Q.

(** A rational with at most four decimal places. *)
Definition four_decimals (q : Q) : Prop := exists k : Z, q = k # 10000.

Definition rounded_score (e : pydict) : Prop :=
  exists q : Q, dict_get "score" e = Some (PFloat (FFin q)) /\ four_decimals q.

(** A value [float] accepts. *)
Definition numeric (float_of_str : string -> option pyfloat) (v : pyval) : Prop :=
  exists f : pyfloat, py_float float_of_str v = Ok f.

(** An item of the decoded list that has the two fields the parser asks
    for, [key] being [tag] or [id], with a score [float] accepts. *)
Definition well_formed_entry (float_of_str : string -> option pyfloat)
    (key : string) (t : pyval) : Prop :=
  exists (d : pydict) (k raw : pyval),
    t = PDict d /\ dict_get key d = Some k /\ dict_get "score" d = Some raw /\
    numeric float_of_str raw.

(** ** Post-processing of the parsed reply ([recommendation_manager.py]) *)

(** A loop that collects one result per item and stops at the first item
    that raises. *)
Fixpoint except_map {A B : Type} (f : A -> Except B) (l : list A) : Except (list B) :=
  match l with
  | [] => Ok []
  | x :: l' => y ← f x; ys ← except_map f l'; Ok (y :: ys)
  end.

(** The same loop when an item may be skipped ([continue]). *)
Fixpoint except_omap {A B : Type} (f : A -> Except (option B)) (l : list A)
  : Except (list B) :=
  match l with
  | [] => Ok []
  | x :: l' =>
      y ← f x; ys ← except_omap f l';
      Ok (match y with Some b => b :: ys | None => ys end)
  end.

(** The abstract stored for every article whose id carries a trend prefix. *)
Definition trending_abstract : string :=
  "Real trending article based on current global events and user interests".

(** The prefix test on [art_id] in the loop over the reply's articles. *)
Definition is_trend_id (art_id : string) : bool :=
  startswith "wildcard-" art_id || startswith "trending-" art_id ||
  startswith "newsapi-" art_id || startswith "reddit-" art_id.

(** [{"tag": t["tag"], "score": t["score"]}] *)
Definition tag_recommendation (t : pydict) : Except pydict :=
  tag ← dict_item "tag" t;
  score ← dict_item "score" t;
  Ok [("tag", tag); ("score", score)].

(** [{c.get("id"): c.get("abstract", "") for c in candidates}].  A later
    candidate replaces an earlier one with the same id; a list or a dict as
    key raises [TypeError]; the map keeps the string keys, the only ones a
    string [art_id] can be equal to. *)
Fixpoint candidate_abstract_by_id (candidates : list pydict) (acc : gmap string pyval)
  : Except (gmap string pyval) :=
  match candidates with
  | [] => Ok acc
  | c :: rest =>
      let abstract := dict_get_default "abstract" (PStr "") c in
      match dict_get_default "id" PNone c with
      | PStr id => candidate_abstract_by_id rest (<[id := abstract]> acc)
      | PList _ | PDict _ => Raise TypeError
      | PNone | PBool _ | PInt _ | PFloat _ => candidate_abstract_by_id rest acc
      end
  end.

(** One round of the loop over [all_articles]: nothing when the id is
    missing or falsy, [AttributeError] when it has no [startswith]. *)
Definition article_recommendation (by_id : gmap string pyval) (a : pydict)
  : Except (option pydict) :=
  let art_id := dict_get_default "id" PNone a in
  if negb (py_truthy art_id) then Ok None
  else
    match art_id with
    | PStr s =>
        let abstract :=
          if is_trend_id s then PStr trending_abstract
          else default (PStr "") (by_id !! s) in
        Ok (Some [("id", art_id);
                  ("score", dict_get_default "score" (PInt 0) a);
                  ("abstract", abstract)])
    | _ => Raise AttributeError
    end.

(** [a.get("wildcard", False)] as a condition. *)
Definition is_wildcard (a : pydict) : bool :=
  py_truthy (dict_get_default "wildcard" (PBool false) a).

(** The log line [[a['id'] for a in wildcard_articles]]: it needs the key
    [id] in every entry flagged as wildcard. *)
Definition wildcard_ids (all_articles : list pydict) : Except (list pyval) :=
  except_map (dict_item "id") (List.filter is_wildcard all_articles).

(** The body of the [try] block. *)
Definition _process_llm_output_body
    (llm_out : recommendations) (candidates : list pydict) : Except recommendations :=
  let all_tags := take 20 (tags llm_out) in
  tag_recommendations ← except_map tag_recommendation all_tags;
  by_id ← candidate_abstract_by_id candidates ∅;
  let all_articles := take 20 (articles llm_out) in
  article_recommendations ← except_omap (article_recommendation by_id) all_articles;
  _ ← wildcard_ids all_articles;
  Ok {| tags := tag_recommendations; articles := article_recommendations |}.

Definition _process_llm_output
    (llm_out : recommendations) (candidates : list pydict) : recommendations :=
  match _process_llm_output_body llm_out candidates with
  | Ok r => r
  | Raise _ => empty_recommendations
  end.

(** The candidate carries the string [s] as its id. *)
Definition has_id (s : string) (c : pydict) : bool :=
  match dict_get "id" c with
  | Some (PStr s') => String.eqb s s'
  | _ => false
  end.

(** The abstract of the last candidate with id [s], the empty string when
    the candidate has no abstract or no candidate has that id. *)
Definition abstract_of_candidate (s : string) (candidates : list pydict) : pyval :=
  match List.find (has_id s) (rev candidates) with
  | Some c => dict_get_default "abstract" (PStr "") c
  | None => PStr ""
  end.

(** Every article of [r] has the id of an article of [pool]. *)
Definition ids_offered (pool : list pydict) (r : recommendations) : Prop :=
  forall e : pydict, e ∈ articles r ->
    exists p : pydict, p ∈ pool /\ dict_get "id" p = dict_get "id" e.

(** Every article of [r] has the id and the abstract of an article of
    [pool]. *)
Definition abstracts_from_pool (pool : list pydict) (r : recommendations) : Prop :=
  forall e : pydict, e ∈ articles r ->
    exists p : pydict,
      p ∈ pool /\ dict_get "id" p = dict_get "id" e /\
      dict_get "abstract" p = dict_get "abstract" e.

(** *** Sample runs *)

Definition sample_candidates : list pydict :=
  [[("id", PStr "a1"); ("title", PStr "Solar storage");
    ("abstract", PStr "Batteries for the grid"); ("tags", PList [PStr "energy"])]].

Definition sample_trending : list pydict :=
  [[("id", PStr "reddit-ai-advancements-0"); ("title", PStr "New model released");
    ("abstract", PStr "Popular discussion on trending topics");
    ("source", PStr "reddit")]].

(** A reply naming an article that is neither a candidate nor trending. *)
Definition reply_unknown_id : recommendations :=
  {| tags := [];
     articles := [[("id", PStr "a7"); ("score", PFloat (FFin 4.5));
                   ("wildcard", PBool false)]] |}.

(** A reply naming the trending article. *)
Definition reply_trending_id : recommendations :=
  {| tags := [];
     articles := [[("id", PStr "reddit-ai-advancements-0");
                   ("score", PFloat (FFin 4)); ("wildcard", PBool true)]] |}.

(** The entries of a dict under the keys [ks]. *)
Definition restrict_keys (ks : list string) (d : pydict) : pydict :=
  List.filter (fun kv => existsb (String.eqb (fst kv)) ks) d.

(** The reply with every article entry cut down to the three fields of the
    output contract. *)
Definition contract_fields (llm_out : recommendations) : recommendations :=
  {| tags := tags llm_out;
     articles := map (restrict_keys ["id"; "score"; "wildcard"]) (articles llm_out) |}.

(** A reply naming the candidate [a1]. *)
Definition reply_known_id : recommendations :=
  {| tags := [[("tag", PStr "energy"); ("score", PFloat (FFin 4.5));
               ("wildcard", PBool false)]];
     articles := [[("id", PStr "a1"); ("score", PFloat (FFin 4.5));
                   ("abstract", PStr "An abstract written by the model");
                   ("wildcard", PBool false)]] |}.

(** ** The chat-completion call with retry ([azure_openai_helper.py]) *)

(** What a run has done to the outside world so far: the number of requests
    sent to the chat endpoint and the durations passed to [time.sleep], in
    seconds, oldest first. *)
Record io : Type := {
  llm_calls : nat;
  slept : list Z
}.

Definition io_start : io := {| llm_calls := 0; slept := [] |}.

(** [try: body except Exception: handler] *)
Definition try_except {A : Type} (body : Except A) (handler : exn -> Except A)
  : Except A :=
  match body with
  | Ok a => Ok a
  | Raise e => handler e
  end.

Section Chat.

Variable json_loads : string -> Except pyval.
Variable float_of_str : string -> option pyfloat.

(** [chat_client.chat.completions.create]: the answer to the request number
    [n] (from 0) carrying [prompt]: the content of the first choice, or the
    error of the transport or of the provider. *)
Variable chat_create : nat -> string -> Except string.

(** Lines 143 to 178 of [generate_llm_only_recommendations]: the compressed
    contexts, the trending content and the prompt text, or the error raised
    on the way. *)
Variable build_prompt : list pydict -> list pydict -> Z -> Z -> Z -> Z -> Except string.

Definition create (prompt : string) (w : io) : io * Except string :=
  ({| llm_calls := S (llm_calls w); slept := slept w |},
   chat_create (llm_calls w) prompt).

Definition sleep (seconds : Z) (w : io) : io :=
  {| llm_calls := llm_calls w; slept := slept w ++ [seconds] |}.

(** The loop [for attempt in range(max_retries)], on the attempts still to
    make; the empty string is returned when the loop runs out. *)
Fixpoint attempts (prompt : string) (max_retries : Z) (todo : list nat) (w : io)
  : io * Except string :=
  match todo with
  | [] => (w, Ok "")
  | attempt :: rest =>
      let (w1, r) := create prompt w in
      match r with
      | Ok content => (w1, Ok content)
      | Raise e =>
          if (Z.of_nat attempt <? max_retries - 1)%Z
          then attempts prompt max_retries rest (sleep (2 ^ Z.of_nat attempt) w1)
          else (w1, Raise e)
      end
  end.

Definition _call_chat_completion (prompt : string) (max_retries : Z) (w : io)
  : io * Except string :=
  attempts prompt max_retries (seq 0 (Z.to_nat max_retries)) w.

(** The body of the [try] block of [generate_llm_only_recommendations]; the
    call is made with the default [max_retries = 3]. *)
Definition generate_llm_only_recommendations_body
    (user_articles candidate_articles : list pydict)
    (tag_count tag_wildcard article_count article_wildcard : Z) (w : io)
  : io * Except recommendations :=
  match build_prompt user_articles candidate_articles
          tag_count tag_wildcard article_count article_wildcard with
  | Raise e => (w, Raise e)
  | Ok prompt =>
      let (w1, r) := _call_chat_completion prompt 3 w in
      (w1, raw ← r; Ok (_parse_llm_only_output json_loads float_of_str raw))
  end.

Definition generate_llm_only_recommendations
    (user_articles candidate_articles : list pydict)
    (tag_count tag_wildcard article_count article_wildcard : Z) (w : io)
  : io * Except recommendations :=
  let (w1, r) :=
    generate_llm_only_recommendations_body user_articles candidate_articles
      tag_count tag_wildcard article_count article_wildcard w in
  (w1, try_except r (fun _ => Ok empty_recommendations)).

End Chat.

(** The pause after the failure of attempt [i], in seconds. *)
Definition pause (i : nat) : Z := (2 ^ Z.of_nat i)%Z.

(** A reply was obtained at attempt [k]: the earlier requests failed, [k]
    more requests were sent than before plus one, and the pauses were 1, 2,
    ..., [2^(k-1)] seconds. *)
Definition answered_at (chat_create : nat -> string -> Except string)
    (prompt : string) (w w' : io) (k : nat) (content : string) : Prop :=
  (forall i : nat, i < k -> exists e : exn, chat_create (llm_calls w + i) prompt = Raise e) /\
  chat_create (llm_calls w + k) prompt = Ok content /\
  llm_calls w' = llm_calls w + k + 1 /\
  slept w' = slept w ++ map pause (seq 0 k).

(** All [n] requests failed, the last one with [e]: [n] requests were sent
    and the pauses were 1, 2, ..., [2^(n-2)] seconds, none after the last
    failure. *)
Definition gave_up_after (chat_create : nat -> string -> Except string)
    (prompt : string) (w w' : io) (n : nat) (e : exn) : Prop :=
  (forall i : nat, i < n -> exists e' : exn, chat_create (llm_calls w + i) prompt = Raise e') /\
  chat_create (llm_calls w + (n - 1)) prompt = Raise e /\
  llm_calls w' = llm_calls w + n /\
  slept w' = slept w ++ map pause (seq 0 (n - 1)).

(** *** Sample endpoint *)

(** An endpoint that is down. *)
Definition chat_down (n : nat) (prompt : string) : Except string :=
  Raise (ServiceError "connection timed out").

Definition fixed_prompt (user_articles candidate_articles : list pydict)
    (tag_count tag_wildcard article_count article_wildcard : Z) : Except string :=
  Ok "recommend".

(** ** Reference decoders

    Executable stand-ins for [json.loads] and [float(str)], used to run the
    pipeline on sample replies.  They follow the JSON grammar as the Python
    decoder reads it (with its [NaN] and [Infinity] literals); [\u] escapes
    are not decoded. *)

Definition dquote : ascii := ascii_of_nat 34.
Definition backslash : ascii := ascii_of_nat 92.

Definition is_digit (c : ascii) : bool :=
  let n := nat_of_ascii c in (48 <=? n) && (n <=? 57).

Definition digit_value (c : ascii) : Z := Z.of_nat (nat_of_ascii c - 48).

(** The digits at the head of [l]: their value after [acc], their number and
    the rest of the input. *)
Fixpoint read_digits (l : list ascii) (acc : Z) (count : nat) : Z * nat * list ascii :=
  match l with
  | c :: l' =>
      if is_digit c then read_digits l' (10 * acc + digit_value c)%Z (S count)
      else (acc, count, l)
  | [] => (acc, count, [])
  end.

Definition json_ws (c : ascii) : bool :=
  let n := nat_of_ascii c in (n =? 32) || (n =? 9) || (n =? 10) || (n =? 13).

Fixpoint skip_ws (l : list ascii) : list ascii :=
  match l with
  | c :: l' => if json_ws c then skip_ws l' else l
  | [] => []
  end.

(** [l] starts with the characters of [p]: what follows them. *)
Definition after_prefix (p : string) (l : list ascii) : option (list ascii) :=
  let pl := list_ascii_of_string p in
  if String.prefix p (string_of_list_ascii l) then Some (drop (length pl) l) else None.

(** The exponent part [e+12], when there is one. *)
Definition read_exponent (l : list ascii) : option (Z * list ascii) :=
  match l with
  | c :: l1 =>
      if Ascii.eqb c "e" || Ascii.eqb c "E" then
        let '(neg, l2) :=
          match l1 with
          | s :: l2 =>
              if Ascii.eqb s "-" then (true, l2)
              else if Ascii.eqb s "+" then (false, l2) else (false, l1)
          | [] => (false, l1)
          end in
        let '(e, count, l3) := read_digits l2 0 0 in
        if (count =? 0)%nat then None else Some (if neg then (- e)%Z else e, l3)
      else None
  | [] => None
  end.

(** A number without its sign: an [int], or a [float] when a fraction or an
    exponent is present. *)
Definition read_number (l : list ascii) : option (pyval * list ascii) :=
  let '(i, icount, l1) := read_digits l 0 0 in
  let leading_zero :=
    match l with c :: _ => Ascii.eqb c "0" && (1 <? icount)%nat | [] => false end in
  if (icount =? 0)%nat || leading_zero then None
  else
    let '(frac, l2) :=
      match l1 with
      | c :: l1' =>
          if Ascii.eqb c "." then
            let '(f, fcount, l2) := read_digits l1' 0 0 in
            if (fcount =? 0)%nat then (None, l1)
            else (Some (f # Pos.of_nat (10 ^ fcount)), l2)
          else (None, l1)
      | [] => (None, l1)
      end in
    match frac, read_exponent l2 with
    | None, None => Some (PInt i, l2)
    | _, None => Some (PFloat (FFin (inject_Z i + default 0%Q frac)), l2)
    | _, Some (e, l3) =>
        Some (PFloat (FFin ((inject_Z i + default 0%Q frac) * (10 ^ e))), l3)
    end.

Definition negate (v : pyval) : pyval :=
  match v with
  | PInt i => PInt (- i)
  | PFloat (FFin q) => PFloat (FFin (- q))
  | _ => v
  end.

(** The characters of a string literal after its opening quote. *)
Fixpoint read_string (l : list ascii) (acc : list ascii) : option (string * list ascii) :=
  match l with
  | [] => None
  | c :: l' =>
      if Ascii.eqb c dquote then Some (string_of_list_ascii (rev acc), l')
      else if Ascii.eqb c backslash then
        match l' with
        | e :: l'' =>
            let unescaped :=
              if Ascii.eqb e dquote || Ascii.eqb e backslash || Ascii.eqb e "/"
              then Some e
              else if Ascii.eqb e "n" then Some (ascii_of_nat 10)
              else if Ascii.eqb e "t" then Some (ascii_of_nat 9)
              else if Ascii.eqb e "r" then Some (ascii_of_nat 13)
              else if Ascii.eqb e "b" then Some (ascii_of_nat 8)
              else if Ascii.eqb e "f" then Some (ascii_of_nat 12)
              else None in
            match unescaped with
            | Some u => read_string l'' (u :: acc)
            | None => None
            end
        | [] => None
        end
      else if nat_of_ascii c <? 32 then None
      else read_string l' (c :: acc)
  end.

(** [d[k] = v] on a dict under construction. *)
Fixpoint dict_set (k : string) (v : pyval) (d : pydict) : pydict :=
  match d with
  | [] => [(k, v)]
  | (k', v') :: d' =>
      if String.eqb k k' then (k, v) :: d' else (k', v') :: dict_set k v d'
  end.

Fixpoint decode_value (fuel : nat) (l : list ascii) : option (pyval * list ascii) :=
  match fuel with
  | 0 => None
  | S fuel' =>
      match skip_ws l with
      | [] => None
      | c :: l1 =>
          if Ascii.eqb c "[" then
            match skip_ws l1 with
            | c' :: l2 =>
                if Ascii.eqb c' "]" then Some (PList [], l2)
                else decode_items fuel' l1 []
            | [] => None
            end
          else if Ascii.eqb c "{" then
            match skip_ws l1 with
            | c' :: l2 =>
                if Ascii.eqb c' "}" then Some (PDict [], l2)
                else decode_members fuel' l1 []
            | [] => None
            end
          else if Ascii.eqb c dquote then
            match read_string l1 [] with
            | Some (s, l2) => Some (PStr s, l2)
            | None => None
            end
          else if Ascii.eqb c "-" then
            match after_prefix "Infinity" l1 with
            | Some l2 => Some (PFloat (FInf true), l2)
            | None =>
                match read_number l1 with
                | Some (v, l2) => Some (negate v, l2)
                | None => None
                end
            end
          else if is_digit c then read_number (c :: l1)
          else
            match after_prefix "null" (c :: l1), after_prefix "true" (c :: l1),
                  after_prefix "false" (c :: l1), after_prefix "NaN" (c :: l1),
                  after_prefix "Infinity" (c :: l1) with
            | Some l2, _, _, _, _ => Some (PNone, l2)
            | _, Some l2, _, _, _ => Some (PBool true, l2)
            | _, _, Some l2, _, _ => Some (PBool false, l2)
            | _, _, _, Some l2, _ => Some (PFloat FNan, l2)
            | _, _, _, _, Some l2 => Some (PFloat (FInf false), l2)
            | _, _, _, _, _ => None
            end
      end
  end
with decode_items (fuel : nat) (l : list ascii) (acc : list pyval)
  : option (pyval * list ascii) :=
  match fuel with
  | 0 => None
  | S fuel' =>
      match decode_value fuel' l with
      | Some (v, l1) =>
          match skip_ws l1 with
          | c :: l2 =>
              if Ascii.eqb c "," then decode_items fuel' l2 (v :: acc)
              else if Ascii.eqb c "]" then Some (PList (rev (v :: acc)), l2)
              else None
          | [] => None
          end
      | None => None
      end
  end
with decode_members (fuel : nat) (l : list ascii) (acc : pydict)
  : option (pyval * list ascii) :=
  match fuel with
  | 0 => None
  | S fuel' =>
      match skip_ws l with
      | q :: l0 =>
          if Ascii.eqb q dquote then
            match read_string l0 [] with
            | Some (k, l1) =>
                match skip_ws l1 with
                | c :: l2 =>
                    if Ascii.eqb c ":" then
                      match decode_value fuel' l2 with
                      | Some (v, l3) =>
                          match skip_ws l3 with
                          | c' :: l4 =>
                              if Ascii.eqb c' "," then
                                decode_members fuel' l4 (dict_set k v acc)
                              else if Ascii.eqb c' "}" then
                                Some (PDict (dict_set k v acc), l4)
                              else None
                          | [] => None
                          end
                      | None => None
                      end
                    else None
                | [] => None
                end
            | None => None
            end
          else None
      | [] => None
      end
  end.

(** The reference [json.loads]: one value, surrounded by whitespace only. *)
Definition json_loads_ref (s : string) : Except pyval :=
  let l := list_ascii_of_string s in
  match decode_value (2 * length l + 2) l with
  | Some (v, rest) =>
      match skip_ws rest with
      | [] => Ok v
      | _ => Raise JSONDecodeError
      end
  | None => Raise JSONDecodeError
  end.

(** The reference [float(s)]: a number in the notation above, with optional
    sign, or one of [nan], [inf], [-inf]. *)
Definition float_of_str_ref (s : string) : option pyfloat :=
  let t := strip s in
  if String.eqb t "nan" then Some FNan
  else if String.eqb t "inf" then Some (FInf false)
  else if String.eqb t "-inf" then Some (FInf true)
  else
    let l := list_ascii_of_string t in
    let '(neg, l1) :=
      match l with
      | c :: l' => if Ascii.eqb c "-" then (true, l') else (false, l)
      | [] => (false, l)
      end in
    match read_number l1 with
    | Some (PInt i, []) => Some (FFin (inject_Z (if neg then - i else i)))
    | Some (PFloat (FFin q), []) => Some (FFin (if neg then - q else q))
    | _ => None
    end.

(** A string literal of the reply text: [s] between double quotes. *)
Definition quoted (s : string) : string :=
  String dquote (s +:+ String dquote EmptyString).

(** *** Sample replies *)

(** A reply in a code fence, with a score above the range, an entry without
    score, a score given as text, a long decimal and a null score. *)
Definition sample_reply : string :=
  "```json
{" +:+ quoted "tags" +:+ ": [{" +:+ quoted "tag" +:+ ": " +:+ quoted "ai" +:+ ", "
  +:+ quoted "score" +:+ ": 7.25, " +:+ quoted "wildcard" +:+ ": true}, {"
  +:+ quoted "tag" +:+ ": " +:+ quoted "x" +:+ "}, {"
  +:+ quoted "tag" +:+ ": " +:+ quoted "low" +:+ ", "
  +:+ quoted "score" +:+ ": " +:+ quoted "-3" +:+ "}], "
  +:+ quoted "articles" +:+ ": [{" +:+ quoted "id" +:+ ": " +:+ quoted "a1" +:+ ", "
  +:+ quoted "score" +:+ ": 4.123456}, {" +:+ quoted "id" +:+ ": " +:+ quoted "a2"
  +:+ ", " +:+ quoted "score" +:+ ": null}]}
```".

(** A reply cut off after its first brace. *)
Definition truncated_reply : string := "```json
{" +:+ quoted "tags" +:+ ": [{".

(** ** Skip-update policy ([user_manager.py]) *)

(** A [datetime]: the wall-clock reading in microseconds since
    1970-01-01T00:00:00, and the UTC offset of its [tzinfo] in microseconds,
    absent for a naive value. *)
Record datetime : Type := {
  micros : Z;
  utcoffset : option Z
}.

(** [a - b] on datetimes: a [timedelta], in microseconds; a naive and an
    aware value cannot be subtracted. *)
Definition datetime_sub (a b : datetime) : Except Z :=
  match utcoffset a, utcoffset b with
  | None, None => Ok (micros a - micros b)%Z
  | Some oa, Some ob => Ok ((micros a - oa) - (micros b - ob))%Z
  | _, _ => Raise TypeError
  end.

(** [timedelta.total_seconds()] *)
Definition total_seconds (delta : Z) : Q := delta # 1000000.

(** [s.replace('Z', '+00:00')] *)
Fixpoint replace_Z (s : string) : string :=
  match s with
  | EmptyString => EmptyString
  | String c s' =>
      if Ascii.eqb c "Z" then "+00:00" +:+ replace_Z s' else String c (replace_Z s')
  end.

Section SkipUpdate.

(** [datetime.fromisoformat]: the value the text denotes, or nothing
    ([ValueError]). *)
Variable fromisoformat : string -> option datetime.

(** The body of the [try] block; [now] is the reading of
    [datetime.utcnow()], a naive value. *)
Definition should_skip_update_body (now : Z) (user_data : pydict) (hours_threshold : Z)
  : Except bool :=
  let last_updated := dict_get_default "recommendations_updated_at" PNone user_data in
  if negb (py_truthy last_updated) then Ok false
  else
    match last_updated with
    | PStr s =>
        match fromisoformat (replace_Z s) with
        | Some last_update =>
            delta ← datetime_sub {| micros := now; utcoffset := None |} last_update;
            let hours_diff := (total_seconds delta / 3600)%Q in
            Ok (if Qlt_le_dec hours_diff (inject_Z hours_threshold) then true else false)
        | None => Raise ValueError
        end
    | _ => Raise AttributeError
    end.

Definition should_skip_update (now : Z) (user_data : pydict) (hours_threshold : Z) : bool :=
  match should_skip_update_body now user_data hours_threshold with
  | Ok b => b
  | Raise _ => false
  end.

End SkipUpdate.

(** *** Reference [fromisoformat]

    The texts [YYYY-MM-DD?HH:MM:SS], with an optional fraction of 3 or 6
    digits and an optional offset [+HH:MM] or [-HH:MM]. *)

(** Exactly [n] digits at the head of [l]. *)
Definition read_fixed (n : nat) (l : list ascii) : option (Z * list ascii) :=
  let d := take n l in
  if (length d =? n)%nat && forallb is_digit d
  then Some (fst (fst (read_digits d 0 0)), drop n l) else None.

(** The character [c] at the head of [l]. *)
Definition expect (c : ascii) (l : list ascii) : option (list ascii) :=
  match l with
  | c' :: l' => if Ascii.eqb c c' then Some l' else None
  | [] => None
  end.

Definition is_leap (y : Z) : bool :=
  ((y mod 4 =? 0) && negb (y mod 100 =? 0) || (y mod 400 =? 0))%Z.

Definition days_in_month (y m : Z) : Z :=
  if (m =? 2)%Z then (if is_leap y then 29 else 28)
  else if ((m =? 4) || (m =? 6) || (m =? 9) || (m =? 11))%Z then 30 else 31.

(** Days from 1970-01-01 to the given date of the proleptic Gregorian
    calendar. *)
Definition days_from_civil (y m d : Z) : Z :=
  let y' := if (m <=? 2)%Z then (y - 1)%Z else y in
  let era := (y' / 400)%Z in
  let yoe := (y' - era * 400)%Z in
  let doy := ((153 * (if (m <=? 2)%Z then m + 9 else m - 3) + 2) / 5 + d - 1)%Z in
  let doe := (yoe * 365 + yoe / 4 - yoe / 100 + doy)%Z in
  (era * 146097 + doe - 719468)%Z.

Definition read_fraction (l : list ascii) : option (Z * list ascii) :=
  match expect "." l with
  | Some l1 =>
      match read_fixed 6 l1, read_fixed 3 l1 with
      | Some r, _ => Some r
      | None, Some (ms, l2) => Some ((ms * 1000)%Z, l2)
      | None, None => None
      end
  | None => Some (0%Z, l)
  end.

Definition read_offset (l : list ascii) : option (option Z) :=
  match l with
  | [] => Some None
  | sign :: l1 =>
      if Ascii.eqb sign "+" || Ascii.eqb sign "-" then
        match read_fixed 2 l1 with
        | Some (h, l2) =>
            match expect ":" l2 with
            | Some l3 =>
                match read_fixed 2 l3 with
                | Some (m, []) =>
                    if ((h <? 24) && (m <? 60))%Z then
                      let off := ((h * 60 + m) * 60000000)%Z in
                      Some (Some (if Ascii.eqb sign "-" then (- off)%Z else off))
                    else None
                | _ => None
                end
            | None => None
            end
        | None => None
        end
      else None
  end.

Definition fromisoformat_ref (s : string) : option datetime :=
  '(y, l) ← read_fixed 4 (list_ascii_of_string s);
  l ← expect "-" l;
  '(mo, l) ← read_fixed 2 l;
  l ← expect "-" l;
  '(d, l) ← read_fixed 2 l;
  match l with
  | [] => None
  | _ :: l =>
      '(h, l) ← read_fixed 2 l;
      l ← expect ":" l;
      '(mi, l) ← read_fixed 2 l;
      l ← expect ":" l;
      '(sec, l) ← read_fixed 2 l;
      '(us, l) ← read_fraction l;
      off ← read_offset l;
      if ((1 <=? y) && (1 <=? mo) && (mo <=? 12) && (1 <=? d)
          && (d <=? days_in_month y mo) && (h <? 24) && (mi <? 60) && (sec <? 60))%Z
      then
        Some {| micros :=
                  ((((days_from_civil y mo d * 24 + h) * 60 + mi) * 60 + sec)
                   * 1000000 + us)%Z;
                utcoffset := off |}
      else None
  end.

(** *** Sample users *)

(** 2025-01-01T01:00:00, as read from [datetime.utcnow()]. *)
Definition sample_now : Z := 1735693200000000.

(** Updated one hour before [sample_now], the time written with the UTC
    designator. *)
Definition user_updated_utc : pydict :=
  [("id", PStr "u1"); ("recommendations_updated_at", PStr "2025-01-01T00:00:00Z")].

(** Updated one hour before [sample_now], the time written as
    [update_user_recommendations] writes it. *)
Definition user_updated_naive : pydict :=
  [("id", PStr "u2");
   ("recommendations_updated_at", PStr "2025-01-01T00:00:00.000000")].

(** Updated exactly 24 hours before [sample_now]. *)
Definition user_updated_day_before : pydict :=
  [("id", PStr "u3"); ("recommendations_updated_at", PStr "2024-12-31T01:00:00")].

Definition user_never_updated : pydict := [("id", PStr "u4")].

(** ** The document store gateway ([cosmos_helper.py]) *)

(** The queries sent to the articles container. *)
Inductive query : Type :=
| ActivePublished (limit : Z)
  (** [SELECT TOP limit c.id, c.title, c.abstract, c.tags, c.status,
      c.is_active FROM c WHERE c.is_active = true AND c.status = 'published'] *)
| AnyArticle (limit : Z)
  (** [SELECT TOP limit c.id, c.title, c.abstract, c.tags FROM c] *)
| ByIds (ids : list string)
  (** [SELECT ... FROM c WHERE c.id IN ('id1', 'id2', ...)] *).

(** A request made to the store. *)
Inductive store_call : Type :=
| Queried (q : query)
| Read (id : string).

(** An entry of [_article_cache]. *)
Record cache_entry : Type := {
  article : pydict;
  timestamp : Q
}.

Definition _cache_ttl : Q := 300.

(** The mutable part of a [CosmosHelper] and the requests it has made, oldest
    first. *)
Record gateway : Type := {
  _article_cache : gmap string cache_entry;
  store_log : list store_call
}.

Definition with_cache (cache : gmap string cache_entry) (g : gateway) : gateway :=
  {| _article_cache := cache; store_log := store_log g |}.

Definition logged (c : store_call) (g : gateway) : gateway :=
  {| _article_cache := _article_cache g; store_log := store_log g ++ [c] |}.

(** [time.time() - cache_entry.get('timestamp', 0) < self._cache_ttl] *)
Definition _is_cache_valid (now : Q) (entry : cache_entry) : bool :=
  if Qlt_le_dec (now - timestamp entry) _cache_ttl then true else false.

(** The loop of [_get_from_cache]: the cached articles, the missing ids and
    the cache without the expired entries it met. *)
Fixpoint _get_from_cache (now : Q) (article_ids : list string)
    (cache : gmap string cache_entry)
  : list pydict * list string * gmap string cache_entry :=
  match article_ids with
  | [] => ([], [], cache)
  | article_id :: rest =>
      match cache !! article_id with
      | Some entry =>
          if _is_cache_valid now entry then
            let '(cached, missing, cache') := _get_from_cache now rest cache in
            (article entry :: cached, missing, cache')
          else
            let '(cached, missing, cache') :=
              _get_from_cache now rest (delete article_id cache) in
            (cached, article_id :: missing, cache')
      | None =>
          let '(cached, missing, cache') := _get_from_cache now rest cache in
          (cached, article_id :: missing, cache')
      end
  end.

(** The loop of [_update_cache].  An article whose id is falsy is passed
    over; a list or a dict as id raises [TypeError] and leaves the entries
    written so far; another id that is not a string is stored under a key no
    string id can reach, which the string-keyed map leaves out. *)
Fixpoint _update_cache (current_time : Q) (articles : list pydict)
    (cache : gmap string cache_entry) : gmap string cache_entry * Except unit :=
  match articles with
  | [] => (cache, Ok tt)
  | a :: rest =>
      let article_id := dict_get_default "id" PNone a in
      if negb (py_truthy article_id) then _update_cache current_time rest cache
      else
        match article_id with
        | PStr s =>
            _update_cache current_time rest
              (<[s := {| article := a; timestamp := current_time |}]> cache)
        | PList _ | PDict _ => (cache, Raise TypeError)
        | _ => _update_cache current_time rest cache
        end
  end.

Section Store.

(** [articles_container.query_items]: the rows of a query, or the error of
    the store. *)
Variable query_items : query -> Except (list pydict).

(** [articles_container.read_item]: the document with the given id, or
    the error ([CosmosResourceNotFoundError] or another one). *)
Variable read_item : string -> Except pydict.

(** The loop of [_get_articles_by_ids_fallback]. *)
Fixpoint _get_articles_by_ids_fallback (article_ids : list string) (g : gateway)
  : gateway * list pydict :=
  match article_ids with
  | [] => (g, [])
  | article_id :: rest =>
      let g1 := logged (Read article_id) g in
      let '(g2, articles) := _get_articles_by_ids_fallback rest g1 in
      match read_item article_id with
      | Ok a => (g2, a :: articles)
      | Raise _ => (g2, articles)
      end
  end.

Definition get_articles_by_ids (article_ids : list string) (g : gateway)
  : gateway * list pydict :=
  match article_ids with
  | [] => (g, [])
  | _ =>
      let g1 := logged (Queried (ByIds article_ids)) g in
      match query_items (ByIds article_ids) with
      | Ok articles => (g1, articles)
      | Raise _ => _get_articles_by_ids_fallback article_ids g1
      end
  end.

(** [get_articles_by_ids_optimized]; [now] is the reading of [time.time()]
    while the cache is consulted, [current_time] the one taken by
    [_update_cache]. *)
Definition get_articles_by_ids_optimized (now current_time : Q)
    (article_ids : list string) (g : gateway) : gateway * list pydict :=
  match article_ids with
  | [] => (g, [])
  | _ =>
      let '(cached_articles, missing_ids, cache1) :=
        _get_from_cache now article_ids (_article_cache g) in
      let g1 := with_cache cache1 g in
      match missing_ids with
      | [] => (g1, cached_articles)
      | _ =>
          let g2 := logged (Queried (ByIds missing_ids)) g1 in
          match query_items (ByIds missing_ids) with
          | Ok db_articles =>
              let '(cache2, updated) := _update_cache current_time db_articles cache1 in
              match updated with
              | Ok _ => (with_cache cache2 g2, cached_articles ++ db_articles)
              | Raise _ => get_articles_by_ids article_ids (with_cache cache2 g2)
              end
          | Raise _ => get_articles_by_ids article_ids g2
          end
      end
  end.

(** [it.get("id") in exclude_ids], [exclude_ids] being a set of strings. *)
Definition excluded (exclude_ids : gset string) (it : pydict) : Except bool :=
  match dict_get_default "id" PNone it with
  | PStr s => Ok (bool_decide (s ∈ exclude_ids))
  | PList _ | PDict _ => Raise TypeError
  | _ => Ok false
  end.

(** One round of the loop over [items]. *)
Definition candidate_of (exclude_ids : gset string) (it : pydict)
  : Except (option pydict) :=
  skip ← excluded exclude_ids it;
  if skip : bool then Ok None
  else Ok (Some (dict_setdefault "tags" (PList [])
                   (dict_setdefault "abstract" (PStr "") it))).

(** The body of the [try] block of [get_candidate_articles]. *)
Definition get_candidate_articles_body (exclude_ids : option (list string)) (limit : Z)
  : Except (list pydict) :=
  let exclude_ids : gset string := list_to_set (default [] exclude_ids) in
  items ← query_items (ActivePublished limit);
  items ← match items with
          | [] => query_items (AnyArticle limit)
          | _ => Ok items
          end;
  except_omap (candidate_of exclude_ids) items.

Definition get_candidate_articles (exclude_ids : option (list string)) (limit : Z)
  : list pydict :=
  match get_candidate_articles_body exclude_ids limit with
  | Ok candidates => candidates
  | Raise _ => []
  end.

End Store.

(** The id of the article is not in the exclusion set. *)
Definition not_excluded (exclude_ids : list string) (it : pydict) : Prop :=
  forall s : string, dict_get "id" it = Some (PStr s) -> s ∉ exclude_ids.

(** The field [k] of the article is present and is not [None]. *)
Definition field_not_null (k : string) (it : pydict) : Prop :=
  exists v : pyval, dict_get k it = Some v /\ v <> PNone.

(** The field [k] of [it] is the one of the row [row], or [fallback] when the
    row has no such key. *)
Definition field_defaulted (k : string) (fallback : pyval) (row it : pydict) : Prop :=
  dict_get k it = Some (dict_get_default k fallback row).

(** *** Sample stores *)

(** A store with one published article whose abstract and tags are null. *)
Definition store_null_abstract (q : query) : Except (list pydict) :=
  match q with
  | ActivePublished _ =>
      Ok [[("id", PStr "a3"); ("title", PStr "Untitled draft");
           ("abstract", PNone); ("tags", PNone);
           ("status", PStr "published"); ("is_active", PBool true)]]
  | _ => Ok []
  end.

(** The rows the candidate pool is built from: those of the filtered query,
    or those of the unfiltered one when the filtered query has none. *)
Definition pool_rows (query_items : query -> Except (list pydict)) (limit : Z)
    (rows : list pydict) : Prop :=
  (query_items (ActivePublished limit) = Ok rows /\ rows <> []) \/
  (query_items (ActivePublished limit) = Ok [] /\
   query_items (AnyArticle limit) = Ok rows).

(** The article cached for [id] when its entry is younger than the TTL. *)
Definition fresh (now : Q) (cache : gmap string cache_entry) (id : string)
  : option pydict :=
  match cache !! id with
  | Some entry => if _is_cache_valid now entry then Some (article entry) else None
  | None => None
  end.

Definition is_fresh (now : Q) (cache : gmap string cache_entry) (id : string) : bool :=
  match fresh now cache id with
  | Some _ => true
  | None => false
  end.

(** The request asks the store for the article [id]. *)
Definition asks_for (id : string) (c : store_call) : bool :=
  match c with
  | Queried (ByIds ids) => bool_decide (id ∈ ids)
  | Queried _ => false
  | Read id' => String.eqb id id'
  end.

(** Every requested id with a fresh cache entry is answered with the cached
    article, and none of the requests made during the lookup (those of [g']
    after the first [n]) asks the store for it. *)
Definition served_from_cache (now : Q) (article_ids : list string)
    (cache : gmap string cache_entry) (n : nat) (g' : gateway) (result : list pydict)
  : Prop :=
  forall (id : string) (a : pydict),
    id ∈ article_ids -> fresh now cache id = Some a ->
    a ∈ result /\ existsb (asks_for id) (drop n (store_log g')) = false.

(** After the update, the cache holds under the id of [a] an article of
    [db_articles] with that id, stamped with [current_time]. *)
Definition cached_at (current_time : Q) (db_articles : list pydict)
    (cache : gmap string cache_entry) (a : pydict) : Prop :=
  forall s : string,
    dict_get "id" a = Some (PStr s) -> s <> "" ->
    exists a' : pydict,
      cache !! s = Some {| article := a'; timestamp := current_time |} /\
      a' ∈ db_articles /\ dict_get "id" a' = Some (PStr s).

(** *** Sample gateway *)

Definition cached_a1 : pydict :=
  [("id", PStr "a1"); ("title", PStr "Solar storage");
   ("abstract", PStr "Batteries for the grid")].

Definition stored_a1 : pydict :=
  [("id", PStr "a1"); ("title", PStr "Solar storage, revised");
   ("abstract", PStr "Batteries for the grid")].

Definition stored_a2 : pydict :=
  [("id", PStr "a2"); ("title", PStr "Wind"); ("abstract", PStr "Turbines")].

(** [a1] was cached at time 1000. *)
Definition gateway_a1 : gateway :=
  {| _article_cache := {[ "a1" := {| article := cached_a1; timestamp := 1000 |} ]};
     store_log := [] |}.

(** A store whose queries fail while its point reads work. *)
Definition queries_down (q : query) : Except (list pydict) :=
  Raise (ServiceError "query failed").

Definition reads_up (id : string) : Except pydict :=
  if String.eqb id "a1" then Ok stored_a1
  else if String.eqb id "a2" then Ok stored_a2
  else Raise (ServiceError "not found").

(** A store that answers the queries by id. *)
Definition queries_up (q : query) : Except (list pydict) :=
  match q with
  | ByIds ids =>
      Ok (omap (fun id => match reads_up id with Ok a => Some a | Raise _ => None end)
            ids)
  | _ => Ok []
  end.

(** No article of the list has a list or a dict as a truthy id, the ids
    [_update_cache] cannot use as keys. *)
Definition ids_hashable (articles : list pydict) : bool :=
  forallb (fun a : pydict =>
             match dict_get_default "id" PNone a with
             | PList (_ :: _) | PDict (_ :: _) => false
             | _ => true
             end) articles.

(** ** Trend aggregation ([trending_helper.py]) *)

(** The list inside [_get_trending_from_twitter]. *)
Definition current_trending : list string :=
  ["ai-advancements"; "climate-action"; "tech-innovation"; "global-economy";
   "space-exploration"].

(** The list inside [_get_fallback_trending_topics]. *)
Definition fallback_trending : list string :=
  ["ai-breakthrough"; "climate-solutions"; "tech-innovation"; "global-events";
   "space-news"; "health-advances"; "economic-trends"; "sports-highlights"].

Definition _get_trending_from_twitter (limit : Z) : list string :=
  py_slice_to limit current_trending.

Definition _get_fallback_trending_topics (limit : Z) : list string :=
  py_slice_to limit fallback_trending.

(** [list(dict.fromkeys(l))]: the keys in insertion order, a key being
    inserted the first time it is met. *)
Definition dict_fromkeys (l : list string) : list string :=
  fold_left (fun keys x => if bool_decide (x ∈ keys) then keys else keys ++ [x]) l [].

(** The first occurrences of the items of a list, in order. *)
Fixpoint first_seen (l : list string) : list string :=
  match l with
  | [] => []
  | x :: l' => x :: List.filter (fun y => negb (bool_decide (y = x))) (first_seen l')
  end.

Section Trending.

(** [os.getenv("NEWS_API_KEY")] *)
Variable news_api_key : option string.

(** The [try] blocks of [_get_trending_from_newsapi] (after the key test) and
    of [_get_trending_from_reddit]: the request, the topics extracted from
    the titles and the final [topics[:limit]], or the error raised on the
    way. *)
Variable newsapi_topics : Z -> Except (list string).
Variable reddit_topics : Z -> Except (list string).

(** [if self.news_api_key:] *)
Definition has_news_api_key : bool :=
  match news_api_key with
  | Some k => negb (String.eqb k "")
  | None => false
  end.

Definition _get_trending_from_newsapi (limit : Z) : list string :=
  if negb has_news_api_key then []
  else
    match newsapi_topics limit with
    | Ok topics => topics
    | Raise _ => []
    end.

Definition _get_trending_from_reddit (limit : Z) : list string :=
  match reddit_topics limit with
  | Ok topics => topics
  | Raise _ => []
  end.

(** The body of the [try] block of [get_trending_topics]. *)
Definition get_trending_topics_body (limit : Z) : Except (list string) :=
  let trending_topics := [] in
  let trending_topics :=
    if has_news_api_key then trending_topics ++ _get_trending_from_newsapi limit
    else trending_topics in
  let trending_topics := trending_topics ++ _get_trending_from_reddit limit in
  let trending_topics := trending_topics ++ _get_trending_from_twitter limit in
  Ok (py_slice_to limit (dict_fromkeys trending_topics)).

Definition get_trending_topics (limit : Z) : list string :=
  match get_trending_topics_body limit with
  | Ok unique_topics => unique_topics
  | Raise _ => _get_fallback_trending_topics limit
  end.

End Trending.

(** *** Sample feeds *)

Definition news_feed_down (limit : Z) : Except (list string) :=
  Raise (ServiceError "401 Unauthorized").

Definition social_feed_three (limit : Z) : Except (list string) :=
  Ok (py_slice_to limit ["quantum-chips"; "mars-rover"; "ocean-cleanup"]).

(** ** Further operations and statements *)

(** [clear_article_cache] *)
Definition clear_article_cache (g : gateway) : gateway := with_cache ∅ g.

(** What [read_item] contributes to the individual-lookup fallback. *)
Definition read_ok (read_item : string -> Except pydict) (id : string) : option pydict :=
  match read_item id with
  | Ok a => Some a
  | Raise _ => None
  end.

(** The record carries no timestamp the policy can use: the field is
    missing or falsy, is not a string, or is a text [fromisoformat]
    rejects. *)
Definition no_usable_timestamp (fromisoformat : string -> option datetime)
    (user_data : pydict) : Prop :=
  match dict_get_default "recommendations_updated_at" PNone user_data with
  | PStr s => s = "" \/ fromisoformat (replace_Z s) = None
  | _ => True
  end.

(** A value a [for] loop accepts. *)
Definition iterable (v : pyval) : bool :=
  match v with
  | PList _ | PStr _ | PDict _ => true
  | _ => false
  end.

(** The decoded document has not the shape the parser walks through: it is
    not an object, or its [tags] or [articles] member is not iterable. *)
Definition unusable_document (data : pyval) : Prop :=
  match data with
  | PDict d =>
      iterable (dict_get_default "tags" (PList []) d) = false \/
      iterable (dict_get_default "articles" (PList []) d) = false
  | _ => True
  end.

(** The value is a Python [bool]. *)
Definition is_bool (v : pyval) : Prop := exists b : bool, v = PBool b.

(** A truthy id that is not a string. *)
Definition bad_id (a : pydict) : bool :=
  match dict_get_default "id" PNone a with
  | PStr _ => false
  | v => py_truthy v
  end.

(** The id of the row can be looked up in a set. *)
Definition id_hashable (row : pydict) : bool :=
  match dict_get_default "id" PNone row with
  | PList _ | PDict _ => false
  | _ => true
  end.

(** The row's id is a string of the exclusion list. *)
Definition id_excluded (exclude_ids : list string) (row : pydict) : bool :=
  match dict_get_default "id" PNone row with
  | PStr s => bool_decide (s ∈ exclude_ids)
  | _ => false
  end.

(** The two [setdefault] calls of [get_candidate_articles]. *)
Definition with_default_fields (row : pydict) : pydict :=
  dict_setdefault "tags" (PList []) (dict_setdefault "abstract" (PStr "") row).

(** *** More sample data *)

(** A reply whose second article has a number as id. *)
Definition reply_numeric_id : recommendations :=
  {| tags := [[("tag", PStr "energy"); ("score", PFloat (FFin 4.5));
               ("wildcard", PBool false)]];
     articles := [[("id", PStr "a1"); ("score", PFloat (FFin 4));
                   ("wildcard", PBool false)];
                  [("id", PInt 7); ("score", PFloat (FFin 3));
                   ("wildcard", PBool false)]] |}.

(** A store with three published articles, one without abstract and tags. *)
Definition store_three (q : query) : Except (list pydict) :=
  match q with
  | ActivePublished _ =>
      Ok [[("id", PStr "a1"); ("title", PStr "Solar storage");
           ("abstract", PStr "Batteries for the grid"); ("tags", PList [PStr "energy"])];
          [("id", PStr "a2"); ("title", PStr "Wind")];
          [("id", PStr "a3"); ("title", PStr "Tides");
           ("abstract", PStr "Barrages"); ("tags", PList [])]]
  | _ => Ok []
  end.

(** An endpoint that answers the third request. *)
Definition chat_third_time (n : nat) (prompt : string) : Except string :=
  if (n <? 2)%nat then Raise (ServiceError "429 Too Many Requests") else Ok "{}".

(** A reply whose tags member is null while its articles are well formed. *)
Definition reply_null_tags : string :=
  "{" +:+ quoted "tags" +:+ ": null, " +:+ quoted "articles" +:+ ": [{"
  +:+ quoted "id" +:+ ": " +:+ quoted "a1" +:+ ", " +:+ quoted "score" +:+ ": 4}]}".

(** The two fields kept of a tag entry. *)
Definition tag_fields (t : pydict) : pydict :=
  [("tag", dict_get_default "tag" PNone t); ("score", dict_get_default "score" PNone t)].

(** The article stored for a reply entry with the string id [s]. *)
Definition stored_article (candidates : list pydict) (a : pydict) : option pydict :=
  match dict_get_default "id" PNone a with
  | PStr s =>
      if String.eqb s "" then None
      else Some [("id", PStr s);
                 ("score", dict_get_default "score" (PInt 0) a);
                 ("abstract",
                  if is_trend_id s then PStr trending_abstract
                  else abstract_of_candidate s candidates)]
  | _ => None
  end.

(** ** The parser of tag recommendations ([azure_openai_helper.py]) *)

(** [a <= b] on floats. *)
Definition float_le (a b : pyfloat) : bool :=
  match a, b with
  | FNan, _ | _, FNan => false
  | FInf true, _ => true
  | _, FInf false => true
  | FInf false, _ => false
  | _, FInf true => false
  | FFin x, FFin y => Qle_bool x y
  end.

(** [tag in all_available_tags], the list holding strings. *)
Definition tag_available (all_available_tags : list string) (tag : pyval) : bool :=
  match tag with
  | PStr s => bool_decide (s ∈ all_available_tags)
  | _ => false
  end.

(** [x["score"]] of an entry of [valid_recommendations]. *)
Definition score_of (e : pydict) : pyfloat :=
  match dict_get "score" e with
  | Some (PFloat f) => f
  | _ => FNan
  end.

(** [l.sort(key=lambda x: x["score"], reverse=True)]: the stable sort in
    non-increasing order of the scores, as successive insertions; an entry
    goes behind the entries with a score at least as high. *)
Fixpoint insert_by_score (x : pydict) (l : list pydict) : list pydict :=
  match l with
  | [] => [x]
  | y :: l' =>
      if float_lt (score_of y) (score_of x) then x :: y :: l'
      else y :: insert_by_score x l'
  end.

Definition sort_by_score (l : list pydict) : list pydict :=
  fold_left (fun sorted x => insert_by_score x sorted) l [].

Section TagParser.

Variable json_loads : string -> Except pyval.
Variable float_of_str : string -> option pyfloat.

(** One round of the loop over the decoded recommendations: the entry
    appended, nothing when the item is passed over, or the error that the
    inner handler, which catches [ValueError] and [TypeError] only, lets
    through. *)
Definition validate_tag (all_available_tags : list string) (rec : pyval)
  : Except (option pydict) :=
  match rec with
  | PDict d =>
      match dict_get "tag" d, dict_get "score" d with
      | Some tag, Some score =>
          if tag_available all_available_tags tag then
            match py_float float_of_str score with
            | Ok score_float =>
                if float_le (FFin 1) score_float && float_le score_float (FFin 5)
                then Ok (Some [("tag", tag); ("score", PFloat score_float)])
                else Ok None
            | Raise ValueError | Raise TypeError => Ok None
            | Raise e => Raise e
            end
          else Ok None
      | _, _ => Ok None
      end
  | _ => Ok None
  end.

(** The body of the [try] block. *)
Definition _parse_tag_recommendations_body (response : string)
    (all_available_tags : list string) : Except (list pydict) :=
  let response := strip (strip_code_fence response) in
  recommendations ← json_loads response;
  items ← py_iter recommendations;
  valid_recommendations ← except_omap (validate_tag all_available_tags) items;
  Ok (take 10 (sort_by_score valid_recommendations)).

Definition _parse_tag_recommendations (response : string)
    (all_available_tags : list string) : list pydict :=
  match _parse_tag_recommendations_body response all_available_tags with
  | Ok recs => recs
  | Raise _ => []
  end.

End TagParser.

(** The entry is one of the decoded items, with a tag of the list and the
    score of the item as [float] reads it, between 1 and 5. *)
Definition validated_from (float_of_str : string -> option pyfloat)
    (all_available_tags : list string) (items : list pyval) (e : pydict) : Prop :=
  exists (d : pydict) (s : string) (raw : pyval) (q : Q),
    PDict d ∈ items /\
    dict_get "tag" d = Some (PStr s) /\ s ∈ all_available_tags /\
    dict_get "score" d = Some raw /\ py_float float_of_str raw = Ok (FFin q) /\
    (1 <= q <= 5)%Q /\
    e = [("tag", PStr s); ("score", PFloat (FFin q))].

(** The score of [a] is at least the score of [b]. *)
Definition score_ge (a b : pydict) : Prop :=
  exists qa qb : Q, score_of a = FFin qa /\ score_of b = FFin qb /\ (qb <= qa)%Q.

(** *** Sample tag replies *)

Definition available_tags : list string := ["ai"; "energy"; "space"; "health"].

(** Four recommendations: one above the range, one for an unknown tag, two
    valid in increasing order of score. *)
Definition tag_reply : string :=
  "[{" +:+ quoted "tag" +:+ ": " +:+ quoted "ai" +:+ ", " +:+ quoted "score" +:+ ": 7}, {"
  +:+ quoted "tag" +:+ ": " +:+ quoted "sports" +:+ ", " +:+ quoted "score" +:+ ": 4}, {"
  +:+ quoted "tag" +:+ ": " +:+ quoted "energy" +:+ ", " +:+ quoted "score" +:+ ": 2.5}, {"
  +:+ quoted "tag" +:+ ": " +:+ quoted "space" +:+ ", " +:+ quoted "score" +:+ ": "
  +:+ quoted "4.5" +:+ "}]".

(** A valid recommendation followed by one whose score is an integer of 401
    digits. *)
Definition tag_reply_huge_score : string :=
  "[{" +:+ quoted "tag" +:+ ": " +:+ quoted "energy" +:+ ", " +:+ quoted "score"
  +:+ ": 4}, {" +:+ quoted "tag" +:+ ": " +:+ quoted "ai" +:+ ", " +:+ quoted "score"
  +:+ ": 1" +:+ string_of_list_ascii (replicate 400 "0"%char) +:+ "}]".

(** ** User signals ([user_manager.py]) *)

(** The items of a list when they are all strings. *)
Fixpoint str_items (l : list pyval) : option (list string) :=
  match l with
  | [] => Some []
  | PStr s :: l' => match str_items l' with Some r => Some (s :: r) | None => None end
  | _ => None
  end.

(** [user_data.get(k, [])] for one of the three interaction fields.  The
    model covers the user documents whose interaction fields, when present,
    are lists of strings; it gives no answer ([None]) for another
    document, and the functions below, which start by reading the three
    fields, likewise. *)
Definition interaction_ids (k : string) (user_data : pydict) : option (list string) :=
  match dict_get_default k (PList []) user_data with
  | PList l => str_items l
  | _ => None
  end.

(** [list(set(l))]: the order in which a set is iterated is not specified;
    it lists every item of [l] once. *)
Record set_order : Type := {
  list_of_set : list string -> list string;
  list_of_set_NoDup : forall l : list string, NoDup (list_of_set l);
  list_of_set_elem : forall (l : list string) (x : string), x ∈ list_of_set l <-> x ∈ l
}.

(** [article_id in ids], the list holding strings. *)
Definition id_in (ids : list string) (article_id : pyval) : bool :=
  match article_id with
  | PStr s => bool_decide (s ∈ ids)
  | _ => false
  end.

(** The list [interaction_types] built for an article. *)
Definition interaction_types (liked bookmarked disliked : list string)
    (an_article : pydict) : list string :=
  let article_id := dict_get_default "id" PNone an_article in
  (if id_in liked article_id then ["liked"] else []) ++
  (if id_in bookmarked article_id then ["bookmarked"] else []) ++
  (if id_in disliked article_id then ["disliked"] else []).

(** [article["interaction_types"] = interaction_types] *)
Definition with_interaction_types (liked bookmarked disliked : list string)
    (an_article : pydict) : pydict :=
  dict_set "interaction_types"
    (PList (map PStr (interaction_types liked bookmarked disliked an_article)))
    an_article.

(** The keys under which [_update_cache] stores the articles of a list. *)
Definition cached_keys (db_articles : list pydict) : list string :=
  omap (fun a => match dict_get_default "id" PNone a with
                 | PStr s => if String.eqb s "" then None else Some s
                 | _ => None
                 end) db_articles.

(** A change made to article objects the cache holds: [f] applied to the
    article of each entry under the keys [shared]. *)
Definition mutate_cached (f : pydict -> pydict) (shared : list string)
    (cache : gmap string cache_entry) : gmap string cache_entry :=
  foldr (fun k c =>
           alter (fun e => {| article := f (article e); timestamp := timestamp e |}) k c)
    cache shared.

Section UserSignals.

Variable query_items : query -> Except (list pydict).
Variable read_item : string -> Except pydict.
Variable order : set_order.

(** [get_articles_by_ids_optimized] once more, with the keys of the cache
    entries whose article is one of the objects returned: the entries it
    served, and those it wrote.  The articles of the uncached path are fresh
    objects. *)
Definition get_articles_by_ids_optimized_shared (now current_time : Q)
    (article_ids : list string) (g : gateway) : gateway * list pydict * list string :=
  match article_ids with
  | [] => (g, [], [])
  | _ =>
      let '(cached_articles, missing_ids, cache1) :=
        _get_from_cache now article_ids (_article_cache g) in
      let served := List.filter (is_fresh now (_article_cache g)) article_ids in
      let g1 := with_cache cache1 g in
      match missing_ids with
      | [] => (g1, cached_articles, served)
      | _ =>
          let g2 := logged (Queried (ByIds missing_ids)) g1 in
          match query_items (ByIds missing_ids) with
          | Ok db_articles =>
              let '(cache2, updated) := _update_cache current_time db_articles cache1 in
              match updated with
              | Ok _ =>
                  (with_cache cache2 g2, cached_articles ++ db_articles,
                   served ++ cached_keys db_articles)
              | Raise _ =>
                  let '(g3, found) :=
                    get_articles_by_ids query_items read_item article_ids
                      (with_cache cache2 g2) in
                  (g3, found, [])
              end
          | Raise _ =>
              let '(g3, found) :=
                get_articles_by_ids query_items read_item article_ids g2 in
              (g3, found, [])
          end
      end
  end.

(** [get_user_articles_with_interactions]: the articles of the cached
    lookup, each with its [interaction_types]; the assignment changes the
    article objects, those the cache holds included. *)
Definition get_user_articles_with_interactions (now current_time : Q)
    (user_data : pydict) (g : gateway) : option (gateway * list pydict) :=
  liked_articles ← interaction_ids "liked_articles" user_data;
  bookmarked_articles ← interaction_ids "bookmarked_articles" user_data;
  disliked_articles ← interaction_ids "disliked_articles" user_data;
  let all_article_ids :=
    list_of_set order (liked_articles ++ bookmarked_articles ++ disliked_articles) in
  match all_article_ids with
  | [] => Some (g, [])
  | _ =>
      let '(g1, found, shared) :=
        get_articles_by_ids_optimized_shared now current_time all_article_ids g in
      let mark :=
        with_interaction_types liked_articles bookmarked_articles disliked_articles in
      Some (with_cache (mutate_cached mark shared (_article_cache g1)) g1,
            map mark found)
  end.

(** [prepare_user_article_ids] *)
Definition prepare_user_article_ids (user_data : pydict) (limit : Z)
  : option (list string) :=
  liked ← interaction_ids "liked_articles" user_data;
  bookmarked ← interaction_ids "bookmarked_articles" user_data;
  disliked ← interaction_ids "disliked_articles" user_data;
  Some (py_slice_to limit (list_of_set order (liked ++ bookmarked ++ disliked))).

End UserSignals.

(** The liked, bookmarked and disliked fields of the document are lists of
    strings, or absent: the user documents the functions above answer for. *)
Definition interactions_modelled (user_data : pydict) : Prop :=
  is_Some (interaction_ids "liked_articles" user_data) /\
  is_Some (interaction_ids "bookmarked_articles" user_data) /\
  is_Some (interaction_ids "disliked_articles" user_data).

(** *** Sample users with interactions *)

(** liked [a1] and [a2], bookmarked [a2]. *)
Definition user_ab : pydict :=
  [("id", PStr "u7");
   ("liked_articles", PList [PStr "a1"; PStr "a2"]);
   ("bookmarked_articles", PList [PStr "a2"]);
   ("disliked_articles", PList [])].

(** ** The users container ([cosmos_helper.py]) and the pipeline
    ([recommendation_manager.py]) *)

(** The requests sent to the users container. *)
Inductive user_call : Type :=
| UserRead (id : string)
| UserReplace (id : string) (body : pydict).

(** What a run of the pipeline works on: the chat endpoint, the articles
    container with its cache, the documents of the users container and the
    requests sent to it, oldest first. *)
Record world : Type := {
  w_chat : io;
  w_articles : gateway;
  w_users : gmap string pydict;
  w_user_calls : list user_call
}.

Definition with_chat (c : io) (w : world) : world :=
  {| w_chat := c; w_articles := w_articles w; w_users := w_users w;
     w_user_calls := w_user_calls w |}.

Definition with_articles (g : gateway) (w : world) : world :=
  {| w_chat := w_chat w; w_articles := g; w_users := w_users w;
     w_user_calls := w_user_calls w |}.

Definition user_logged (c : user_call) (w : world) : world :=
  {| w_chat := w_chat w; w_articles := w_articles w; w_users := w_users w;
     w_user_calls := w_user_calls w ++ [c] |}.

Definition with_user (user_id : string) (user : pydict) (w : world) : world :=
  {| w_chat := w_chat w; w_articles := w_articles w;
     w_users := <[user_id := user]> (w_users w);
     w_user_calls := w_user_calls w |}.

(** The readings of the clocks during one run of
    [generate_recommendations_for_user], in the order they are taken:
    [datetime.utcnow()] in [should_skip_update], [time.time()] in
    [_get_from_cache] and in [_update_cache], [datetime.utcnow()] twice in
    [update_user_recommendations] and once for the result. *)
Record readings : Type := {
  skip_now : Z;
  lookup_now : Q;
  cache_stamp : Q;
  written_at : Z;
  stamped_at : Z;
  returned_at : Z
}.

(** The dict returned for a failure. *)
Definition failure (user_id error : string) : pydict :=
  [("success", PBool false); ("error", PStr error); ("user_id", PStr user_id)].

(** The dicts returned for a skipped user and for a served one. *)
Definition skipped_result (user_id : string) (user_data : pydict) : pydict :=
  [("success", PBool true);
   ("skipped", PBool true);
   ("reason", PStr "Recommendations are recent");
   ("user_id", PStr user_id);
   ("existing_recommendations",
    dict_get_default "tags_recommendation" (PList []) user_data)].

Definition served_result (user_id : string) (recs : recommendations)
    (returned : string) : pydict :=
  [("success", PBool true);
   ("user_id", PStr user_id);
   ("tags_recommendation", PList (map PDict (tags recs)));
   ("articles_recommendation", PList (map PDict (articles recs)));
   ("timestamp", PStr returned)].

(** The five assignments of [update_user_recommendations] to the document
    read; the time of the update is given as the text and as the number
    stored. *)
Definition with_recommendations
    (tags_recommendation articles_recommendation : list pydict)
    (id_articles_for_recommendation : list string)
    (updated_at : string) (time_stamp : Z) (user : pydict) : pydict :=
  let user := dict_set "tags_recommendation"
                (PList (map PDict tags_recommendation)) user in
  let user := dict_set "articles_recommendation"
                (PList (map PDict articles_recommendation)) user in
  let user := dict_set "id_articles_for_recommendation"
                (PList (map PStr id_articles_for_recommendation)) user in
  let user := dict_set "recommendations_updated_at" (PStr updated_at) user in
  dict_set "time_stamp_recommend" (PInt time_stamp) user.

(** The counters and the results of a batch. *)
Record tally : Type := {
  successful : Z;
  failed : Z;
  skipped : Z;
  results : list pydict
}.

Section Pipeline.

Variable json_loads : string -> Except pyval.
Variable float_of_str : string -> option pyfloat.
Variable chat_create : nat -> string -> Except string.
Variable build_prompt : list pydict -> list pydict -> Z -> Z -> Z -> Z -> Except string.
Variable query_items : query -> Except (list pydict).
Variable read_item : string -> Except pydict.
Variable fromisoformat : string -> option datetime.
Variable order : set_order.

(** The failure, other than [CosmosResourceNotFoundError], of a read or of a
    replacement sent to the users container as its request number [n] (from
    0), when it fails. *)
Variable user_read_error : nat -> string -> option exn.
Variable user_replace_error : nat -> string -> option exn.

(** [datetime.isoformat()] and [int(datetime.timestamp())] of a naive
    [datetime], given in microseconds. *)
Variable isoformat : Z -> string.
Variable epoch_seconds : Z -> Z.

(** [str(e)] *)
Variable exn_str : exn -> string.

(** [get_user_by_id]: the document, [None] when there is none, or the
    error of the store. *)
Definition get_user_by_id (user_id : string) (w : world)
  : world * Except (option pydict) :=
  let w1 := user_logged (UserRead user_id) w in
  match user_read_error (length (w_user_calls w)) user_id with
  | Some e => (w1, Raise e)
  | None => (w1, Ok (w_users w !! user_id))
  end.

(** [update_user_recommendations] of [CosmosHelper], to which the one of
    [UserManager] delegates. *)
Definition update_user_recommendations (user_id : string)
    (tags_recommendation articles_recommendation : list pydict)
    (id_articles_for_recommendation : list string) (t : readings) (w : world)
  : world * bool :=
  let (w1, r) := get_user_by_id user_id w in
  match r with
  | Raise _ => (w1, false)
  | Ok None => (w1, false)
  | Ok (Some user) =>
      if negb (py_truthy (PDict user)) then (w1, false)
      else
        let user :=
          with_recommendations tags_recommendation articles_recommendation
            id_articles_for_recommendation
            (isoformat (written_at t)) (epoch_seconds (stamped_at t)) user in
        let w2 := user_logged (UserReplace user_id user) w1 in
        match user_replace_error (length (w_user_calls w1)) user_id with
        | Some _ => (w2, false)
        | None => (with_user user_id user w2, true)
        end
  end.

(** The body of the [try] block of [generate_recommendations_for_user]. *)
Definition generate_recommendations_for_user_body (user_id : string)
    (force_update : bool)
    (tag_count tag_wildcard article_count article_wildcard candidate_limit : Z)
    (t : readings) (w : world) : option (world * Except pydict) :=
  let (w1, r) := get_user_by_id user_id w in
  match r with
  | Raise e => Some (w1, Raise e)
  | Ok user =>
      match user with
      | Some ((_ :: _) as user_data) =>
          if negb force_update && should_skip_update fromisoformat (skip_now t) user_data 24
          then
            Some (w1, Ok (skipped_result user_id user_data))
          else
            '(g, user_articles) ←
              get_user_articles_with_interactions query_items read_item order
                (lookup_now t) (cache_stamp t) user_data (w_articles w1);
            let w2 := with_articles g w1 in
            match user_articles with
            | [] => Some (w2, Ok (failure user_id "No articles found for user"))
            | _ =>
                id_articles_for_recommendation ←
                  prepare_user_article_ids order user_data 50;
                let candidates :=
                  get_candidate_articles query_items
                    (Some id_articles_for_recommendation) candidate_limit in
                let (c, llm) :=
                  generate_llm_only_recommendations json_loads float_of_str chat_create
                    build_prompt user_articles candidates
                    tag_count tag_wildcard article_count article_wildcard (w_chat w2) in
                let w3 := with_chat c w2 in
                match llm with
                | Raise e => Some (w3, Raise e)
                | Ok llm_out =>
                    let recommendations := _process_llm_output llm_out candidates in
                    let (w4, success) :=
                      update_user_recommendations user_id
                        (tags recommendations) (articles recommendations)
                        id_articles_for_recommendation t w3 in
                    if success then
                      Some (w4, Ok (served_result user_id recommendations
                                      (isoformat (returned_at t))))
                    else
                      Some (w4, Ok (failure user_id
                                      "Failed to update user recommendations in database"))
                end
            end
      | _ => Some (w1, Ok (failure user_id ("User " +:+ user_id +:+ " not found")))
      end
  end.

(** [generate_recommendations_for_user]: the result, for the user documents
    the model of the interaction fields covers. *)
Definition generate_recommendations_for_user (user_id : string) (force_update : bool)
    (tag_count tag_wildcard article_count article_wildcard candidate_limit : Z)
    (t : readings) (w : world) : option (world * pydict) :=
  '(w', r) ← generate_recommendations_for_user_body user_id force_update
               tag_count tag_wildcard article_count article_wildcard candidate_limit t w;
  match r with
  | Ok result => Some (w', result)
  | Raise e => Some (w', failure user_id (exn_str e))
  end.

(** One round of the loop of [generate_recommendations_batch]. *)
Definition batch_step (user_id : string) (result : pydict) (acc : tally) : tally :=
  let acc := {| successful := successful acc; failed := failed acc;
                skipped := skipped acc; results := results acc ++ [result] |} in
  match dict_item "success" result with
  | Ok success =>
      if py_truthy success then
        if py_truthy (dict_get_default "skipped" (PBool false) result)
        then {| successful := successful acc; failed := failed acc;
                skipped := skipped acc + 1; results := results acc |}
        else {| successful := successful acc + 1; failed := failed acc;
                skipped := skipped acc; results := results acc |}
      else {| successful := successful acc; failed := failed acc + 1;
              skipped := skipped acc; results := results acc |}
  | Raise e =>
      {| successful := successful acc; failed := failed acc + 1;
         skipped := skipped acc;
         results := results acc ++ [failure user_id (exn_str e)] |}
  end.

(** The loop over [user_ids]; [schedule n] holds the clock readings of the
    run number [n]. *)
Fixpoint batch_loop (user_ids : list string) (force_update : bool)
    (tag_count tag_wildcard article_count article_wildcard candidate_limit : Z)
    (schedule : nat -> readings) (n : nat) (w : world) (acc : tally)
  : option (world * tally) :=
  match user_ids with
  | [] => Some (w, acc)
  | user_id :: rest =>
      '(w1, result) ← generate_recommendations_for_user user_id force_update
                        tag_count tag_wildcard article_count article_wildcard
                        candidate_limit (schedule n) w;
      batch_loop rest force_update
        tag_count tag_wildcard article_count article_wildcard candidate_limit
        schedule (S n) w1 (batch_step user_id result acc)
  end.

(** [generate_recommendations_batch]; the keyword arguments are those of
    [generate_recommendations_for_user]. *)
Definition generate_recommendations_batch (user_ids : list string) (force_update : bool)
    (tag_count tag_wildcard article_count article_wildcard candidate_limit : Z)
    (schedule : nat -> readings) (w : world) : option (world * pydict) :=
  '(w', acc) ← batch_loop user_ids force_update
                 tag_count tag_wildcard article_count article_wildcard candidate_limit
                 schedule 0
                 w {| successful := 0; failed := 0; skipped := 0; results := [] |};
  Some (w', [("total_users", PInt (Z.of_nat (length user_ids)));
             ("successful", PInt (successful acc));
             ("failed", PInt (failed acc));
             ("skipped", PInt (skipped acc));
             ("results", PList (map PDict (results acc)))]).

End Pipeline.

(** *** Reference [isoformat]

    [datetime.isoformat()] of a naive value: [YYYY-MM-DDTHH:MM:SS], followed
    by the six digits of the microseconds when they are not zero. *)

(** The date [z] days after 1970-01-01. *)
Definition civil_from_days (z : Z) : Z * Z * Z :=
  let z := (z + 719468)%Z in
  let era := (z / 146097)%Z in
  let doe := (z - era * 146097)%Z in
  let yoe := ((doe - doe / 1460 + doe / 36524 - doe / 146096) / 365)%Z in
  let doy := (doe - (365 * yoe + yoe / 4 - yoe / 100))%Z in
  let mp := ((5 * doy + 2) / 153)%Z in
  let d := (doy - (153 * mp + 2) / 5 + 1)%Z in
  let m := if (mp <? 10)%Z then (mp + 3)%Z else (mp - 9)%Z in
  (if (m <=? 2)%Z then (yoe + era * 400 + 1)%Z else (yoe + era * 400)%Z, m, d).

(** The last [width] decimal digits of [z]. *)
Fixpoint padded (width : nat) (z : Z) : string :=
  match width with
  | 0 => ""
  | S width' =>
      padded width' (z / 10) +:+
      String (ascii_of_nat (48 + Z.to_nat (z mod 10))) EmptyString
  end.

Definition isoformat_ref (t : Z) : string :=
  let seconds := (t / 1000000)%Z in
  let us := (t mod 1000000)%Z in
  let '(y, m, d) := civil_from_days (seconds / 86400) in
  let s := (seconds mod 86400)%Z in
  padded 4 y +:+ "-" +:+ padded 2 m +:+ "-" +:+ padded 2 d +:+ "T" +:+
  padded 2 (s / 3600) +:+ ":" +:+ padded 2 (s / 60 mod 60) +:+ ":" +:+
  padded 2 (s mod 60) +:+
  (if (us =? 0)%Z then "" else "." +:+ padded 6 us).

(** *** A sample deployment *)

(** A store that answers the queries by id and has three published
    articles. *)
Definition store_full (q : query) : Except (list pydict) :=
  match q with
  | ByIds _ => queries_up q
  | _ => store_three q
  end.

(** An endpoint that answers every request with the sample reply. *)
Definition chat_up (n : nat) (prompt : string) : Except string := Ok sample_reply.

(** The users container never fails. *)
Definition users_up (n : nat) (user_id : string) : option exn := None.

Definition exn_str_ref (e : exn) : string :=
  match e with
  | TypeError => "TypeError"
  | ValueError => "ValueError"
  | KeyError => "KeyError"
  | AttributeError => "AttributeError"
  | OverflowError => "OverflowError"
  | JSONDecodeError => "JSONDecodeError"
  | ServiceError msg => msg
  end.

(** A run that starts at [sample_now]. *)
Definition sample_readings : readings :=
  {| skip_now := sample_now; lookup_now := 1100; cache_stamp := 1101;
     written_at := sample_now + 5000000; stamped_at := sample_now + 5000001;
     returned_at := sample_now + 5000002 |}.

(** The user [u7] of [user_ab], never served before, and a user [u9]
    without a document. *)
Definition sample_world : world :=
  {| w_chat := io_start; w_articles := gateway_a1;
     w_users := {[ "u7" := user_ab ]}; w_user_calls := [] |}.

(** How [generate_recommendations_batch] counts a result. *)
Inductive outcome : Type :=
| Successful
| Failed
| Skipped.

Definition outcome_of (result : pydict) : outcome :=
  match dict_get "success" result with
  | Some (PBool true) =>
      match dict_get "skipped" result with
      | Some (PBool true) => Skipped
      | _ => Successful
      end
  | _ => Failed
  end.

Definition has_outcome (o : outcome) (result : pydict) : bool :=
  match o, outcome_of result with
  | Successful, Successful | Failed, Failed | Skipped, Skipped => true
  | _, _ => false
  end.

(** A users container whose every request fails. *)
Definition users_down (n : nat) (user_id : string) : option exn :=
  Some (ServiceError "users container unavailable").

(** A new user, without interactions. *)
Definition new_user_world : world :=
  {| w_chat := io_start; w_articles := gateway_a1;
     w_users := {[ "u8" := [("id", PStr "u8")] ]}; w_user_calls := [] |}.


(** A run one hour after [sample_readings]. *)
Definition later_readings : readings :=
  {| skip_now := sample_now + 3600000000; lookup_now := 4700; cache_stamp := 4701;
     written_at := sample_now + 3605000000; stamped_at := sample_now + 3605000001;
     returned_at := sample_now + 3605000002 |}.

(** The readings of a batch: one minute between two runs. *)
Definition sample_schedule (n : nat) : readings :=
  {| skip_now := sample_now + 60000000 * Z.of_nat n;
     lookup_now := 1100 + 60 * inject_Z (Z.of_nat n);
     cache_stamp := 1101 + 60 * inject_Z (Z.of_nat n);
     written_at := sample_now + 60000000 * Z.of_nat n + 5000000;
     stamped_at := sample_now + 60000000 * Z.of_nat n + 5000001;
     returned_at := sample_now + 60000000 * Z.of_nat n + 5000002 |}.

(** ** Embeddings ([azure_openai_helper.py]) *)

(** The batches sent to the embedding endpoint and the durations passed to
    [time.sleep], oldest first. *)
Record embed_io : Type := {
  embed_log : list (list string);
  embed_slept : list Q
}.

(** [range(0, stop, step)] for a positive [step]. *)
Definition py_range_step (stop step : nat) : list nat :=
  map (fun k => k * step) (seq 0 ((stop + step - 1) / step)).

Section Embeddings.

(** [embedding_client.embeddings.create]: the vectors of [response.data]
    for the batch sent as request number [n] (from 0), or the error. *)
Variable embeddings_create : nat -> list string -> Except (list (list pyfloat)).

(** The loop [for i in range(0, len(texts), batch_size)], on the values of
    [i] still to come. *)
Fixpoint embed_batches (texts : list string) (starts : list nat) (w : embed_io)
    (embeddings : list (list pyfloat)) : embed_io * Except (list (list pyfloat)) :=
  match starts with
  | [] => (w, Ok embeddings)
  | i :: rest =>
      let batch := take 10 (drop i texts) in
      let w1 := {| embed_log := embed_log w ++ [batch]; embed_slept := embed_slept w |} in
      match embeddings_create (length (embed_log w)) batch with
      | Raise e => (w1, Raise e)
      | Ok batch_embeddings =>
          let w2 :=
            if i + 10 <? length texts
            then {| embed_log := embed_log w1; embed_slept := embed_slept w1 ++ [1 # 10] |}
            else w1 in
          embed_batches texts rest w2 (embeddings ++ batch_embeddings)
      end
  end.

Definition get_embeddings (texts : list string) (w : embed_io)
  : embed_io * list (list pyfloat) :=
  match embed_batches texts (py_range_step (length texts) 10) w [] with
  | (w', Ok embeddings) => (w', embeddings)
  | (w', Raise _) => (w', [])
  end.

End Embeddings.

(** The batches of ten [get_embeddings] cuts [texts] into. *)
Definition batches_of (texts : list string) : list (list string) :=
  map (fun i => take 10 (drop i texts)) (py_range_step (length texts) 10).

(** The answers of the endpoint to the batches, the first being request
    number [n]; the vectors of the failing requests count for nothing. *)
Definition answers (embeddings_create : nat -> list string -> Except (list (list pyfloat)))
    (n : nat) (batches : list (list string)) : list (list (list pyfloat)) :=
  imap (fun k batch => match embeddings_create (n + k) batch with
                       | Ok batch_embeddings => batch_embeddings
                       | Raise _ => []
                       end) batches.

(** An endpoint that returns one vector per text, and one that fails on its
    third request. *)
Definition embed_up (n : nat) (batch : list string) : Except (list (list pyfloat)) :=
  Ok (map (fun s => [FFin (inject_Z (Z.of_nat (String.length s)))]) batch).

Definition embed_third_fails (n : nat) (batch : list string)
  : Except (list (list pyfloat)) :=
  if (n =? 2)%nat then Raise (ServiceError "429 Too Many Requests") else embed_up n batch.

Definition embed_second_fails (n : nat) (batch : list string)
  : Except (list (list pyfloat)) :=
  if (n =? 1)%nat then Raise (ServiceError "429 Too Many Requests") else embed_up n batch.

Definition texts_25 : list string := replicate 25 "text".

(** * Properties *)

(** ** Scores produced by the parser *)

Lemma clamp_between (lo hi : Q) (score : pyfloat) :
  (lo <= hi)%Q ->
  exists q : Q,
    py_max (FFin lo) (py_min (FFin hi) score) = FFin q /\ (lo <= q <= hi)%Q.
Proof.
  intros Hle. unfold py_max, py_min.
  destruct score as [|[|]|x]; simpl.
  - destruct (Qlt_le_dec lo hi); [exists hi | exists lo]; split; auto; lra.
  - exists lo. split; auto. lra.
  - destruct (Qlt_le_dec lo hi); [exists hi | exists lo]; split; auto; lra.
  - destruct (Qlt_le_dec x hi) as [Hx|Hx]; simpl.
    + destruct (Qlt_le_dec lo x); [exists x | exists lo]; split; auto; lra.
    + destruct (Qlt_le_dec lo hi); [exists hi | exists lo]; split; auto; lra.
Qed.

Lemma round_half_even_bounds (q : Q) (n : Z) :
  (0 <= q <= inject_Z n)%Q -> (0 <= round_half_even q <= n)%Z.
Proof.
  intros [H0 Hn]. unfold round_half_even.
  pose proof (Qfloor_resp_le _ _ H0) as Hf0. change (Qfloor 0) with 0%Z in Hf0.
  pose proof (Qfloor_resp_le _ _ Hn) as Hfn. rewrite Qfloor_Z in Hfn.
  pose proof (Qfloor_le q) as Hfl.
  destruct (Qcompare_spec (q - inject_Z (Qfloor q)) (1 # 2)) as [He|Hl|Hg].
  - assert (Qfloor q <> n) as Hne.
    { intros Heq. rewrite Heq in He. lra. }
    destruct (Z.even (Qfloor q)); lia.
  - lia.
  - assert (Qfloor q <> n) as Hne.
    { intros Heq. rewrite Heq in Hg. lra. }
    lia.
Qed.

Lemma round4_between (q : Q) :
  (0 <= q <= 5)%Q ->
  exists r : Q, py_round4 (FFin q) = FFin r /\ (0 <= r <= 5)%Q /\ four_decimals r.
Proof.
  intros Hq. simpl. eexists. split; [reflexivity|].
  assert (0 <= round_half_even (q * 10000) <= 50000)%Z as Hr.
  { apply round_half_even_bounds. change (inject_Z 50000) with (50000 # 1). lra. }
  split; [|eexists; reflexivity].
  unfold Qle; simpl. lia.
Qed.

Section ParserProperties.

Context (json_loads : string -> Except pyval).
Context (float_of_str : string -> option pyfloat).

Lemma parse_tag_kept (t : pyval) :
  is_Some (parse_tag float_of_str t) <-> well_formed_entry float_of_str "tag" t.
Proof.
  unfold well_formed_entry, numeric. split.
  - intros [e He]. destruct t as [| | | | |l|d]; simpl in He; try discriminate.
    destruct (dict_get "tag" d) as [tag|] eqn:Ht; [|discriminate].
    destruct (dict_get "score" d) as [raw|] eqn:Hs; [|discriminate].
    destruct (py_float float_of_str raw) as [f|x] eqn:Hf; [|discriminate].
    exists d, tag, raw. eauto.
  - intros (d & k & raw & -> & Hk & Hs & f & Hf). simpl.
    rewrite Hk, Hs, Hf. eauto.
Qed.

Lemma parse_article_kept (a : pyval) :
  is_Some (parse_article float_of_str a) <-> well_formed_entry float_of_str "id" a.
Proof.
  unfold well_formed_entry, numeric. split.
  - intros [e He]. destruct a as [| | | | |l|d]; simpl in He; try discriminate.
    destruct (dict_get "id" d) as [id|] eqn:Ht; [|discriminate].
    destruct (dict_get "score" d) as [raw|] eqn:Hs; [|discriminate].
    destruct (py_float float_of_str raw) as [f|x] eqn:Hf; [|discriminate].
    exists d, id, raw. eauto.
  - intros (d & k & raw & -> & Hk & Hs & f & Hf). simpl.
    rewrite Hk, Hs, Hf. eauto.
Qed.

Lemma parse_tag_score (t : pyval) (e : pydict) :
  parse_tag float_of_str t = Some e -> score_between 1 5 e.
Proof.
  intros He. destruct t as [| | | | |l|d]; simpl in He; try discriminate.
  destruct (dict_get "tag" d) as [tag|]; [|discriminate].
  destruct (dict_get "score" d) as [raw|]; [|discriminate].
  destruct (py_float float_of_str raw) as [f|x]; [|discriminate].
  destruct (clamp_between 1 5 f) as (q & Hq & Hr); [lra|].
  injection He as <-. exists q. simpl. rewrite Hq. auto.
Qed.

Lemma parse_article_score (a : pyval) (e : pydict) :
  parse_article float_of_str a = Some e -> score_between 0 5 e /\ rounded_score e.
Proof.
  intros He. destruct a as [| | | | |l|d]; simpl in He; try discriminate.
  destruct (dict_get "id" d) as [id|]; [|discriminate].
  destruct (dict_get "score" d) as [raw|]; [|discriminate].
  destruct (py_float float_of_str raw) as [f|x]; [|discriminate].
  destruct (clamp_between 0 5 f) as (q & Hq & Hr); [lra|].
  destruct (round4_between q Hr) as (r & Hround & Hrange & Hdec).
  injection He as <-. unfold score_between, rounded_score. simpl.
  rewrite Hq, Hround. split; exists r; auto.
Qed.

(** The two ways the parser ends: the [try] body raised and the empty result
    is returned, or the decoded document is a dict and the two lists are the
    kept items of its [tags] and [articles]. *)
Lemma parser_outcome (response : string) :
  let r := _parse_llm_only_output json_loads float_of_str response in
  (exists x : exn,
      _parse_llm_only_output_body json_loads float_of_str response = Raise x /\
      r = empty_recommendations) \/
  (exists (d : pydict) (ts arts : list pyval),
      json_loads (strip_code_fence response) = Ok (PDict d) /\
      py_iter (dict_get_default "tags" (PList []) d) = Ok ts /\
      py_iter (dict_get_default "articles" (PList []) d) = Ok arts /\
      r = {| tags := omap (parse_tag float_of_str) ts;
             articles := omap (parse_article float_of_str) arts |}).
Proof.
  unfold _parse_llm_only_output, _parse_llm_only_output_body. simpl.
  destruct (json_loads (strip_code_fence response)) as [data|x]; simpl;
    [|left; eauto].
  destruct data as [| | | | |l|d]; simpl; try (left; eauto; fail).
  destruct (py_iter (dict_get_default "tags" (PList []) d)) as [ts|x] eqn:Hts;
    simpl; [|left; eauto].
  destruct (py_iter (dict_get_default "articles" (PList []) d)) as [arts|x] eqn:Ha;
    simpl; [|left; eauto].
  right. exists d, ts, arts. auto.
Qed.

(** C3. Whatever string the parser is given, every tag entry of its result
    carries a score in [1.0, 5.0] and every article entry a score in
    [0.0, 5.0] with four decimal places; the result is always a value (the
    parser has no raising path), made of the items of the decoded lists that
    have the tag (id) and score fields and a score [float] accepts, the other
    items being left out. *)
Theorem parser_scores_clamped (response : string) :
  let r := _parse_llm_only_output json_loads float_of_str response in
  Forall (score_between 1 5) (tags r) /\
  Forall (fun a => score_between 0 5 a /\ rounded_score a) (articles r) /\
  ((exists x : exn,
       _parse_llm_only_output_body json_loads float_of_str response = Raise x /\
       r = empty_recommendations) \/
   (exists (d : pydict) (ts arts : list pyval),
       json_loads (strip_code_fence response) = Ok (PDict d) /\
       py_iter (dict_get_default "tags" (PList []) d) = Ok ts /\
       py_iter (dict_get_default "articles" (PList []) d) = Ok arts /\
       r = {| tags := omap (parse_tag float_of_str) ts;
              articles := omap (parse_article float_of_str) arts |})) /\
  (forall t : pyval,
      (is_Some (parse_tag float_of_str t) <-> well_formed_entry float_of_str "tag" t) /\
      (is_Some (parse_article float_of_str t) <-> well_formed_entry float_of_str "id" t)).
Proof.
  intros r.
  assert (Forall (score_between 1 5) (tags r) /\
          Forall (fun a => score_between 0 5 a /\ rounded_score a) (articles r))
    as [Htags Harts].
  { destruct (parser_outcome response) as [(x & _ & Hr)|(d & ts & arts & _ & _ & _ & Hr)];
      fold r in Hr; rewrite Hr; simpl.
    - split; constructor.
    - split; apply Forall_forall; intros e He;
        apply list_elem_of_omap in He as (t & _ & Ht).
      + eapply parse_tag_score; eauto.
      + eapply parse_article_score; eauto. }
  split; [exact Htags|]. split; [exact Harts|].
  split; [apply parser_outcome|].
  intros t. split; [apply parse_tag_kept | apply parse_article_kept].
Qed.

(** C4. When the text left after removing the code-fence markers is not
    valid JSON ([json.loads] raises), the parser returns the empty result
    [{tags: [], articles: []}]; the error does not leave the parser. *)
Theorem parser_malformed_json_empty (response : string) (x : exn) :
  json_loads (strip_code_fence response) = Raise x ->
  _parse_llm_only_output json_loads float_of_str response = empty_recommendations.
Proof.
  intros Hbad. unfold _parse_llm_only_output, _parse_llm_only_output_body.
  rewrite Hbad. reflexivity.
Qed.

End ParserProperties.

Example parse_sample_reply :
  _parse_llm_only_output json_loads_ref float_of_str_ref sample_reply
  = {| tags := [[("tag", PStr "ai"); ("score", PFloat (FFin 5));
                 ("wildcard", PBool true)];
                [("tag", PStr "low"); ("score", PFloat (FFin 1));
                 ("wildcard", PBool false)]];
       articles := [[("id", PStr "a1"); ("score", PFloat (FFin (41235 # 10000)));
                     ("wildcard", PBool false)]] |}.
Proof. vm_compute. reflexivity. Qed.

Example truncated_reply_is_malformed :
  json_loads_ref (strip_code_fence truncated_reply) = Raise JSONDecodeError.
Proof. vm_compute. reflexivity. Qed.

(** The parser on a truncated reply. *)
Lemma parser_malformed_json_empty_witness :
  json_loads_ref (strip_code_fence truncated_reply) = Raise JSONDecodeError /\
  _parse_llm_only_output json_loads_ref float_of_str_ref truncated_reply
  = empty_recommendations.
Proof.
  split.
  - vm_compute. reflexivity.
  - apply (parser_malformed_json_empty json_loads_ref float_of_str_ref
             truncated_reply JSONDecodeError).
    vm_compute. reflexivity.
Defined.

Example refusal_is_malformed :
  _parse_llm_only_output json_loads_ref float_of_str_ref
    "Sorry, I cannot help with that."
  = empty_recommendations.
Proof. vm_compute. reflexivity. Qed.

(** ** Post-processing of the reply *)

Lemma except_map_Forall2 {A B : Type} (f : A -> Except B) (l : list A) (ys : list B) :
  except_map f l = Ok ys -> Forall2 (fun x y => f x = Ok y) l ys.
Proof.
  revert ys. induction l as [|x l IH]; intros ys H; simpl in H.
  - injection H as <-. constructor.
  - destruct (f x) as [y|] eqn:Hx; simpl in H; [|discriminate].
    destruct (except_map f l) as [ys'|]; simpl in H; [|discriminate].
    injection H as <-. constructor; auto.
Qed.

Lemma except_omap_elem {A B : Type} (f : A -> Except (option B)) (l : list A)
    (ys : list B) (y : B) :
  except_omap f l = Ok ys -> y ∈ ys -> exists x : A, x ∈ l /\ f x = Ok (Some y).
Proof.
  revert ys. induction l as [|x l IH]; intros ys H Hy; simpl in H.
  - injection H as <-. inversion Hy.
  - destruct (f x) as [o|] eqn:Hx; simpl in H; [|discriminate].
    destruct (except_omap f l) as [ys'|]; simpl in H; [|discriminate].
    injection H as <-.
    destruct o as [b|].
    + apply elem_of_cons in Hy as [->|Hy].
      * exists x. split; [left|assumption].
      * destruct (IH ys' eq_refl Hy) as (x' & Hin & Hfx). exists x'. split; [by right|assumption].
    + destruct (IH ys' eq_refl Hy) as (x' & Hin & Hfx). exists x'. split; [by right|assumption].
Qed.

Lemma except_omap_length {A B : Type} (f : A -> Except (option B)) (l : list A)
    (ys : list B) :
  except_omap f l = Ok ys -> length ys <= length l.
Proof.
  revert ys. induction l as [|x l IH]; intros ys H; simpl in H.
  - injection H as <-. reflexivity.
  - destruct (f x) as [o|]; simpl in H; [|discriminate].
    destruct (except_omap f l) as [ys'|]; simpl in H; [|discriminate].
    injection H as <-. specialize (IH ys' eq_refl).
    destruct o; simpl; lia.
Qed.

Lemma find_snoc {A : Type} (f : A -> bool) (l : list A) (x : A) :
  List.find f (l ++ [x]) =
  match List.find f l with
  | Some y => Some y
  | None => if f x then Some x else None
  end.
Proof.
  induction l as [|y l IH]; simpl; [reflexivity|].
  destruct (f y); auto.
Qed.

(** The map built from the candidates answers a string id with the abstract
    of the last candidate that has it. *)
Lemma candidate_abstract_by_id_lookup (candidates : list pydict)
    (acc m : gmap string pyval) (s : string) :
  candidate_abstract_by_id candidates acc = Ok m ->
  m !! s =
  match List.find (has_id s) (rev candidates) with
  | Some c => Some (dict_get_default "abstract" (PStr "") c)
  | None => acc !! s
  end.
Proof.
  revert acc. induction candidates as [|c rest IH]; intros acc H; simpl in H.
  - injection H as <-. reflexivity.
  - simpl. rewrite find_snoc. unfold dict_get_default in H.
    change (has_id s c) with
      (match dict_get "id" c with Some (PStr s') => String.eqb s s' | _ => false end).
    destruct (dict_get "id" c) as [[| | | |id| |]|] eqn:Hid;
      try discriminate;
      try (rewrite (IH _ H); destruct (List.find (has_id s) (rev rest)); reflexivity).
    rewrite (IH _ H). destruct (List.find (has_id s) (rev rest)); [reflexivity|].
    destruct (String.eqb_spec s id) as [->|Hne].
    + apply lookup_insert_eq.
    + apply lookup_insert_ne. congruence.
Qed.

Lemma by_id_abstract (candidates : list pydict) (m : gmap string pyval) (s : string) :
  candidate_abstract_by_id candidates ∅ = Ok m ->
  default (PStr "") (m !! s) = abstract_of_candidate s candidates.
Proof.
  intros H. rewrite (candidate_abstract_by_id_lookup _ _ _ s H).
  unfold abstract_of_candidate.
  destruct (List.find (has_id s) (rev candidates)); [reflexivity|].
  rewrite lookup_empty. reflexivity.
Qed.

(** What one round of the article loop appends. *)
Lemma article_recommendation_Some (by_id : gmap string pyval) (a e : pydict) :
  article_recommendation by_id a = Ok (Some e) ->
  exists s : string,
    dict_get "id" a = Some (PStr s) /\ s <> "" /\
    e = [("id", PStr s);
         ("score", dict_get_default "score" (PInt 0) a);
         ("abstract",
          if is_trend_id s then PStr trending_abstract
          else default (PStr "") (by_id !! s))].
Proof.
  unfold article_recommendation, dict_get_default.
  destruct (dict_get "id" a) as [v|] eqn:Hid; simpl; [|discriminate].
  destruct (py_truthy v) eqn:Ht; simpl; [|discriminate].
  destruct v as [| | | |s| |]; try discriminate.
  intros H. injection H as <-. exists s. split; [reflexivity|]. split; [|reflexivity].
  intros ->. discriminate.
Qed.

(** The shape of a successful run of the [try] body. *)
Lemma process_body_Ok (llm_out : recommendations) (candidates : list pydict)
    (r : recommendations) :
  _process_llm_output_body llm_out candidates = Ok r ->
  exists by_id : gmap string pyval,
    candidate_abstract_by_id candidates ∅ = Ok by_id /\
    except_map tag_recommendation (take 20 (tags llm_out)) = Ok (tags r) /\
    except_omap (article_recommendation by_id) (take 20 (articles llm_out))
    = Ok (articles r).
Proof.
  unfold _process_llm_output_body. intros H.
  destruct (except_map tag_recommendation _) as [ts|]; simpl in H; [|discriminate].
  destruct (candidate_abstract_by_id candidates ∅) as [m|]; simpl in H; [|discriminate].
  destruct (except_omap (article_recommendation m) _) as [arts|] eqn:Harts;
    simpl in H; [|discriminate].
  destruct (wildcard_ids _); simpl in H; [|discriminate].
  injection H as <-. exists m. simpl. auto.
Qed.

Lemma process_outcome (llm_out : recommendations) (candidates : list pydict) :
  (exists x : exn, _process_llm_output_body llm_out candidates = Raise x /\
                   _process_llm_output llm_out candidates = empty_recommendations) \/
  _process_llm_output_body llm_out candidates
  = Ok (_process_llm_output llm_out candidates).
Proof.
  unfold _process_llm_output.
  destruct (_process_llm_output_body llm_out candidates); eauto.
Qed.

(** Every stored article comes from one of the first 20 articles of the
    reply, with its id, and with an abstract computed from the id and the
    candidates alone. *)
Lemma process_article_origin (llm_out : recommendations) (candidates : list pydict)
    (e : pydict) :
  e ∈ articles (_process_llm_output llm_out candidates) ->
  exists (a : pydict) (s : string),
    a ∈ take 20 (articles llm_out) /\
    dict_get "id" a = Some (PStr s) /\ s <> "" /\
    e = [("id", PStr s);
         ("score", dict_get_default "score" (PInt 0) a);
         ("abstract",
          if is_trend_id s then PStr trending_abstract
          else abstract_of_candidate s candidates)].
Proof.
  intros He.
  destruct (process_outcome llm_out candidates) as [(x & _ & Hr)|Hr].
  - rewrite Hr in He. inversion He.
  - apply process_body_Ok in Hr as (m & Hm & _ & Harts).
    destruct (except_omap_elem _ _ _ _ Harts He) as (a & Ha & Hfa).
    apply article_recommendation_Some in Hfa as (s & Hid & Hne & ->).
    exists a, s. rewrite (by_id_abstract _ _ s Hm). auto.
Qed.

Lemma dict_get_restrict_keys (ks : list string) (k : string) (d : pydict) :
  In k ks -> dict_get k (restrict_keys ks d) = dict_get k d.
Proof.
  intros Hk. induction d as [|[k' v] d IH]; simpl; [reflexivity|].
  destruct (String.eqb_spec k k') as [<-|Hne].
  - assert (existsb (String.eqb k) ks = true) as ->.
    { apply existsb_exists. exists k. split; [assumption|apply String.eqb_refl]. }
    simpl. rewrite String.eqb_refl. reflexivity.
  - destruct (existsb (String.eqb k') ks); simpl; [|assumption].
    destruct (String.eqb_spec k k'); [contradiction|assumption].
Qed.

Lemma except_map_ext {A B C : Type} (f : A -> Except B) (g : C -> Except B)
    (h : A -> C) (l : list A) :
  (forall x : A, g (h x) = f x) -> except_map g (map h l) = except_map f l.
Proof.
  intros Hfg. induction l as [|x l IH]; simpl; [reflexivity|].
  rewrite Hfg, IH. reflexivity.
Qed.

Lemma except_omap_ext {A B C : Type} (f : A -> Except (option B))
    (g : C -> Except (option B)) (h : A -> C) (l : list A) :
  (forall x : A, g (h x) = f x) -> except_omap g (map h l) = except_omap f l.
Proof.
  intros Hfg. induction l as [|x l IH]; simpl; [reflexivity|].
  rewrite Hfg, IH. reflexivity.
Qed.

Lemma filter_map_commute {A : Type} (p : A -> bool) (h : A -> A) (l : list A) :
  (forall x : A, p (h x) = p x) ->
  List.filter p (map h l) = map h (List.filter p l).
Proof.
  intros Hp. induction l as [|x l IH]; simpl; [reflexivity|].
  rewrite Hp, IH. destruct (p x); reflexivity.
Qed.

(** Fields of a reply's article entry other than [id], [score] and
    [wildcard] have no influence on the result. *)
Lemma process_ignores_other_fields (llm_out : recommendations)
    (candidates : list pydict) :
  _process_llm_output (contract_fields llm_out) candidates
  = _process_llm_output llm_out candidates.
Proof.
  set (keep := restrict_keys ["id"; "score"; "wildcard"]).
  assert (forall k a, In k ["id"; "score"; "wildcard"] ->
                      dict_get k (keep a) = dict_get k a) as Hget.
  { intros k a Hk. apply dict_get_restrict_keys, Hk. }
  unfold _process_llm_output, _process_llm_output_body, contract_fields. simpl.
  fold keep. rewrite <- fmap_take.
  destruct (except_map tag_recommendation _) as [ts|]; simpl; [|reflexivity].
  destruct (candidate_abstract_by_id candidates ∅) as [m|]; simpl; [|reflexivity].
  rewrite (except_omap_ext (article_recommendation m) (article_recommendation m) keep).
  2:{ intros a. unfold article_recommendation, dict_get_default.
      rewrite !Hget by (simpl; auto). reflexivity. }
  unfold wildcard_ids.
  change (fmap keep) with (map keep).
  rewrite (filter_map_commute is_wildcard keep).
  2:{ intros a. unfold is_wildcard, dict_get_default.
      rewrite Hget by (simpl; auto). reflexivity. }
  rewrite (except_map_ext (dict_item "id") (dict_item "id") keep).
  2:{ intros a. unfold dict_item. rewrite Hget by (simpl; auto). reflexivity. }
  reflexivity.
Qed.

Example process_unknown_id :
  _process_llm_output reply_unknown_id sample_candidates
  = {| tags := [];
       articles := [[("id", PStr "a7"); ("score", PFloat (FFin 4.5));
                     ("abstract", PStr "")]] |}.
Proof. vm_compute. reflexivity. Qed.

Example process_trending_id :
  _process_llm_output reply_trending_id sample_candidates
  = {| tags := [];
       articles := [[("id", PStr "reddit-ai-advancements-0");
                     ("score", PFloat (FFin 4));
                     ("abstract", PStr trending_abstract)]] |}.
Proof. vm_compute. reflexivity. Qed.

(** C1, the claim as stated fails: an id of the reply that is neither a
    candidate nor a trending article is stored. *)
Lemma unknown_id_is_stored :
  ~ ids_offered (sample_candidates ++ sample_trending)
      (_process_llm_output reply_unknown_id sample_candidates).
Proof.
  intros H. rewrite process_unknown_id in H.
  destruct (H [("id", PStr "a7"); ("score", PFloat (FFin 4.5)); ("abstract", PStr "")])
    as (p & Hp & Hid).
  { simpl. left. }
  apply elem_of_app in Hp as [Hp|Hp];
    apply list_elem_of_singleton in Hp; subst p; vm_compute in Hid; discriminate.
Qed.

(** C1, amended. Every article id in the result of [_process_llm_output] is
    the non-empty string id of one of the first 20 article entries of the
    reply; the ids are not compared with the candidate pool or the trending
    articles: if the ids of those 20 entries all lie in
    (candidates ∪ trending), then so do the ids of the result. *)
Theorem process_ids_come_from_reply (llm_out : recommendations)
    (candidates trending : list pydict) :
  let r := _process_llm_output llm_out candidates in
  Forall (fun e : pydict =>
            exists (a : pydict) (s : string),
              a ∈ take 20 (articles llm_out) /\
              dict_get "id" a = Some (PStr s) /\ s <> "" /\
              dict_get "id" e = Some (PStr s)) (articles r) /\
  (ids_offered (candidates ++ trending)
     {| tags := []; articles := take 20 (articles llm_out) |} ->
   ids_offered (candidates ++ trending) r).
Proof.
  intros r.
  assert (Forall (fun e : pydict =>
            exists (a : pydict) (s : string),
              a ∈ take 20 (articles llm_out) /\
              dict_get "id" a = Some (PStr s) /\ s <> "" /\
              dict_get "id" e = Some (PStr s)) (articles r)) as Hfrom.
  { apply Forall_forall. intros e He.
    apply process_article_origin in He as (a & s & Ha & Hid & Hne & ->).
    exists a, s. auto. }
  split; [exact Hfrom|].
  intros Hoffered e He.
  rewrite Forall_forall in Hfrom.
  destruct (Hfrom e He) as (a & s & Ha & Hid & _ & Hide).
  destruct (Hoffered a Ha) as (p & Hp & Hpid).
  exists p. split; [assumption|]. congruence.
Qed.

Example process_known_id :
  _process_llm_output reply_known_id sample_candidates
  = {| tags := [[("tag", PStr "energy"); ("score", PFloat (FFin 4.5))]];
       articles := [[("id", PStr "a1"); ("score", PFloat (FFin 4.5));
                     ("abstract", PStr "Batteries for the grid")]] |}.
Proof. vm_compute. reflexivity. Qed.

(** A reply that stays within the pool. *)
Lemma process_ids_come_from_reply_witness :
  ids_offered (sample_candidates ++ sample_trending)
    (_process_llm_output reply_known_id sample_candidates).
Proof.
  apply (process_ids_come_from_reply reply_known_id sample_candidates sample_trending).
  intros e He. apply list_elem_of_singleton in He. subst e.
  exists (hd [] sample_candidates). split; [left|reflexivity].
Defined.

(** C9, the claim as stated fails: the abstract stored for a trending id is
    not the abstract of the trending article. *)
Lemma trending_abstract_not_from_pool :
  ~ abstracts_from_pool (sample_candidates ++ sample_trending)
      (_process_llm_output reply_trending_id sample_candidates).
Proof.
  intros H. rewrite process_trending_id in H.
  destruct (H [("id", PStr "reddit-ai-advancements-0"); ("score", PFloat (FFin 4));
               ("abstract", PStr trending_abstract)])
    as (p & Hp & Hid & Habs).
  { simpl. left. }
  apply elem_of_app in Hp as [Hp|Hp];
    apply list_elem_of_singleton in Hp; subst p.
  - vm_compute in Hid. discriminate.
  - vm_compute in Habs. discriminate.
Qed.

(** C9, amended. The abstract of a stored article is computed from its id
    and the candidate pool alone: the fixed text [trending_abstract] when the
    id starts with wildcard-, trending-, newsapi- or reddit-, and otherwise
    the abstract of the (last) candidate with that id, or the empty string
    when there is none; an abstract or any other extra field in the reply
    changes nothing. *)
Theorem process_abstract_is_local (llm_out : recommendations)
    (candidates : list pydict) :
  let r := _process_llm_output llm_out candidates in
  Forall (fun e : pydict =>
            exists s : string,
              dict_get "id" e = Some (PStr s) /\
              dict_get "abstract" e =
              Some (if is_trend_id s then PStr trending_abstract
                    else abstract_of_candidate s candidates)) (articles r) /\
  _process_llm_output (contract_fields llm_out) candidates = r.
Proof.
  intros r. split; [|apply process_ignores_other_fields].
  apply Forall_forall. intros e He.
  apply process_article_origin in He as (a & s & _ & _ & _ & ->).
  exists s. auto.
Qed.

(** C10. [_process_llm_output] stores at most 20 tags and at most 20
    articles, all taken from the first 20 entries of the corresponding list
    of the parsed reply, and a stored tag entry has exactly the fields [tag]
    and [score]; unless the step fails and stores nothing, the stored tags
    are the first 20 tag entries, one for one. *)
Theorem process_keeps_first_20 (llm_out : recommendations) (candidates : list pydict) :
  let r := _process_llm_output llm_out candidates in
  length (tags r) <= 20 /\ length (articles r) <= 20 /\
  Forall (fun e : pydict => dict_keys e = ["tag"; "score"]) (tags r) /\
  Forall (fun e : pydict =>
            exists t : pydict,
              t ∈ take 20 (tags llm_out) /\
              dict_get "tag" t = dict_get "tag" e /\
              dict_get "score" t = dict_get "score" e) (tags r) /\
  Forall (fun e : pydict =>
            exists a : pydict,
              a ∈ take 20 (articles llm_out) /\
              dict_get "id" a = dict_get "id" e) (articles r) /\
  (r = empty_recommendations \/
   Forall2 (fun t e => tag_recommendation t = Ok e) (take 20 (tags llm_out)) (tags r)).
Proof.
  intros r. subst r.
  destruct (process_outcome llm_out candidates) as [(x & _ & Hr)|Hr].
  { rewrite Hr. simpl. repeat split; auto; try lia; constructor. }
  apply process_body_Ok in Hr as (m & _ & Htags & Harts).
  set (r := _process_llm_output llm_out candidates) in *.
  apply except_map_Forall2 in Htags.
  assert (forall t e, tag_recommendation t = Ok e ->
            dict_keys e = ["tag"; "score"] /\
            dict_get "tag" t = dict_get "tag" e /\
            dict_get "score" t = dict_get "score" e) as Hshape.
  { intros t e. unfold tag_recommendation, dict_item.
    destruct (dict_get "tag" t) as [v|]; simpl; [|discriminate].
    destruct (dict_get "score" t) as [w|]; simpl; [|discriminate].
    intros H. injection H as <-. auto. }
  split.
  { rewrite <- (Forall2_length _ _ _ Htags), length_take. lia. }
  split.
  { apply except_omap_length in Harts. rewrite length_take in Harts. lia. }
  split.
  { apply Forall_forall. intros e He.
    apply list_elem_of_lookup in He as [i Hi].
    destruct (Forall2_lookup_r _ _ _ _ _ Htags Hi) as (t & _ & Ht).
    apply (Hshape t e Ht). }
  split.
  { apply Forall_forall. intros e He.
    apply list_elem_of_lookup in He as [i Hi].
    destruct (Forall2_lookup_r _ _ _ _ _ Htags Hi) as (t & Hti & Ht).
    exists t. split; [eapply list_elem_of_lookup_2; eauto|].
    apply (Hshape t e Ht). }
  split; [|right; exact Htags].
  apply Forall_forall. intros e He.
  destruct (except_omap_elem _ _ _ _ Harts He) as (a & Ha & Hfa).
  apply article_recommendation_Some in Hfa as (s & Hid & _ & ->).
  exists a. split; [assumption|]. rewrite Hid. reflexivity.
Qed.

(** ** The chat-completion call *)

Section ChatProperties.

Context (chat_create : nat -> string -> Except string).

(** The loop started at attempt [a] with [m] attempts left, [a + m] being
    [max_retries]: either request number [k < m] of the loop is the first to
    succeed, or all [m] fail and the last error is raised. *)
Lemma attempts_from (prompt : string) (n a m : nat) (w : io) :
  a + m = n -> 0 < m ->
  match attempts chat_create prompt (Z.of_nat n) (seq a m) w with
  | (w', Ok content) =>
      exists k : nat,
        k < m /\
        (forall i : nat, i < k ->
           exists e : exn, chat_create (llm_calls w + i) prompt = Raise e) /\
        chat_create (llm_calls w + k) prompt = Ok content /\
        llm_calls w' = llm_calls w + k + 1 /\
        slept w' = slept w ++ map pause (seq a k)
  | (w', Raise e) =>
      (forall i : nat, i < m ->
         exists e' : exn, chat_create (llm_calls w + i) prompt = Raise e') /\
      chat_create (llm_calls w + (m - 1)) prompt = Raise e /\
      llm_calls w' = llm_calls w + m /\
      slept w' = slept w ++ map pause (seq a (m - 1))
  end.
Proof.
  revert a w. induction m as [|m IH]; intros a w Hn Hm; [lia|].
  simpl. destruct (chat_create (llm_calls w) prompt) as [content|e] eqn:Hfirst.
  - exists 0. simpl. rewrite Nat.add_0_r, app_nil_r.
    repeat split; auto; try lia; intros i Hi; lia.
  - destruct (Z.ltb_spec (Z.of_nat a) (Z.of_nat n - 1)) as [Hlt|Hge].
    + assert (0 < m) as Hm' by lia.
      specialize (IH (S a)
                    (sleep (2 ^ Z.of_nat a)
                       {| llm_calls := S (llm_calls w); slept := slept w |})
                    ltac:(lia) Hm').
      destruct (attempts chat_create prompt (Z.of_nat n) (seq (S a) m) _)
        as [w' [content|e']]; simpl in IH.
      * destruct IH as (k & Hk & Hfail & Hok & Hcalls & Hslept).
        simpl in Hfail, Hok, Hcalls, Hslept.
        exists (S k). split; [lia|]. split; [|split; [|split]].
        -- intros i Hi. destruct i as [|i].
           ++ rewrite Nat.add_0_r. eauto.
           ++ rewrite Nat.add_succ_r. apply Hfail. lia.
        -- rewrite Nat.add_succ_r. exact Hok.
        -- lia.
        -- rewrite Hslept, <- app_assoc. reflexivity.
      * destruct IH as (Hfail & Hlast & Hcalls & Hslept).
        simpl in Hfail, Hlast, Hcalls, Hslept.
        split; [|split; [|split]].
        -- intros i Hi. destruct i as [|i].
           ++ rewrite Nat.add_0_r. eauto.
           ++ rewrite Nat.add_succ_r. apply Hfail. lia.
        -- rewrite Nat.sub_0_r.
           replace m with (S (m - 1)) at 1 by lia.
           rewrite Nat.add_succ_r. exact Hlast.
        -- lia.
        -- rewrite Hslept, <- app_assoc, Nat.sub_0_r.
           replace m with (S (m - 1)) at 2 by lia. reflexivity.
    + assert (m = 0) as -> by lia. simpl.
      rewrite Nat.add_0_r, app_nil_r. repeat split; auto; try lia.
      intros i Hi. assert (i = 0) as -> by lia. rewrite Nat.add_0_r. eauto.
Qed.

(** The call with a positive bound [n]: a reply at one of the first [n]
    requests, or [n] failures and the last error raised. *)
Lemma call_chat_completion_spec (prompt : string) (n : nat) (w : io) :
  0 < n ->
  match _call_chat_completion chat_create prompt (Z.of_nat n) w with
  | (w', Ok content) =>
      exists k : nat, k < n /\ answered_at chat_create prompt w w' k content
  | (w', Raise e) => gave_up_after chat_create prompt w w' n e
  end.
Proof.
  intros Hn. unfold _call_chat_completion. rewrite Nat2Z.id.
  pose proof (attempts_from prompt n 0 n w eq_refl Hn) as H.
  destruct (attempts chat_create prompt (Z.of_nat n) (seq 0 n) w) as [w' [content|e]].
  - destruct H as (k & Hk & H). exists k. split; [assumption|exact H].
  - exact H.
Qed.

End ChatProperties.

Example call_chat_completion_down :
  _call_chat_completion chat_down "recommend" 3 io_start
  = ({| llm_calls := 3; slept := [1; 2]%Z |},
     Raise (ServiceError "connection timed out")).
Proof. reflexivity. Qed.

(** C2, the claim as stated fails: with the endpoint down, the third error
    leaves [_call_chat_completion], but the generation step returns the empty
    result to its caller instead of the error. *)
Lemma llm_failure_is_swallowed :
  snd (_call_chat_completion chat_down "recommend" 3 io_start)
  = Raise (ServiceError "connection timed out") /\
  generate_llm_only_recommendations json_loads_ref float_of_str_ref chat_down
    fixed_prompt [] sample_candidates 15 5 15 5 io_start
  = ({| llm_calls := 3; slept := [1; 2]%Z |}, Ok empty_recommendations) /\
  ~ (exists e : exn,
        snd (generate_llm_only_recommendations json_loads_ref float_of_str_ref
               chat_down fixed_prompt [] sample_candidates 15 5 15 5 io_start)
        = Raise e).
Proof.
  split; [reflexivity|]. split; [reflexivity|].
  intros [e He]. discriminate He.
Qed.

(** C2, amended. [_call_chat_completion] sends at most 3 requests: it returns
    the first reply, having paused 2^attempt seconds after each failed
    attempt before it, or, when all three requests fail, raises the third
    error after pauses of 1 and 2 seconds.  [generate_llm_only_recommendations]
    catches that error like any other raised in its body and returns the
    empty result [{tags: [], articles: []}] to its caller. *)
Theorem chat_retries_then_generation_swallows
    (json_loads : string -> Except pyval) (float_of_str : string -> option pyfloat)
    (chat_create : nat -> string -> Except string)
    (build_prompt : list pydict -> list pydict -> Z -> Z -> Z -> Z -> Except string)
    (prompt : string) (user_articles candidate_articles : list pydict)
    (tag_count tag_wildcard article_count article_wildcard : Z) (w : io) :
  match _call_chat_completion chat_create prompt 3 w with
  | (w', Ok content) =>
      exists k : nat, k < 3 /\ answered_at chat_create prompt w w' k content
  | (w', Raise e) =>
      gave_up_after chat_create prompt w w' 3 e /\
      slept w' = slept w ++ [1; 2]%Z
  end /\
  match generate_llm_only_recommendations_body json_loads float_of_str chat_create
          build_prompt user_articles candidate_articles
          tag_count tag_wildcard article_count article_wildcard w with
  | (w1, Ok recs) =>
      generate_llm_only_recommendations json_loads float_of_str chat_create
        build_prompt user_articles candidate_articles
        tag_count tag_wildcard article_count article_wildcard w
      = (w1, Ok recs)
  | (w1, Raise e) =>
      generate_llm_only_recommendations json_loads float_of_str chat_create
        build_prompt user_articles candidate_articles
        tag_count tag_wildcard article_count article_wildcard w
      = (w1, Ok empty_recommendations)
  end /\
  (build_prompt user_articles candidate_articles
     tag_count tag_wildcard article_count article_wildcard = Ok prompt ->
   forall e : exn,
     snd (_call_chat_completion chat_create prompt 3 w) = Raise e ->
     generate_llm_only_recommendations json_loads float_of_str chat_create
       build_prompt user_articles candidate_articles
       tag_count tag_wildcard article_count article_wildcard w
     = (fst (_call_chat_completion chat_create prompt 3 w),
        Ok empty_recommendations)).
Proof.
  split; [|split].
  - pose proof (call_chat_completion_spec chat_create prompt 3 w ltac:(lia)) as H.
    change (Z.of_nat 3) with 3%Z in H.
    destruct (_call_chat_completion chat_create prompt 3 w) as [w' [content|e]].
    + exact H.
    + split; [exact H|]. destruct H as (_ & _ & _ & Hslept). exact Hslept.
  - unfold generate_llm_only_recommendations.
    destruct (generate_llm_only_recommendations_body _ _ _ _ _ _ _ _ _ _ _)
      as [w1 [recs|e]]; reflexivity.
  - intros Hprompt e Hraise.
    unfold generate_llm_only_recommendations, generate_llm_only_recommendations_body.
    rewrite Hprompt.
    destruct (_call_chat_completion chat_create prompt 3 w) as [w1 r].
    simpl in Hraise. subst r. reflexivity.
Qed.

(** The endpoint down for the three requests. *)
Lemma chat_retries_then_generation_swallows_witness :
  generate_llm_only_recommendations json_loads_ref float_of_str_ref chat_down
    fixed_prompt [] sample_candidates 15 5 15 5 io_start
  = ({| llm_calls := 3; slept := [1; 2]%Z |}, Ok empty_recommendations).
Proof.
  destruct (chat_retries_then_generation_swallows json_loads_ref float_of_str_ref
              chat_down fixed_prompt "recommend" [] sample_candidates 15 5 15 5
              io_start) as (_ & _ & H).
  exact (H eq_refl (ServiceError "connection timed out") eq_refl).
Defined.

(** ** Skip-update policy *)

Section SkipUpdateProperties.

Context (fromisoformat : string -> option datetime).

(** Without a timestamp, or with a falsy one, the update is not skipped. *)
Lemma skip_absent (now : Z) (user_data : pydict) (hours_threshold : Z) :
  py_truthy (dict_get_default "recommendations_updated_at" PNone user_data) = false ->
  should_skip_update fromisoformat now user_data hours_threshold = false.
Proof.
  intros H. unfold should_skip_update, should_skip_update_body.
  rewrite H. reflexivity.
Qed.

(** A text [fromisoformat] rejects: the update is not skipped. *)
Lemma skip_unparsable (now : Z) (user_data : pydict) (hours_threshold : Z) (s : string) :
  dict_get "recommendations_updated_at" user_data = Some (PStr s) ->
  fromisoformat (replace_Z s) = None ->
  should_skip_update fromisoformat now user_data hours_threshold = false.
Proof.
  intros Hget Hparse. unfold should_skip_update, should_skip_update_body, dict_get_default.
  rewrite Hget. destruct (py_truthy (PStr s)); simpl; [|reflexivity].
  rewrite Hparse. reflexivity.
Qed.

(** A naive timestamp: skipped exactly when less than the threshold has
    elapsed, in microseconds. *)
Lemma skip_naive (now : Z) (user_data : pydict) (hours_threshold : Z)
    (s : string) (last : Z) :
  dict_get "recommendations_updated_at" user_data = Some (PStr s) ->
  s <> "" ->
  fromisoformat (replace_Z s) = Some {| micros := last; utcoffset := None |} ->
  should_skip_update fromisoformat now user_data hours_threshold = true <->
  (now - last < hours_threshold * 3600000000)%Z.
Proof.
  intros Hget Hne Hparse.
  unfold should_skip_update, should_skip_update_body, dict_get_default.
  rewrite Hget.
  assert (py_truthy (PStr s) = true) as ->.
  { simpl. destruct (String.eqb_spec s ""); [contradiction|reflexivity]. }
  simpl. rewrite Hparse. simpl.
  destruct (Qlt_le_dec _ _) as [Hlt|Hge].
  - split; [intros _|reflexivity].
    unfold total_seconds, Qdiv, Qlt in Hlt. simpl in Hlt. lia.
  - split; [discriminate|]. intros Hlt.
    unfold total_seconds, Qdiv, Qle in Hge. simpl in Hge. lia.
Qed.

(** A timestamp that carries a UTC offset is never skipped, whatever its
    age: the subtraction from the naive [utcnow()] raises. *)
Lemma skip_aware (now : Z) (user_data : pydict) (hours_threshold : Z)
    (s : string) (last off : Z) :
  dict_get "recommendations_updated_at" user_data = Some (PStr s) ->
  fromisoformat (replace_Z s) = Some {| micros := last; utcoffset := Some off |} ->
  should_skip_update fromisoformat now user_data hours_threshold = false.
Proof.
  intros Hget Hparse.
  unfold should_skip_update, should_skip_update_body, dict_get_default.
  rewrite Hget. destruct (py_truthy (PStr s)); simpl; [|reflexivity].
  rewrite Hparse. reflexivity.
Qed.

End SkipUpdateProperties.

Example skip_recent_naive :
  should_skip_update fromisoformat_ref sample_now user_updated_naive 24 = true.
Proof. vm_compute. reflexivity. Qed.

Example skip_at_threshold :
  should_skip_update fromisoformat_ref sample_now user_updated_day_before 24 = false /\
  should_skip_update fromisoformat_ref (sample_now - 1) user_updated_day_before 24 = true.
Proof. split; vm_compute; reflexivity. Qed.

Example skip_never_updated :
  should_skip_update fromisoformat_ref sample_now user_never_updated 24 = false.
Proof. vm_compute. reflexivity. Qed.

(** C5. A record updated one hour ago, its time written with the UTC
    designator: the timestamp is present, it parses, and one hour is less
    than the threshold of 24, yet [should_skip_update] answers false, because
    the subtraction [now - last_update] raises [TypeError]. *)
Theorem skip_utc_timestamp_not_skipped :
  fromisoformat_ref (replace_Z "2025-01-01T00:00:00Z")
  = Some {| micros := sample_now - 3600000000; utcoffset := Some 0%Z |} /\
  should_skip_update_body fromisoformat_ref sample_now user_updated_utc 24
  = Raise TypeError /\
  should_skip_update fromisoformat_ref sample_now user_updated_utc 24 = false.
Proof. repeat split; vm_compute; reflexivity. Qed.

(** ** The candidate pool *)

Lemma dict_get_snoc (k k' : string) (v : pyval) (d : pydict) :
  dict_get k (d ++ [(k', v)]) =
  match dict_get k d with
  | Some x => Some x
  | None => if String.eqb k k' then Some v else None
  end.
Proof.
  induction d as [|[k0 v0] d IH]; simpl; [reflexivity|].
  destruct (String.eqb k k0); auto.
Qed.

Lemma dict_get_setdefault (k : string) (v : pyval) (d : pydict) :
  dict_get k (dict_setdefault k v d) = Some (dict_get_default k v d).
Proof.
  unfold dict_setdefault, dict_has, dict_get_default.
  destruct (dict_get k d) as [x|] eqn:Hk; [exact Hk|].
  rewrite dict_get_snoc, Hk, String.eqb_refl. reflexivity.
Qed.

Lemma dict_get_setdefault_other (k k' : string) (v : pyval) (d : pydict) :
  k <> k' -> dict_get k (dict_setdefault k' v d) = dict_get k d.
Proof.
  intros Hne. unfold dict_setdefault.
  destruct (dict_has k' d); [reflexivity|].
  rewrite dict_get_snoc.
  destruct (dict_get k d); [reflexivity|].
  destruct (String.eqb_spec k k'); [contradiction|reflexivity].
Qed.

(** What one round of the loop of [get_candidate_articles] keeps. *)
Lemma candidate_of_Some (exclude_ids : list string) (row it : pydict) :
  candidate_of (list_to_set exclude_ids) row = Ok (Some it) ->
  not_excluded exclude_ids it /\
  dict_get "id" it = dict_get "id" row /\
  field_defaulted "abstract" (PStr "") row it /\
  field_defaulted "tags" (PList []) row it.
Proof.
  intros H.
  assert (it = dict_setdefault "tags" (PList []) (dict_setdefault "abstract" (PStr "") row)
          /\ forall s, dict_get "id" row = Some (PStr s) -> s ∉ exclude_ids)
    as [-> Hex].
  { unfold candidate_of, excluded, dict_get_default in H.
    destruct (dict_get "id" row) as [[| | | |s| |]|] eqn:Hrow; simpl in H;
      try discriminate;
      try (injection H as <-; split; [reflexivity|intros s' Hs'; discriminate Hs']).
    destruct (bool_decide (s ∈ (list_to_set exclude_ids : gset string))) eqn:Hin;
      simpl in H; [discriminate|].
    injection H as <-. split; [reflexivity|].
    intros s' Hs'. injection Hs' as <-.
    apply bool_decide_eq_false in Hin. intros Hmem. apply Hin.
    apply elem_of_list_to_set. exact Hmem. }
  assert (dict_get "id"
            (dict_setdefault "tags" (PList []) (dict_setdefault "abstract" (PStr "") row))
          = dict_get "id" row) as Hid.
  { rewrite !dict_get_setdefault_other by discriminate. reflexivity. }
  split; [|split; [exact Hid|split]].
  - intros s Hs. apply Hex. rewrite <- Hid. exact Hs.
  - unfold field_defaulted.
    rewrite dict_get_setdefault_other by discriminate. apply dict_get_setdefault.
  - unfold field_defaulted. rewrite dict_get_setdefault. unfold dict_get_default.
    rewrite dict_get_setdefault_other by discriminate. reflexivity.
Qed.

Example candidates_null_abstract :
  get_candidate_articles store_null_abstract (Some ["a1"]) 300
  = [[("id", PStr "a3"); ("title", PStr "Untitled draft");
      ("abstract", PNone); ("tags", PNone);
      ("status", PStr "published"); ("is_active", PBool true)]].
Proof. vm_compute. reflexivity. Qed.

(** C6, the claim as stated fails: an article whose abstract and tags are
    null in the store is returned with both fields null. *)
Lemma candidate_with_null_abstract :
  ~ Forall (fun it : pydict =>
              not_excluded ["a1"] it /\
              field_not_null "abstract" it /\ field_not_null "tags" it)
      (get_candidate_articles store_null_abstract (Some ["a1"]) 300).
Proof.
  rewrite candidates_null_abstract. intros H.
  apply Forall_cons in H as [(_ & (v & Hv & Hnull) & _) _].
  vm_compute in Hv. injection Hv as <-. apply Hnull. reflexivity.
Qed.

(** C6, amended. No article returned by [get_candidate_articles] has an id
    of the exclusion set, and every returned article has the keys [abstract]
    and [tags]: each is a row of the filtered query, or of the unfiltered
    query when the filtered one has no row, with the row's own abstract and
    tags when the row has these keys (a null value is kept) and with the
    empty string and the empty list when it has not. *)
Theorem candidates_not_excluded_with_fields
    (query_items : query -> Except (list pydict))
    (exclude_ids : option (list string)) (limit : Z) :
  Forall (fun it : pydict =>
            not_excluded (default [] exclude_ids) it /\
            dict_has "abstract" it = true /\ dict_has "tags" it = true /\
            exists (rows : list pydict) (row : pydict),
              pool_rows query_items limit rows /\ row ∈ rows /\
              dict_get "id" it = dict_get "id" row /\
              field_defaulted "abstract" (PStr "") row it /\
              field_defaulted "tags" (PList []) row it)
    (get_candidate_articles query_items exclude_ids limit).
Proof.
  apply Forall_forall. intros it Hit.
  unfold get_candidate_articles, get_candidate_articles_body in Hit.
  destruct (query_items (ActivePublished limit)) as [items|] eqn:Hfiltered;
    simpl in Hit; [|inversion Hit].
  assert (exists rows,
            pool_rows query_items limit rows /\
            it ∈ match except_omap (candidate_of (list_to_set (default [] exclude_ids)))
                         rows with
                 | Ok candidates => candidates
                 | Raise _ => []
                 end) as (rows & Hrows & Hin).
  { destruct items as [|row0 items].
    - destruct (query_items (AnyArticle limit)) as [rows|] eqn:Hany;
        simpl in Hit; [|inversion Hit].
      exists rows. split; [right; auto|exact Hit].
    - exists (row0 :: items). split; [left; split; [exact Hfiltered|discriminate]|].
      exact Hit. }
  destruct (except_omap _ rows) as [candidates|] eqn:Hloop; [|inversion Hin].
  destruct (except_omap_elem _ _ _ _ Hloop Hin) as (row & Hrow & Hkeep).
  apply candidate_of_Some in Hkeep as (Hex & Hid & Habs & Htags).
  split; [exact Hex|].
  unfold dict_has. unfold field_defaulted in Habs, Htags.
  split; [rewrite Habs; reflexivity|]. split; [rewrite Htags; reflexivity|].
  exists rows, row. auto.
Qed.

(** ** The article cache *)

Lemma is_cache_valid_iff (now : Q) (entry : cache_entry) :
  _is_cache_valid now entry = true <-> (now - timestamp entry < 300)%Q.
Proof.
  unfold _is_cache_valid, _cache_ttl.
  destruct (Qlt_le_dec (now - timestamp entry) 300) as [Hlt|Hge].
  - split; auto.
  - split; [discriminate|]. intros Hlt. lra.
Qed.

Lemma fresh_delete (now : Q) (cache : gmap string cache_entry) (id k : string) :
  fresh now cache id = None -> fresh now (delete id cache) k = fresh now cache k.
Proof.
  intros Hid. unfold fresh. destruct (decide (k = id)) as [->|Hne].
  - rewrite lookup_delete_eq. symmetry. exact Hid.
  - rewrite lookup_delete_ne by congruence. reflexivity.
Qed.

Lemma omap_ext_fun {A B : Type} (f g : A -> option B) (l : list A) :
  (forall x : A, f x = g x) -> omap f l = omap g l.
Proof.
  intros Hfg. apply list_omap_ext, Forall2_same_length_lookup.
  split; [reflexivity|]. intros i x y Hx Hy.
  rewrite Hx in Hy. injection Hy as <-. apply Hfg.
Qed.

Lemma filter_ext_fun {A : Type} (p q : A -> bool) (l : list A) :
  (forall x : A, p x = q x) -> List.filter p l = List.filter q l.
Proof.
  intros Hpq. induction l as [|x l IH]; simpl; [reflexivity|].
  rewrite Hpq, IH. reflexivity.
Qed.

(** The three results of [_get_from_cache], in terms of the cache it
    started from. *)
Lemma get_from_cache_spec (now : Q) (article_ids : list string)
    (cache : gmap string cache_entry) :
  let '(cached, missing, cache') := _get_from_cache now article_ids cache in
  cached = omap (fresh now cache) article_ids /\
  missing = List.filter (fun id => negb (is_fresh now cache id)) article_ids /\
  forall k : string,
    cache' !! k =
    match cache !! k with
    | Some entry =>
        if _is_cache_valid now entry then Some entry
        else if bool_decide (k ∈ article_ids) then None else Some entry
    | None => None
    end.
Proof.
  revert cache. induction article_ids as [|id rest IH]; intros cache.
  - simpl. split; [reflexivity|]. split; [reflexivity|].
    intros k. destruct (cache !! k) as [entry|]; [|reflexivity].
    destruct (_is_cache_valid now entry); reflexivity.
  - change (omap (fresh now cache) (id :: rest))
      with (match fresh now cache id with
            | Some a => a :: omap (fresh now cache) rest
            | None => omap (fresh now cache) rest
            end).
    change (List.filter (fun id => negb (is_fresh now cache id)) (id :: rest))
      with (if negb (is_fresh now cache id)
            then id :: List.filter (fun id => negb (is_fresh now cache id)) rest
            else List.filter (fun id => negb (is_fresh now cache id)) rest).
    assert (forall k (e : cache_entry),
              cache !! k = Some e -> _is_cache_valid now e = false -> k <> id ->
              (if bool_decide (k ∈ id :: rest) then None else Some e)
              = (if bool_decide (k ∈ rest) then None else Some e)) as Hmem.
    { intros k e _ _ Hne.
      rewrite (bool_decide_ext (k ∈ id :: rest) (k ∈ rest)); [reflexivity|].
      rewrite elem_of_cons. tauto. }
    simpl _get_from_cache.
    destruct (cache !! id) as [entry|] eqn:Hid;
      [destruct (_is_cache_valid now entry) eqn:Hvalid|].
    + assert (fresh now cache id = Some (article entry)) as Hfresh.
      { unfold fresh. rewrite Hid, Hvalid. reflexivity. }
      unfold is_fresh at 1. rewrite Hfresh. simpl negb. cbv iota.
      specialize (IH cache).
      destruct (_get_from_cache now rest cache) as [[cached missing] cache'].
      destruct IH as (-> & -> & Hcache). split; [reflexivity|].
      split; [reflexivity|].
      intros k. rewrite Hcache. destruct (cache !! k) as [e|] eqn:Hk; [|reflexivity].
      destruct (_is_cache_valid now e) eqn:He; [reflexivity|].
      symmetry. apply (Hmem k e Hk He). intros ->. congruence.
    + assert (fresh now cache id = None) as Hnot.
      { unfold fresh. rewrite Hid, Hvalid. reflexivity. }
      unfold is_fresh at 1. rewrite Hnot. simpl negb. cbv iota.
      specialize (IH (delete id cache)).
      destruct (_get_from_cache now rest (delete id cache))
        as [[cached missing] cache'].
      destruct IH as (-> & -> & Hcache).
      split; [apply omap_ext_fun; intros k; apply fresh_delete, Hnot|].
      split.
      { f_equal. apply filter_ext_fun. intros k. unfold is_fresh.
        rewrite fresh_delete by exact Hnot. reflexivity. }
      intros k. rewrite Hcache. destruct (decide (k = id)) as [->|Hne].
      * rewrite lookup_delete_eq, Hid, Hvalid.
        rewrite bool_decide_eq_true_2 by left. reflexivity.
      * rewrite lookup_delete_ne by congruence.
        destruct (cache !! k) as [e|] eqn:Hk; [|reflexivity].
        destruct (_is_cache_valid now e) eqn:He; [reflexivity|].
        symmetry. apply (Hmem k e Hk He Hne).
    + assert (fresh now cache id = None) as Hnot.
      { unfold fresh. rewrite Hid. reflexivity. }
      unfold is_fresh at 1. rewrite Hnot. simpl negb. cbv iota.
      specialize (IH cache).
      destruct (_get_from_cache now rest cache) as [[cached missing] cache'].
      destruct IH as (-> & -> & Hcache). split; [reflexivity|].
      split; [reflexivity|].
      intros k. rewrite Hcache. destruct (cache !! k) as [e|] eqn:Hk; [|reflexivity].
      destruct (_is_cache_valid now e) eqn:He; [reflexivity|].
      symmetry. apply (Hmem k e Hk He). intros ->. congruence.
Qed.

(** [_update_cache] raises exactly when an id cannot be a key. *)
Lemma update_cache_hashable (current_time : Q) (articles : list pydict)
    (cache : gmap string cache_entry) :
  ids_hashable articles = true ->
  snd (_update_cache current_time articles cache) = Ok tt.
Proof.
  revert cache. induction articles as [|a rest IH]; intros cache H; simpl in *;
    [reflexivity|].
  apply andb_true_iff in H as [Ha Hrest].
  destruct (dict_get_default "id" PNone a) as [| | | |s|[|x l]|[|x d]]; simpl;
    try discriminate;
    repeat match goal with
           | |- context [if ?c then _ else _] => destruct c
           end; auto.
Qed.

(** An entry of the cache after [_update_cache] is the one it had before or
    a stamped article of the list. *)
Lemma update_cache_lookup (current_time : Q) (articles : list pydict)
    (cache : gmap string cache_entry) (s : string) :
  let cache2 := fst (_update_cache current_time articles cache) in
  cache2 !! s = cache !! s \/
  exists a' : pydict,
    a' ∈ articles /\ dict_get "id" a' = Some (PStr s) /\
    cache2 !! s = Some {| article := a'; timestamp := current_time |}.
Proof.
  revert cache. induction articles as [|a rest IH]; intros cache; simpl;
    [left; reflexivity|].
  assert (forall c : gmap string cache_entry,
            fst (_update_cache current_time rest c) !! s = c !! s \/
            exists a' : pydict,
              a' ∈ a :: rest /\ dict_get "id" a' = Some (PStr s) /\
              fst (_update_cache current_time rest c) !! s
              = Some {| article := a'; timestamp := current_time |}) as Hrest.
  { intros c. destruct (IH c) as [Heq|(a' & Hin & Hid & Hlook)]; [left; exact Heq|].
    right. exists a'. split; [right; exact Hin|auto]. }
  unfold dict_get_default.
  destruct (dict_get "id" a) as [[| |z|f|s'|l|d]|] eqn:Hida; simpl;
    [apply Hrest
    |destruct (negb _); apply Hrest
    |destruct (negb _); apply Hrest
    |destruct (negb _); apply Hrest
    |
    |destruct (negb _); [apply Hrest|left; reflexivity]
    |destruct (negb _); [apply Hrest|left; reflexivity]
    |apply Hrest].
  destruct (negb (negb (s' =? "")%string)); [apply Hrest|].
  destruct (Hrest (<[s' := {| article := a; timestamp := current_time |}]> cache))
    as [Heq|Hex]; [|right; exact Hex].
  destruct (decide (s' = s)) as [->|Hne].
  - right. exists a. split; [left|]. split; [exact Hida|].
    rewrite Heq. apply lookup_insert_eq.
  - left. rewrite Heq. apply lookup_insert_ne. exact Hne.
Qed.

(** Every article of the list with a non-empty string id is in the cache
    after [_update_cache], stamped with [current_time]. *)
Lemma update_cache_hit (current_time : Q) (articles : list pydict)
    (cache : gmap string cache_entry) :
  ids_hashable articles = true ->
  Forall (cached_at current_time articles
            (fst (_update_cache current_time articles cache))) articles.
Proof.
  intros Hhash. apply Forall_forall. intros a Ha s Hid Hne.
  revert cache Hhash. induction articles as [|b rest IH]; intros cache Hhash;
    [inversion Ha|].
  simpl in Hhash. apply andb_true_iff in Hhash as [Hb Hrest].
  assert (forall c : gmap string cache_entry,
            a ∈ rest ->
            exists a' : pydict,
              fst (_update_cache current_time rest c) !! s
              = Some {| article := a'; timestamp := current_time |} /\
              a' ∈ b :: rest /\ dict_get "id" a' = Some (PStr s)) as Hlater.
  { intros c Hin. destruct (IH Hin c Hrest) as (a' & Hlook & Hin' & Hid').
    exists a'. split; [exact Hlook|]. split; [right; exact Hin'|exact Hid']. }
  apply elem_of_cons in Ha as [->|Ha].
  - simpl. unfold dict_get_default. rewrite Hid. simpl.
    destruct (String.eqb_spec s "") as [|_]; [contradiction|]. simpl.
    destruct (update_cache_lookup current_time rest
                (<[s := {| article := b; timestamp := current_time |}]> cache) s)
      as [Heq|(a' & Hin & Hid' & Hlook)].
    + exists b. split; [|split; [left|exact Hid]].
      simpl in Heq. rewrite Heq. apply lookup_insert_eq.
    + exists a'. split; [exact Hlook|]. split; [right; exact Hin|exact Hid'].
  - simpl. unfold dict_get_default in *.
    destruct (dict_get "id" b) as [[| | | |s'|[|x l]|[|x d]]|]; simpl;
      try discriminate;
      repeat match goal with
             | |- context [if ?c then _ else _] => destruct c
             end; apply Hlater; exact Ha.
Qed.

Example lookup_with_queries_down :
  get_articles_by_ids_optimized queries_down reads_up 1100 1101 ["a1"; "a2"] gateway_a1
  = ({| _article_cache := _article_cache gateway_a1;
        store_log := [Queried (ByIds ["a2"]); Queried (ByIds ["a1"; "a2"]);
                      Read "a1"; Read "a2"] |},
     [stored_a1; stored_a2]).
Proof. vm_compute. reflexivity. Qed.

Example lookup_partial_hit :
  get_articles_by_ids_optimized queries_up reads_up 1100 1101 ["a1"; "a2"] gateway_a1
  = ({| _article_cache :=
          <["a2" := {| article := stored_a2; timestamp := 1101 |}]>
            (_article_cache gateway_a1);
        store_log := [Queried (ByIds ["a2"])] |},
     [cached_a1; stored_a2]).
Proof. vm_compute. reflexivity. Qed.

Example lookup_at_ttl :
  fresh 1299 (_article_cache gateway_a1) "a1" = Some cached_a1 /\
  fresh 1300 (_article_cache gateway_a1) "a1" = None /\
  get_articles_by_ids_optimized queries_up reads_up 1300 1301 ["a1"] gateway_a1
  = ({| _article_cache := {[ "a1" := {| article := stored_a1; timestamp := 1301 |} ]};
        store_log := [Queried (ByIds ["a1"])] |},
     [stored_a1]).
Proof. repeat split; vm_compute; reflexivity. Qed.

(** C7, the claim as stated fails: [a1] has a cache entry 100 seconds old,
    the query for the missing [a2] fails, and the lookup then asks the store
    for [a1] too and returns the store's article, not the cached one. *)
Lemma cached_article_refetched :
  fresh 1100 (_article_cache gateway_a1) "a1" = Some cached_a1 /\
  ~ served_from_cache 1100 ["a1"; "a2"] (_article_cache gateway_a1) 0
      (fst (get_articles_by_ids_optimized queries_down reads_up 1100 1101
              ["a1"; "a2"] gateway_a1))
      (snd (get_articles_by_ids_optimized queries_down reads_up 1100 1101
              ["a1"; "a2"] gateway_a1)).
Proof.
  split; [vm_compute; reflexivity|].
  rewrite lookup_with_queries_down. intros H.
  destruct (H "a1" cached_a1) as [_ Hasks].
  - left.
  - vm_compute. reflexivity.
  - vm_compute in Hasks. discriminate Hasks.
Qed.

(** C7, amended. For every id list, an entry is fresh when its age is
    strictly below 300 seconds.  When all ids are fresh the cached articles
    are returned and the store is not asked.  Otherwise one query carrying
    exactly the ids without fresh entry (absent, or at or past the TTL) is
    sent; when the store answers it (and the ids of the rows can be cache
    keys), the result is the cached articles followed by the fetched ones,
    no request asks the store for an id with a fresh entry, and every fetched
    article with a non-empty id is in the cache afterwards, stamped with the
    current time.  When that query fails, the lookup is handed to the
    uncached [get_articles_by_ids] with all the ids. *)
Theorem cached_lookup_when_store_answers
    (query_items : query -> Except (list pydict)) (read_item : string -> Except pydict)
    (now current_time : Q) (article_ids : list string) (g : gateway) :
  let cache := _article_cache g in
  let cached := omap (fresh now cache) article_ids in
  let missing := List.filter (fun id => negb (is_fresh now cache id)) article_ids in
  let out :=
    get_articles_by_ids_optimized query_items read_item now current_time
      article_ids g in
  (forall entry : cache_entry,
      _is_cache_valid now entry = true <-> (now - timestamp entry < 300)%Q) /\
  (missing = [] -> snd out = cached /\ store_log (fst out) = store_log g) /\
  (forall db_articles : list pydict,
      missing <> [] ->
      query_items (ByIds missing) = Ok db_articles ->
      ids_hashable db_articles = true ->
      snd out = cached ++ db_articles /\
      store_log (fst out) = store_log g ++ [Queried (ByIds missing)] /\
      served_from_cache now article_ids cache (length (store_log g)) (fst out) (snd out) /\
      Forall (cached_at current_time db_articles (_article_cache (fst out)))
        db_articles) /\
  (forall e : exn,
      missing <> [] ->
      query_items (ByIds missing) = Raise e ->
      exists cache1 : gmap string cache_entry,
        out = get_articles_by_ids query_items read_item article_ids
                (logged (Queried (ByIds missing)) (with_cache cache1 g))).
Proof.
  intros cache cached missing out.
  split; [intros entry; apply is_cache_valid_iff|].
  subst out. unfold get_articles_by_ids_optimized.
  pose proof (get_from_cache_spec now article_ids cache) as Hspec.
  fold cache.
  destruct (_get_from_cache now article_ids cache) as [[cached' missing'] cache1].
  destruct Hspec as (Hcached & Hmissing & Hcache1).
  fold cached in Hcached. fold missing in Hmissing. subst cached' missing'.
  destruct article_ids as [|id0 rest].
  { simpl. split; [auto|]. split; intros; contradiction. }
  set (ids := id0 :: rest) in *.
  split; [|split].
  - intros Hnone. rewrite Hnone. simpl. auto.
  - intros db Hsome Hquery Hhash.
    destruct missing as [|m0 missing0] eqn:Hm; [contradiction|].
    rewrite Hquery.
    pose proof (update_cache_hashable current_time db cache1 Hhash) as Hok.
    pose proof (update_cache_hit current_time db cache1 Hhash) as Hhit.
    destruct (_update_cache current_time db cache1) as [cache2 updated].
    simpl in Hok, Hhit. subst updated. simpl.
    split; [reflexivity|]. split; [reflexivity|]. split; [|exact Hhit].
    intros id a Hin Hfresh. split.
    + apply elem_of_app. left. subst cached.
      apply list_elem_of_omap. exists id. auto.
    + unfold with_cache, logged. cbn [fst store_log _article_cache].
      rewrite drop_app_length. simpl.
      rewrite orb_false_r. apply bool_decide_eq_false.
      rewrite <- Hm. subst missing. intros Hmem.
      apply list_elem_of_In, filter_In in Hmem as [_ Hneg].
      unfold is_fresh in Hneg. rewrite Hfresh in Hneg. discriminate.
  - intros e Hsome Hquery.
    destruct missing as [|m0 missing0] eqn:Hm; [contradiction|].
    rewrite Hquery. exists cache1. reflexivity.
Qed.

(** A partial hit on a store that answers. *)
Lemma cached_lookup_when_store_answers_witness :
  snd (get_articles_by_ids_optimized queries_up reads_up 1100 1101 ["a1"; "a2"]
         gateway_a1)
  = [cached_a1; stored_a2] /\
  store_log (fst (get_articles_by_ids_optimized queries_up reads_up 1100 1101
                    ["a1"; "a2"] gateway_a1))
  = [Queried (ByIds ["a2"])].
Proof.
  destruct (cached_lookup_when_store_answers queries_up reads_up 1100 1101
              ["a1"; "a2"] gateway_a1) as (_ & _ & H & _).
  destruct (H [stored_a2]) as (Hres & Hlog & _).
  - vm_compute. discriminate.
  - vm_compute. reflexivity.
  - reflexivity.
  - split; [exact Hres|exact Hlog].
Defined.

(** ** Trend aggregation *)

Lemma filter_filter_absorb {A : Type} (p q : A -> bool) (l : list A) :
  (forall x : A, p x = true -> q x = true) ->
  List.filter p (List.filter q l) = List.filter p l.
Proof.
  intros Hpq. induction l as [|x l IH]; simpl; [reflexivity|].
  destruct (q x) eqn:Hq; simpl.
  - rewrite IH. reflexivity.
  - destruct (p x) eqn:Hp; [|exact IH].
    apply Hpq in Hp. congruence.
Qed.

Lemma filter_filter_and {A : Type} (p q r : A -> bool) (l : list A) :
  (forall x : A, r x = p x && q x) ->
  List.filter p (List.filter q l) = List.filter r l.
Proof.
  intros Hr. induction l as [|x l IH]; simpl; [reflexivity|].
  rewrite Hr. destruct (q x); simpl.
  - rewrite IH, andb_true_r. reflexivity.
  - rewrite andb_false_r. exact IH.
Qed.

(** The keys inserted after [keys] are the first occurrences that are not in
    [keys] yet. *)
Lemma fromkeys_from (l keys : list string) :
  fold_left (fun keys x => if bool_decide (x ∈ keys) then keys else keys ++ [x]) l keys
  = keys ++ List.filter (fun y => negb (bool_decide (y ∈ keys))) (first_seen l).
Proof.
  revert keys. induction l as [|x l IH]; intros keys; simpl.
  - rewrite app_nil_r. reflexivity.
  - destruct (bool_decide (x ∈ keys)) eqn:Hx; simpl.
    + rewrite IH. f_equal. symmetry. apply filter_filter_absorb.
      intros y Hy. apply negb_true_iff, bool_decide_eq_false in Hy.
      apply negb_true_iff, bool_decide_eq_false. intros ->.
      apply bool_decide_eq_true in Hx. contradiction.
    + rewrite IH, <- app_assoc. simpl. do 2 f_equal. symmetry.
      apply filter_filter_and. intros y.
      destruct (decide (y = x)) as [->|Hne].
      * rewrite (bool_decide_eq_true_2 (x = x)) by reflexivity.
        rewrite andb_false_r. apply negb_false_iff, bool_decide_eq_true.
        apply elem_of_app. right. left.
      * rewrite (bool_decide_eq_false_2 (y = x)) by exact Hne.
        rewrite andb_true_r. f_equal. apply bool_decide_ext.
        rewrite elem_of_app, list_elem_of_singleton. tauto.
Qed.

Lemma dict_fromkeys_first_seen (l : list string) : dict_fromkeys l = first_seen l.
Proof.
  unfold dict_fromkeys. rewrite fromkeys_from. simpl.
  induction (first_seen l) as [|x l' IH]; simpl; [reflexivity|].
  f_equal. exact IH.
Qed.

Lemma first_seen_elem (l : list string) (y : string) : y ∈ first_seen l <-> y ∈ l.
Proof.
  induction l as [|x l IH]; simpl; [reflexivity|].
  rewrite !elem_of_cons, <- IH, list_elem_of_In, filter_In, <- list_elem_of_In.
  rewrite negb_true_iff, bool_decide_eq_false.
  destruct (decide (y = x)); tauto.
Qed.

Lemma first_seen_NoDup (l : list string) : NoDup (first_seen l).
Proof.
  induction l as [|x l IH]; simpl; constructor.
  - rewrite list_elem_of_In, filter_In.
    intros [_ H]. apply negb_true_iff, bool_decide_eq_false in H. congruence.
  - apply NoDup_ListNoDup, List.NoDup_filter, NoDup_ListNoDup, IH.
Qed.

Lemma filter_all {A : Type} (p : A -> bool) (l : list A) :
  (forall x : A, x ∈ l -> p x = true) -> List.filter p l = l.
Proof.
  induction l as [|x l IH]; intros Hp; simpl; [reflexivity|].
  rewrite (Hp x) by left. f_equal. apply IH. intros y Hy. apply Hp. right. exact Hy.
Qed.

Lemma first_seen_NoDup_id (l : list string) : NoDup l -> first_seen l = l.
Proof.
  induction 1 as [|x l Hx Hnd IH]; simpl; [reflexivity|].
  rewrite IH. f_equal. apply filter_all.
  intros y Hy. apply negb_true_iff, bool_decide_eq_false. intros ->. contradiction.
Qed.

Lemma first_seen_app_NoDup (l1 l2 : list string) :
  NoDup l1 ->
  first_seen (l1 ++ l2)
  = l1 ++ List.filter (fun y => negb (bool_decide (y ∈ l1))) (first_seen l2).
Proof.
  intros Hnd. rewrite <- dict_fromkeys_first_seen. unfold dict_fromkeys.
  rewrite fold_left_app.
  change (fold_left
            (fun keys x => if bool_decide (x ∈ keys) then keys else keys ++ [x]) l1 [])
    with (dict_fromkeys l1).
  rewrite dict_fromkeys_first_seen, (first_seen_NoDup_id l1 Hnd).
  apply fromkeys_from.
Qed.

Lemma py_slice_to_NoDup (n : Z) (l : list string) : NoDup l -> NoDup (py_slice_to n l).
Proof.
  intros Hnd. unfold py_slice_to.
  destruct (n <? 0)%Z; eapply sublist_NoDup; eauto using sublist_take.
Qed.

(** Among five distinct topics, at least two are not among three given
    ones. *)
Lemma static_topics_left (three : list string) :
  length three = 3 ->
  2 <= length (List.filter (fun y => negb (bool_decide (y ∈ three))) current_trending).
Proof.
  intros Hlen.
  pose proof (filter_length (fun y => bool_decide (y ∈ three)) current_trending) as Hsum.
  assert (length (List.filter (fun y => bool_decide (y ∈ three)) current_trending) <= 3)
    as Hle.
  { rewrite <- Hlen. apply submseteq_length, NoDup_submseteq.
    - apply NoDup_ListNoDup, List.NoDup_filter, NoDup_ListNoDup.
      apply (bool_decide_unpack _). vm_compute. exact I.
    - intros y Hy. apply list_elem_of_In, filter_In in Hy as [_ Hy].
      apply bool_decide_eq_true in Hy. exact Hy. }
  change (length current_trending) with 5 in Hsum. lia.
Qed.

Example trending_news_down_social_three :
  get_trending_topics (Some "key") news_feed_down social_feed_three 5
  = ["quantum-chips"; "mars-rover"; "ocean-cleanup"; "ai-advancements";
     "climate-action"].
Proof. vm_compute. reflexivity. Qed.

(** C8, the claim as stated fails: with the news feed failing and three
    topics from the social feed, [get_trending_topics(5)] returns five
    topics, the last two from the static list. *)
Lemma static_topics_fill_the_limit :
  _get_trending_from_newsapi (Some "key") news_feed_down 5 = [] /\
  _get_trending_from_reddit social_feed_three 5
  = ["quantum-chips"; "mars-rover"; "ocean-cleanup"] /\
  get_trending_topics (Some "key") news_feed_down social_feed_three 5
  <> ["quantum-chips"; "mars-rover"; "ocean-cleanup"].
Proof.
  split; [reflexivity|]. split; [reflexivity|].
  rewrite trending_news_down_social_three. discriminate.
Qed.

(** C8, amended. [get_trending_topics] concatenates the topics of the keyed
    news feed (none without a key or when the feed fails), of the social feed
    (none when it fails) and of the static list, which is always consulted,
    keeps the first occurrence of each topic in order and cuts the list with
    [[:limit]]; no error leaves it and the hardcoded fallback list is not
    used.  When the news feed throws and the social feed returns 3 distinct
    topics, [get_trending_topics(5)] returns these 3 topics followed by the
    first 2 static topics that are not among them: 5 topics. *)
Theorem trending_topics_merged
    (news_api_key : option string)
    (newsapi_topics reddit_topics : Z -> Except (list string)) (limit : Z) :
  let news := _get_trending_from_newsapi news_api_key newsapi_topics limit in
  let social := _get_trending_from_reddit reddit_topics limit in
  let static := py_slice_to limit current_trending in
  let result := get_trending_topics news_api_key newsapi_topics reddit_topics limit in
  result = py_slice_to limit (first_seen (news ++ social ++ static)) /\
  NoDup result /\
  (forall (e : exn) (three : list string),
      limit = 5%Z ->
      has_news_api_key news_api_key = true ->
      newsapi_topics 5%Z = Raise e ->
      reddit_topics 5%Z = Ok three ->
      length three = 3 -> NoDup three ->
      result
      = three ++ take 2 (List.filter (fun y => negb (bool_decide (y ∈ three)))
                           current_trending) /\
      length result = 5).
Proof.
  intros news social static result.
  assert (result = py_slice_to limit (first_seen (news ++ social ++ static))) as Hres.
  { subst result news social static.
    unfold get_trending_topics, get_trending_topics_body, _get_trending_from_twitter.
    rewrite dict_fromkeys_first_seen.
    unfold _get_trending_from_newsapi.
    destruct (has_news_api_key news_api_key); simpl; rewrite ?app_assoc; reflexivity. }
  split; [exact Hres|]. split.
  { rewrite Hres. apply py_slice_to_NoDup, first_seen_NoDup. }
  intros e three -> Hkey Hnews Hsocial Hlen Hnd.
  assert (result
          = three ++ take 2 (List.filter (fun y => negb (bool_decide (y ∈ three)))
                               current_trending)) as Hthree.
  { rewrite Hres. subst news social static.
    unfold _get_trending_from_newsapi, _get_trending_from_reddit.
    rewrite Hkey, Hnews, Hsocial. simpl negb. cbv iota.
    change (py_slice_to 5 current_trending) with current_trending.
    rewrite app_nil_l, (first_seen_app_NoDup three current_trending Hnd).
    change (first_seen current_trending) with current_trending.
    unfold py_slice_to. simpl Z.ltb. cbv iota.
    change (Z.to_nat 5) with (3 + 2). rewrite <- Hlen at 1.
    apply take_app_add. }
  split; [exact Hthree|].
  rewrite Hthree, length_app, length_take, Hlen.
  pose proof (static_topics_left three Hlen). lia.
Qed.

(** The news feed down and three topics from the social feed. *)
Lemma trending_topics_merged_witness :
  get_trending_topics (Some "key") news_feed_down social_feed_three 5
  = ["quantum-chips"; "mars-rover"; "ocean-cleanup"] ++
    take 2 (List.filter
              (fun y => negb (bool_decide
                                (y ∈ ["quantum-chips"; "mars-rover"; "ocean-cleanup"])))
              current_trending) /\
  length (get_trending_topics (Some "key") news_feed_down social_feed_three 5) = 5.
Proof.
  destruct (trending_topics_merged (Some "key") news_feed_down social_feed_three 5)
    as (_ & _ & H).
  apply (H (ServiceError "401 Unauthorized")
           ["quantum-chips"; "mars-rover"; "ocean-cleanup"]);
    try reflexivity.
  apply (bool_decide_unpack _). vm_compute. exact I.
Defined.

(** * Further properties *)

(** ** The retry loop for any bound *)

(** X1. Whatever [max_retries] is, [_call_chat_completion] sends at most
    [max_retries] requests (none when the bound is zero or negative, the
    empty string being returned then), pauses [2^i] seconds after the failed
    attempt [i] for every attempt but the last one made, and raises only
    after [max_retries] failed requests, with the error of the last one. *)
Theorem call_chat_completion_bounded
    (chat_create : nat -> string -> Except string)
    (prompt : string) (max_retries : Z) (w : io) :
  let out := _call_chat_completion chat_create prompt max_retries w in
  let calls := llm_calls (fst out) - llm_calls w in
  llm_calls (fst out) = llm_calls w + calls /\
  calls <= Z.to_nat max_retries /\
  slept (fst out) = slept w ++ map pause (seq 0 (calls - 1)) /\
  ((max_retries <= 0)%Z -> out = (w, Ok "")) /\
  (forall e : exn,
      snd out = Raise e ->
      calls = Z.to_nat max_retries /\ (0 < max_retries)%Z /\
      chat_create (llm_calls w + (calls - 1)) prompt = Raise e).
Proof.
  intros out calls.
  destruct (Z.le_gt_cases max_retries 0) as [Hle|Hgt].
  - assert (out = (w, Ok "")) as Hout.
    { subst out. unfold _call_chat_completion.
      replace (Z.to_nat max_retries) with 0 by lia. reflexivity. }
    subst calls. rewrite Hout. simpl. rewrite Nat.sub_diag. simpl.
    rewrite app_nil_r.
    split; [lia|]. split; [lia|]. split; [reflexivity|]. split; [reflexivity|].
    intros e0 He0. discriminate He0.
  - pose proof (call_chat_completion_spec chat_create prompt (Z.to_nat max_retries) w
                  ltac:(lia)) as H.
    rewrite Z2Nat.id in H by lia. fold out in H.
    subst calls. destruct out as [w' [content|e]]; simpl in *.
    + destruct H as (k & Hk & _ & _ & Hcalls & Hslept).
      rewrite Hcalls.
      replace (llm_calls w + k + 1 - llm_calls w) with (k + 1) by lia.
      replace (k + 1 - 1) with k by lia.
      split; [lia|]. split; [lia|]. split; [exact Hslept|]. split; [lia|].
      intros e0 He0. discriminate He0.
    + destruct H as (_ & Hlast & Hcalls & Hslept).
      rewrite Hcalls.
      replace (llm_calls w + Z.to_nat max_retries - llm_calls w)
        with (Z.to_nat max_retries) by lia.
      split; [lia|]. split; [lia|]. split; [exact Hslept|]. split; [lia|].
      intros e' He'. injection He' as <-. split; [reflexivity|]. split; [lia|].
      exact Hlast.
Qed.

Example call_chat_completion_third_time :
  _call_chat_completion chat_third_time "recommend" 5 io_start
  = ({| llm_calls := 3; slept := [1; 2]%Z |}, Ok "{}").
Proof. reflexivity. Qed.

(** ** The uncached lookup *)

Lemma fallback_reads (read_item : string -> Except pydict)
    (article_ids : list string) (g : gateway) :
  _get_articles_by_ids_fallback read_item article_ids g
  = ({| _article_cache := _article_cache g;
        store_log := store_log g ++ map Read article_ids |},
     omap (read_ok read_item) article_ids).
Proof.
  revert g. induction article_ids as [|id rest IH]; intros g; simpl.
  - rewrite app_nil_r. destruct g; reflexivity.
  - rewrite IH. simpl. rewrite <- app_assoc. simpl.
    destruct (read_item id) as [a|e] eqn:Hread.
    + replace (read_ok read_item id) with (Some a)
        by (unfold read_ok; rewrite Hread; reflexivity).
      reflexivity.
    + replace (read_ok read_item id) with (@None pydict)
        by (unfold read_ok; rewrite Hread; reflexivity).
      reflexivity.
Qed.

Lemma get_articles_by_ids_log
    (query_items : query -> Except (list pydict)) (read_item : string -> Except pydict)
    (article_ids : list string) (g : gateway) :
  exists rest : list store_call,
    store_log (fst (get_articles_by_ids query_items read_item article_ids g))
    = store_log g ++ rest.
Proof.
  unfold get_articles_by_ids. destruct article_ids as [|id rest].
  { exists []. simpl. rewrite app_nil_r. reflexivity. }
  destruct (query_items (ByIds (id :: rest))).
  - eexists. reflexivity.
  - rewrite fallback_reads. simpl. rewrite <- app_assoc. eexists. reflexivity.
Qed.

(** X2. [get_articles_by_ids] asks nothing for an empty id list; otherwise
    it sends one batch query and returns its rows, and when that query fails
    it reads the ids one by one, in order, returning the documents found and
    leaving out the ids whose read fails.  It never fails itself and leaves
    the article cache alone. *)
Theorem get_articles_by_ids_batch_then_single
    (query_items : query -> Except (list pydict)) (read_item : string -> Except pydict)
    (article_ids : list string) (g : gateway) :
  let out := get_articles_by_ids query_items read_item article_ids g in
  _article_cache (fst out) = _article_cache g /\
  (article_ids = [] -> out = (g, [])) /\
  (forall rows : list pydict,
      article_ids <> [] -> query_items (ByIds article_ids) = Ok rows ->
      snd out = rows /\
      store_log (fst out) = store_log g ++ [Queried (ByIds article_ids)]) /\
  (forall e : exn,
      article_ids <> [] -> query_items (ByIds article_ids) = Raise e ->
      snd out = omap (read_ok read_item) article_ids /\
      store_log (fst out)
      = store_log g ++ Queried (ByIds article_ids) :: map Read article_ids).
Proof.
  intros out. subst out. unfold get_articles_by_ids.
  destruct article_ids as [|id rest].
  { simpl. split; [reflexivity|]. split; [reflexivity|]. split; intros; contradiction. }
  set (ids := id :: rest).
  destruct (query_items (ByIds ids)) as [rows|e] eqn:Hq.
  - simpl. split; [reflexivity|]. split; [discriminate|].
    split; [|intros; discriminate].
    intros rows' _ Hrows. injection Hrows as <-. auto.
  - rewrite fallback_reads. simpl. split; [reflexivity|]. split; [discriminate|].
    split; [intros; discriminate|].
    intros e' _ _. rewrite <- app_assoc. auto.
Qed.

(** ** The cache *)

(** X3. [_get_from_cache] splits the requested ids, in order, into those
    with a fresh entry, whose articles it returns, and the others, which it
    reports missing; the cache it leaves is the one it found without the
    expired entries of the requested ids, so that a missing id has no entry
    left and no fresh or unrequested entry is touched. *)
Theorem get_from_cache_partition (now : Q) (article_ids : list string)
    (cache : gmap string cache_entry) :
  let cached := fst (fst (_get_from_cache now article_ids cache)) in
  let missing := snd (fst (_get_from_cache now article_ids cache)) in
  let cache' := snd (_get_from_cache now article_ids cache) in
  cached = omap (fresh now cache) article_ids /\
  missing = List.filter (fun id => negb (is_fresh now cache id)) article_ids /\
  length cached + length missing = length article_ids /\
  Forall (fun id => cache' !! id = None) missing /\
  (forall k : string,
      cache' !! k =
      if bool_decide (k ∈ article_ids) && negb (is_fresh now cache k)
      then None else cache !! k).
Proof.
  intros cached missing cache'. subst cached missing cache'.
  pose proof (get_from_cache_spec now article_ids cache) as H.
  destruct (_get_from_cache now article_ids cache) as [[cached missing] cache'].
  destruct H as (Hcached & Hmissing & Hcache). simpl.
  assert (forall k : string,
            cache' !! k =
            if bool_decide (k ∈ article_ids) && negb (is_fresh now cache k)
            then None else cache !! k) as Hlook.
  { intros k. rewrite Hcache. unfold is_fresh, fresh.
    destruct (cache !! k) as [entry|].
    - destruct (_is_cache_valid now entry); simpl.
      + rewrite andb_false_r. reflexivity.
      + rewrite andb_true_r. reflexivity.
    - simpl. destruct (bool_decide (k ∈ article_ids)); reflexivity. }
  split; [exact Hcached|]. split; [exact Hmissing|]. split; [|split; [|exact Hlook]].
  - subst cached missing. clear. unfold is_fresh.
    induction article_ids as [|id rest IH]; [reflexivity|].
    change (omap (fresh now cache) (id :: rest))
      with (match fresh now cache id with
            | Some a => a :: omap (fresh now cache) rest
            | None => omap (fresh now cache) rest
            end).
    simpl List.filter. destruct (fresh now cache id); simpl in *; lia.
  - apply Forall_forall. intros id Hid. rewrite Hlook.
    subst missing. apply list_elem_of_In, filter_In in Hid as [Hin Hneg].
    rewrite Hneg, andb_true_r.
    rewrite bool_decide_eq_true_2 by (apply list_elem_of_In; exact Hin).
    reflexivity.
Qed.

(** X4. After [clear_article_cache], a lookup of a non-empty id list sends
    one batch query that carries all the requested ids, whatever the cache
    held before. *)
Theorem lookup_after_clear
    (query_items : query -> Except (list pydict)) (read_item : string -> Except pydict)
    (now current_time : Q) (article_ids : list string) (g : gateway) :
  article_ids <> [] ->
  exists rest : list store_call,
    store_log (fst (get_articles_by_ids_optimized query_items read_item now
                      current_time article_ids (clear_article_cache g)))
    = store_log g ++ Queried (ByIds article_ids) :: rest.
Proof.
  intros Hne. unfold get_articles_by_ids_optimized.
  destruct article_ids as [|id0 ids0]; [contradiction|].
  set (ids := id0 :: ids0) in *.
  pose proof (get_from_cache_spec now ids (_article_cache (clear_article_cache g)))
    as Hspec.
  destruct (_get_from_cache now ids (_article_cache (clear_article_cache g)))
    as [[cached missing] cache1].
  destruct Hspec as (_ & Hmissing & _).
  assert (missing = ids) as ->.
  { rewrite Hmissing. apply filter_all. intros k _. reflexivity. }
  subst ids. cbv iota.
  set (ids := id0 :: ids0) in *.
  destruct (query_items (ByIds ids)) as [db|e].
  - destruct (_update_cache current_time db cache1) as [cache2 [[]|e]].
    + exists []. reflexivity.
    + pose proof (get_articles_by_ids_log query_items read_item ids
                    (with_cache cache2
                       (logged (Queried (ByIds ids)) (with_cache cache1
                                                        (clear_article_cache g)))))
        as [rest Hrest].
      exists rest. rewrite Hrest. simpl. rewrite <- app_assoc. reflexivity.
  - pose proof (get_articles_by_ids_log query_items read_item ids
                  (logged (Queried (ByIds ids)) (with_cache cache1
                                                   (clear_article_cache g))))
      as [rest Hrest].
    exists rest. rewrite Hrest. simpl. rewrite <- app_assoc. reflexivity.
Qed.

(** A non-empty lookup at the store. *)
Lemma lookup_after_clear_witness :
  exists rest : list store_call,
    store_log (fst (get_articles_by_ids_optimized queries_up reads_up 1100 1101
                      ["a1"; "a2"] (clear_article_cache gateway_a1)))
    = store_log gateway_a1 ++ Queried (ByIds ["a1"; "a2"]) :: rest.
Proof.
  apply (lookup_after_clear queries_up reads_up 1100 1101 ["a1"; "a2"] gateway_a1).
  discriminate.
Defined.

(** The lookup when every requested id has a fresh entry. *)
Lemma lookup_all_fresh
    (query_items : query -> Except (list pydict)) (read_item : string -> Except pydict)
    (now current_time : Q) (article_ids : list string) (g : gateway) :
  Forall (fun id => is_fresh now (_article_cache g) id = true) article_ids ->
  snd (get_articles_by_ids_optimized query_items read_item now current_time
         article_ids g)
  = omap (fresh now (_article_cache g)) article_ids /\
  store_log (fst (get_articles_by_ids_optimized query_items read_item now current_time
                    article_ids g))
  = store_log g.
Proof.
  intros Hfresh. unfold get_articles_by_ids_optimized.
  destruct article_ids as [|id0 ids0]; [simpl; auto|].
  set (ids := id0 :: ids0) in *.
  pose proof (get_from_cache_spec now ids (_article_cache g)) as Hspec.
  destruct (_get_from_cache now ids (_article_cache g)) as [[cached missing] cache1].
  destruct Hspec as (-> & Hmissing & _).
  assert (missing = []) as ->.
  { rewrite Hmissing. clear Hmissing. induction Hfresh as [|x l Hx _ IH]; [reflexivity|].
    simpl. rewrite Hx. exact IH. }
  subst ids. simpl. auto.
Qed.

(** The lookup when the store answers the query for the missing ids. *)
Lemma lookup_store_answers
    (query_items : query -> Except (list pydict)) (read_item : string -> Except pydict)
    (now current_time : Q) (article_ids : list string) (g : gateway)
    (db_articles : list pydict) :
  let missing :=
    List.filter (fun id => negb (is_fresh now (_article_cache g) id)) article_ids in
  let cache1 := snd (_get_from_cache now article_ids (_article_cache g)) in
  missing <> [] ->
  query_items (ByIds missing) = Ok db_articles ->
  ids_hashable db_articles = true ->
  get_articles_by_ids_optimized query_items read_item now current_time article_ids g
  = (with_cache (fst (_update_cache current_time db_articles cache1))
       (logged (Queried (ByIds missing)) (with_cache cache1 g)),
     omap (fresh now (_article_cache g)) article_ids ++ db_articles).
Proof.
  intros missing cache1 Hne Hquery Hhash. subst missing cache1.
  unfold get_articles_by_ids_optimized.
  pose proof (get_from_cache_spec now article_ids (_article_cache g)) as Hspec.
  destruct (_get_from_cache now article_ids (_article_cache g))
    as [[cached missing] cache1].
  destruct Hspec as (-> & -> & _). simpl snd.
  destruct article_ids as [|id0 ids0]; [contradiction|].
  set (ids := id0 :: ids0) in *.
  destruct (List.filter _ ids) as [|m0 ms] eqn:Hm; [contradiction|].
  rewrite Hquery.
  pose proof (update_cache_hashable current_time db_articles cache1 Hhash) as Hok.
  destruct (_update_cache current_time db_articles cache1) as [cache2 updated].
  simpl in Hok. subst updated. reflexivity.
Qed.

Lemma Forall2_omap_Some {A B : Type} (f : A -> option B) (P : A -> B -> Prop)
    (l : list A) :
  Forall (fun x => exists y, f x = Some y /\ P x y) l -> Forall2 P l (omap f l).
Proof.
  induction 1 as [|x l (y & Hy & HP) _ IH]; [constructor|].
  change (omap f (x :: l)) with (match f x with
                                 | Some y => y :: omap f l
                                 | None => omap f l
                                 end).
  rewrite Hy. constructor; assumption.
Qed.

(** X5. Round trip through the cache: after a lookup in which the store
    answered the query for the missing ids, a second lookup made less than 300
    seconds after the time stamped by the first, for ids of articles the
    store returned, sends nothing to the store and returns, id by id, an
    article the store had returned under that id. *)
Theorem lookup_again_within_ttl
    (query_items : query -> Except (list pydict)) (read_item : string -> Except pydict)
    (now1 time1 now2 time2 : Q) (ids1 ids2 : list string) (g : gateway)
    (db_articles : list pydict) :
  let missing :=
    List.filter (fun id => negb (is_fresh now1 (_article_cache g) id)) ids1 in
  let g1 :=
    fst (get_articles_by_ids_optimized query_items read_item now1 time1 ids1 g) in
  let out2 := get_articles_by_ids_optimized query_items read_item now2 time2 ids2 g1 in
  missing <> [] ->
  query_items (ByIds missing) = Ok db_articles ->
  ids_hashable db_articles = true ->
  (now2 - time1 < 300)%Q ->
  Forall (fun id => id <> "" /\
                    exists a : pydict,
                      a ∈ db_articles /\ dict_get "id" a = Some (PStr id)) ids2 ->
  store_log (fst out2) = store_log g1 /\
  Forall2 (fun id a => a ∈ db_articles /\ dict_get "id" a = Some (PStr id))
    ids2 (snd out2).
Proof.
  intros missing g1 out2 Hne Hquery Hhash Httl Hids2.
  pose proof (lookup_store_answers query_items read_item now1 time1 ids1 g db_articles
                Hne Hquery Hhash) as Hfirst.
  fold missing in Hfirst.
  set (cache1 := snd (_get_from_cache now1 ids1 (_article_cache g))) in Hfirst.
  pose proof (update_cache_hit time1 db_articles cache1 Hhash) as Hhit.
  rewrite Forall_forall in Hhit.
  assert (_article_cache g1 = fst (_update_cache time1 db_articles cache1)) as Hcache.
  { subst g1. rewrite Hfirst. reflexivity. }
  assert (Forall (fun id => exists a : pydict,
                      fresh now2 (_article_cache g1) id = Some a /\
                      a ∈ db_articles /\ dict_get "id" a = Some (PStr id)) ids2)
    as Hfresh.
  { eapply Forall_impl; [exact Hids2|]. intros id (Hid & a & Ha & Hida).
    destruct (Hhit a Ha id Hida Hid) as (a' & Hlook & Ha' & Hida').
    exists a'. split; [|auto].
    unfold fresh. rewrite Hcache, Hlook.
    assert (_is_cache_valid now2 {| article := a'; timestamp := time1 |} = true) as ->.
    { apply is_cache_valid_iff. exact Httl. }
    reflexivity. }
  destruct (lookup_all_fresh query_items read_item now2 time2 ids2 g1) as [Hres Hlog].
  { eapply Forall_impl; [exact Hfresh|]. intros id (a & Ha & _).
    unfold is_fresh. rewrite Ha. reflexivity. }
  subst out2. split; [exact Hlog|]. rewrite Hres.
  apply Forall2_omap_Some.
  eapply Forall_impl; [exact Hfresh|]. intros id (a & Ha & Hin & Hid). eauto.
Qed.

(** A second lookup 150 seconds after the first. *)
Lemma lookup_again_within_ttl_witness :
  let g1 := fst (get_articles_by_ids_optimized queries_up reads_up 1100 1101
                   ["a1"; "a2"] gateway_a1) in
  store_log (fst (get_articles_by_ids_optimized queries_up reads_up 1250 1251
                    ["a2"] g1))
  = store_log g1 /\
  Forall2 (fun id a => a ∈ [stored_a2] /\ dict_get "id" a = Some (PStr id))
    ["a2"]
    (snd (get_articles_by_ids_optimized queries_up reads_up 1250 1251 ["a2"] g1)).
Proof.
  apply (lookup_again_within_ttl queries_up reads_up 1100 1101 1250 1251
           ["a1"; "a2"] ["a2"] gateway_a1 [stored_a2]).
  - vm_compute. discriminate.
  - vm_compute. reflexivity.
  - reflexivity.
  - reflexivity.
  - constructor; [|constructor]. split; [discriminate|].
    exists stored_a2. split; [left|reflexivity].
Defined.

(** ** The skip-update policy on the timestamps the pipeline writes *)

(** X6. With the threshold of 24 hours, the default and the one the pipeline
    uses, and for a record whose timestamp parses to a naive datetime, as the
    ones [update_user_recommendations] writes, [should_skip_update] is true
    exactly when less than 24 hours have passed since then; at exactly 24
    hours, and beyond, it is false.  (At this threshold the quotient the code
    computes on floats compares with 24 as the exact quotient does.) *)
Theorem skip_iff_recent (fromisoformat : string -> option datetime)
    (now : Z) (user_data : pydict) (s : string) (last : Z) :
  dict_get "recommendations_updated_at" user_data = Some (PStr s) ->
  s <> "" ->
  fromisoformat (replace_Z s) = Some {| micros := last; utcoffset := None |} ->
  (should_skip_update fromisoformat now user_data 24 = true <->
   (now - last < 24 * 3600000000)%Z) /\
  ((24 * 3600000000 <= now - last)%Z ->
   should_skip_update fromisoformat now user_data 24 = false).
Proof.
  intros Hget Hne Hparse.
  pose proof (skip_naive fromisoformat now user_data 24 s last Hget Hne Hparse)
    as Hiff.
  split; [exact Hiff|].
  intros Hge.
  destruct (should_skip_update fromisoformat now user_data 24); [|reflexivity].
  assert (now - last < 24 * 3600000000)%Z by (apply Hiff; reflexivity).
  lia.
Qed.

(** A record updated one hour ago and one updated a day ago. *)
Lemma skip_iff_recent_witness :
  should_skip_update fromisoformat_ref sample_now user_updated_naive 24 = true /\
  should_skip_update fromisoformat_ref sample_now user_updated_day_before 24 = false.
Proof.
  split.
  - apply (skip_iff_recent fromisoformat_ref sample_now user_updated_naive
             "2025-01-01T00:00:00.000000" (sample_now - 3600000000));
      [reflexivity|discriminate|vm_compute; reflexivity|vm_compute; reflexivity].
  - apply (skip_iff_recent fromisoformat_ref sample_now user_updated_day_before
             "2024-12-31T01:00:00" (sample_now - 86400000000));
      [reflexivity|discriminate|vm_compute; reflexivity|vm_compute; discriminate].
Defined.

(** X7. [should_skip_update] never asks to skip when the record has no
    timestamp it can use: the field is missing, null, empty or otherwise
    falsy, is a value other than a string, or is a text [fromisoformat]
    rejects.  No error leaves the function. *)
Theorem skip_needs_timestamp (fromisoformat : string -> option datetime)
    (now : Z) (user_data : pydict) (hours_threshold : Z) :
  no_usable_timestamp fromisoformat user_data ->
  should_skip_update fromisoformat now user_data hours_threshold = false.
Proof.
  unfold no_usable_timestamp, should_skip_update, should_skip_update_body.
  destruct (dict_get_default "recommendations_updated_at" PNone user_data)
    as [| | | |s| |] eqn:Hfield; intros H;
    try (destruct (negb _); reflexivity).
  destruct H as [->|Hparse]; [reflexivity|].
  destruct (negb (py_truthy (PStr s))); [reflexivity|].
  rewrite Hparse. reflexivity.
Qed.

(** A record never updated and one with a date in another notation. *)
Lemma skip_needs_timestamp_witness :
  should_skip_update fromisoformat_ref sample_now user_never_updated 24 = false /\
  should_skip_update fromisoformat_ref sample_now
    [("recommendations_updated_at", PStr "01/01/2025 00:00")] 24 = false.
Proof.
  split.
  - apply (skip_needs_timestamp fromisoformat_ref sample_now user_never_updated 24).
    exact I.
  - apply (skip_needs_timestamp fromisoformat_ref sample_now
             [("recommendations_updated_at", PStr "01/01/2025 00:00")] 24).
    right. vm_compute. reflexivity.
Defined.

(** ** Shape of the parser's result *)

(** X8. Every tag entry the parser returns has exactly the fields [tag],
    [score] and [wildcard], every article entry exactly [id], [score] and
    [wildcard], and the [wildcard] value is always a [bool]: other fields of
    the reply are dropped and a missing or non-boolean flag is coerced. *)
Theorem parser_entry_shape
    (json_loads : string -> Except pyval) (float_of_str : string -> option pyfloat)
    (response : string) :
  let r := _parse_llm_only_output json_loads float_of_str response in
  Forall (fun e : pydict =>
            dict_keys e = ["tag"; "score"; "wildcard"] /\
            is_bool (dict_get_default "wildcard" PNone e)) (tags r) /\
  Forall (fun e : pydict =>
            dict_keys e = ["id"; "score"; "wildcard"] /\
            is_bool (dict_get_default "wildcard" PNone e)) (articles r).
Proof.
  intros r. subst r.
  destruct (parser_outcome json_loads float_of_str response)
    as [(x & _ & ->)|(d & ts & arts & _ & _ & _ & ->)]; simpl.
  - split; constructor.
  - split; apply Forall_forall; intros e He;
      apply list_elem_of_omap in He as (t & _ & Ht);
      destruct t as [| | | | |l|d']; simpl in Ht; try discriminate.
    + destruct (dict_get "tag" d'); [|discriminate].
      destruct (dict_get "score" d') as [raw|]; [|discriminate].
      destruct (py_float float_of_str raw); [|discriminate].
      injection Ht as <-. split; [reflexivity|]. eexists. reflexivity.
    + destruct (dict_get "id" d'); [|discriminate].
      destruct (dict_get "score" d') as [raw|]; [|discriminate].
      destruct (py_float float_of_str raw); [|discriminate].
      injection Ht as <-. split; [reflexivity|]. eexists. reflexivity.
Qed.

(** X9. A reply that is valid JSON but not of the expected shape gives the
    empty result: when the decoded document is not an object (a list, a
    string, a number, null), or when its [tags] or its [articles] member is
    not iterable (null, a number, a boolean), both lists are empty, the
    well-formed one included. *)
Theorem parser_unusable_document_empty
    (json_loads : string -> Except pyval) (float_of_str : string -> option pyfloat)
    (response : string) (data : pyval) :
  json_loads (strip_code_fence response) = Ok data ->
  unusable_document data ->
  _parse_llm_only_output json_loads float_of_str response = empty_recommendations.
Proof.
  intros Hdata Hbad.
  unfold _parse_llm_only_output, _parse_llm_only_output_body. rewrite Hdata. simpl.
  destruct data as [| | | | |l|d]; try reflexivity. simpl in *.
  destruct (dict_get_default "tags" (PList []) d) as [| | | | | |] eqn:Htags;
    simpl in *; try reflexivity;
    destruct (dict_get_default "articles" (PList []) d) as [| | | | | |];
    simpl in *; try reflexivity;
    destruct Hbad; discriminate.
Qed.

(** A reply with a null list of tags. *)
Lemma parser_unusable_document_empty_witness :
  json_loads_ref (strip_code_fence reply_null_tags)
  = Ok (PDict [("tags", PNone);
               ("articles", PList [PDict [("id", PStr "a1"); ("score", PInt 4)]])]) /\
  _parse_llm_only_output json_loads_ref float_of_str_ref reply_null_tags
  = empty_recommendations.
Proof.
  split; [vm_compute; reflexivity|].
  apply (parser_unusable_document_empty json_loads_ref float_of_str_ref reply_null_tags
           (PDict [("tags", PNone);
                   ("articles", PList [PDict [("id", PStr "a1"); ("score", PInt 4)]])])).
  - vm_compute. reflexivity.
  - left. reflexivity.
Defined.

(** ** From the reply text to the stored lists *)

Lemma except_omap_all_Ok {A B : Type} (f : A -> Except (option B)) (l : list A)
    (ys : list B) (x : A) :
  except_omap f l = Ok ys -> x ∈ l -> exists o : option B, f x = Ok o.
Proof.
  revert ys. induction l as [|z l IH]; intros ys H Hx; [inversion Hx|].
  simpl in H. destruct (f z) as [o|] eqn:Hz; simpl in H; [|discriminate].
  destruct (except_omap f l) as [ys'|]; simpl in H; [|discriminate].
  apply elem_of_cons in Hx as [->|Hx]; eauto.
Qed.

(** X10. Composition of the parser and the post-processing step: whatever
    the reply text and the candidates, every tag stored has a score in
    [1.0, 5.0] and every article stored a score in [0.0, 5.0] with four
    decimal places; a stored article has exactly the fields [id], [score] and
    [abstract]. *)
Theorem stored_scores_in_range
    (json_loads : string -> Except pyval) (float_of_str : string -> option pyfloat)
    (response : string) (candidates : list pydict) :
  let parsed := _parse_llm_only_output json_loads float_of_str response in
  let r := _process_llm_output parsed candidates in
  Forall (score_between 1 5) (tags r) /\
  Forall (fun a : pydict =>
            score_between 0 5 a /\ rounded_score a /\
            dict_keys a = ["id"; "score"; "abstract"]) (articles r).
Proof.
  intros parsed r.
  assert (Forall (score_between 1 5) (tags parsed) /\
          Forall (fun a => score_between 0 5 a /\ rounded_score a) (articles parsed))
    as [Hptags Hparts].
  { subst parsed.
    destruct (parser_outcome json_loads float_of_str response)
      as [(x & _ & ->)|(d & ts & arts & _ & _ & _ & ->)]; simpl.
    - split; constructor.
    - split; apply Forall_forall; intros e He;
        apply list_elem_of_omap in He as (t & _ & Ht).
      + eapply parse_tag_score; eauto.
      + eapply parse_article_score; eauto. }
  rewrite Forall_forall in Hptags, Hparts.
  split.
  - apply Forall_forall. intros e He. subst r.
    destruct (process_outcome parsed candidates) as [(x & _ & Hr)|Hr].
    { rewrite Hr in He. inversion He. }
    apply process_body_Ok in Hr as (m & _ & Htags & _).
    apply except_map_Forall2 in Htags.
    apply list_elem_of_lookup in He as [i Hi].
    destruct (Forall2_lookup_r _ _ _ _ _ Htags Hi) as (t & Hti & Ht).
    assert (t ∈ tags parsed) as Hin.
    { eapply list_elem_of_lookup_2, lookup_take_Some, Hti. }
    destruct (Hptags t Hin) as (q & Hq & Hrange).
    exists q. split; [|exact Hrange].
    unfold tag_recommendation, dict_item in Ht. rewrite Hq in Ht.
    destruct (dict_get "tag" t); simpl in Ht; [|discriminate].
    injection Ht as <-. reflexivity.
  - apply Forall_forall. intros e He. subst r.
    apply process_article_origin in He as (a & s & Ha & Hid & Hne & ->).
    assert (a ∈ articles parsed) as Hin.
    { apply list_elem_of_lookup in Ha as [i Hi].
      eapply list_elem_of_lookup_2, lookup_take_Some, Hi. }
    destruct (Hparts a Hin) as [(q & Hq & Hrange) (q' & Hq' & Hdec)].
    unfold score_between, rounded_score, dict_get_default. simpl.
    rewrite Hq. split; [eauto|]. split; [|reflexivity].
    rewrite Hq in Hq'. injection Hq' as <-. eauto.
Qed.

(** X11. One article entry with a truthy id that is not a string (a number,
    say) among the first 20 of the reply makes [_process_llm_output] return
    the empty result: the tags and the other articles are lost with it. *)
Theorem process_bad_id_loses_all (llm_out : recommendations)
    (candidates : list pydict) (a : pydict) :
  a ∈ take 20 (articles llm_out) ->
  bad_id a = true ->
  _process_llm_output llm_out candidates = empty_recommendations.
Proof.
  intros Ha Hbad.
  destruct (process_outcome llm_out candidates) as [(x & _ & Hr)|Hr]; [exact Hr|].
  apply process_body_Ok in Hr as (m & _ & _ & Harts).
  destruct (except_omap_all_Ok _ _ _ a Harts Ha) as [o Ho].
  unfold article_recommendation in Ho. unfold bad_id in Hbad.
  destruct (dict_get_default "id" PNone a) as [| | | |s| |];
    try discriminate; rewrite Hbad in Ho; discriminate.
Qed.

(** A reply with the id 7. *)
Lemma process_bad_id_loses_all_witness :
  _process_llm_output reply_numeric_id sample_candidates = empty_recommendations.
Proof.
  apply (process_bad_id_loses_all reply_numeric_id sample_candidates
           [("id", PInt 7); ("score", PFloat (FFin 3)); ("wildcard", PBool false)]).
  - right. left.
  - reflexivity.
Defined.

Lemma except_map_total {A B : Type} (f : A -> Except B) (g : A -> B) (l : list A) :
  Forall (fun x => f x = Ok (g x)) l -> except_map f l = Ok (map g l).
Proof.
  induction 1 as [|x l Hx _ IH]; simpl; [reflexivity|].
  rewrite Hx, IH. reflexivity.
Qed.

Lemma except_omap_total {A B : Type} (f : A -> Except (option B)) (g : A -> option B)
    (l : list A) :
  Forall (fun x => f x = Ok (g x)) l -> except_omap f l = Ok (omap g l).
Proof.
  induction 1 as [|x l Hx _ IH]; simpl; [reflexivity|].
  rewrite Hx, IH. simpl.
  change (omap g (x :: l)) with (match g x with
                                 | Some y => y :: omap g l
                                 | None => omap g l
                                 end).
  reflexivity.
Qed.

Lemma candidate_abstract_by_id_hashable (candidates : list pydict)
    (acc : gmap string pyval) :
  Forall (fun c => id_hashable c = true) candidates ->
  exists m : gmap string pyval, candidate_abstract_by_id candidates acc = Ok m.
Proof.
  intros H. revert acc. induction H as [|c rest Hc _ IH]; intros acc; simpl.
  - eauto.
  - unfold id_hashable in Hc.
    destruct (dict_get_default "id" PNone c); try discriminate; apply IH.
Qed.

(** The entries the parser returns have the fields the next step reads. *)
Lemma parser_entries_keyed
    (json_loads : string -> Except pyval) (float_of_str : string -> option pyfloat)
    (response : string) :
  let parsed := _parse_llm_only_output json_loads float_of_str response in
  Forall (fun t => is_Some (dict_get "tag" t) /\ is_Some (dict_get "score" t))
    (tags parsed) /\
  Forall (fun a => is_Some (dict_get "id" a)) (articles parsed).
Proof.
  intros parsed. subst parsed.
  destruct (parser_outcome json_loads float_of_str response)
    as [(x & _ & ->)|(d & ts & arts & _ & _ & _ & ->)]; simpl.
  - split; constructor.
  - split; apply Forall_forall; intros e He;
      apply list_elem_of_omap in He as (t & _ & Ht);
      destruct t as [| | | | |l|d']; simpl in Ht; try discriminate.
    + destruct (dict_get "tag" d'); [|discriminate].
      destruct (dict_get "score" d') as [raw|]; [|discriminate].
      destruct (py_float float_of_str raw); [|discriminate].
      injection Ht as <-. split; eexists; reflexivity.
    + destruct (dict_get "id" d'); [|discriminate].
      destruct (dict_get "score" d') as [raw|]; [|discriminate].
      destruct (py_float float_of_str raw); [|discriminate].
      injection Ht as <-. eexists; reflexivity.
Qed.

(** X12. On what the parser returns, the post-processing step does not
    fail as long as the ids of the first 20 articles are strings (or falsy)
    and the ids of the candidates can be dict keys: it stores the first 20
    tags cut down to [tag] and [score], and, for each of the first 20
    articles with a non-empty id, in order, the id, the score and the
    locally attached abstract. *)
Theorem process_on_parsed
    (json_loads : string -> Except pyval) (float_of_str : string -> option pyfloat)
    (response : string) (candidates : list pydict) :
  let parsed := _parse_llm_only_output json_loads float_of_str response in
  Forall (fun a => bad_id a = false) (take 20 (articles parsed)) ->
  Forall (fun c => id_hashable c = true) candidates ->
  _process_llm_output parsed candidates
  = {| tags := map tag_fields (take 20 (tags parsed));
       articles := omap (stored_article candidates) (take 20 (articles parsed)) |}.
Proof.
  intros parsed Hids Hcands.
  destruct (parser_entries_keyed json_loads float_of_str response) as [Htk Hak].
  fold parsed in Htk, Hak.
  destruct (candidate_abstract_by_id_hashable candidates ∅ Hcands) as [m Hm].
  unfold _process_llm_output, _process_llm_output_body.
  rewrite (except_map_total tag_recommendation tag_fields).
  2:{ apply Forall_take. eapply Forall_impl; [exact Htk|].
      intros t [[v Hv] [w Hw]]. unfold tag_recommendation, dict_item, tag_fields,
        dict_get_default. rewrite Hv, Hw. reflexivity. }
  simpl. rewrite Hm. simpl.
  rewrite (except_omap_total (article_recommendation m) (stored_article candidates)).
  2:{ eapply Forall_impl; [exact Hids|]. intros a Hbad.
      unfold article_recommendation, stored_article, bad_id in *.
      destruct (dict_get_default "id" PNone a) as [| | | |s| |];
        try (rewrite Hbad; reflexivity).
      simpl. destruct (String.eqb s ""); simpl; [reflexivity|].
      rewrite (by_id_abstract candidates m s Hm). reflexivity. }
  simpl. unfold wildcard_ids.
  destruct (except_map (dict_item "id") _) as [ids|x] eqn:Hlog; [reflexivity|].
  exfalso.
  assert (Forall (fun a => dict_item "id" a = Ok (dict_get_default "id" PNone a))
            (List.filter is_wildcard (take 20 (articles parsed)))) as Hall.
  { apply Forall_forall. intros a Ha.
    apply list_elem_of_In, filter_In in Ha as [Ha _]. apply list_elem_of_In in Ha.
    assert (a ∈ articles parsed) as Hin.
    { apply list_elem_of_lookup in Ha as [i Hi].
      eapply list_elem_of_lookup_2, lookup_take_Some, Hi. }
    rewrite Forall_forall in Hak. destruct (Hak a Hin) as [v Hv].
    unfold dict_item, dict_get_default. rewrite Hv. reflexivity. }
  rewrite (except_map_total _ _ _ Hall) in Hlog. discriminate.
Qed.

(** The sample reply and the sample candidates. *)
Lemma process_on_parsed_witness :
  _process_llm_output
    (_parse_llm_only_output json_loads_ref float_of_str_ref sample_reply)
    sample_candidates
  = {| tags := [[("tag", PStr "ai"); ("score", PFloat (FFin 5))];
                [("tag", PStr "low"); ("score", PFloat (FFin 1))]];
       articles := [[("id", PStr "a1"); ("score", PFloat (FFin (41235 # 10000)));
                     ("abstract", PStr "Batteries for the grid")]] |}.
Proof.
  rewrite (process_on_parsed json_loads_ref float_of_str_ref sample_reply
             sample_candidates).
  - vm_compute. reflexivity.
  - rewrite parse_sample_reply. repeat constructor.
  - repeat constructor.
Defined.

(** ** The candidate pool as a function of the rows *)

Lemma omap_filter_map {A B : Type} (p : A -> bool) (h : A -> B) (l : list A) :
  omap (fun x => if p x then Some (h x) else None) l = map h (List.filter p l).
Proof.
  induction l as [|x l IH]; [reflexivity|].
  change (omap (fun x => if p x then Some (h x) else None) (x :: l))
    with (match (if p x then Some (h x) else None) with
          | Some y => y :: omap (fun x => if p x then Some (h x) else None) l
          | None => omap (fun x => if p x then Some (h x) else None) l
          end).
  simpl. destruct (p x); simpl; rewrite IH; reflexivity.
Qed.

(** X13. When the store answers, and the ids of its rows are strings (or
    missing, or another hashable value), [get_candidate_articles] returns, in
    the order of the store, the rows whose id is not in the exclusion list,
    each completed by the two default fields; the rows are those of the
    filtered query, or of the unfiltered one when the filtered query has
    none. *)
Theorem candidates_are_filtered_rows
    (query_items : query -> Except (list pydict))
    (exclude_ids : option (list string)) (limit : Z) (rows : list pydict) :
  pool_rows query_items limit rows ->
  Forall (fun row => id_hashable row = true) rows ->
  get_candidate_articles query_items exclude_ids limit
  = map with_default_fields
      (List.filter (fun row => negb (id_excluded (default [] exclude_ids) row)) rows).
Proof.
  intros Hrows Hhash.
  assert (except_omap (candidate_of (list_to_set (default [] exclude_ids))) rows
          = Ok (map with_default_fields
                  (List.filter
                     (fun row => negb (id_excluded (default [] exclude_ids) row)) rows)))
    as Hloop.
  { rewrite <- omap_filter_map. apply except_omap_total.
    eapply Forall_impl; [exact Hhash|]. intros row Hrow.
    unfold candidate_of, excluded, id_excluded, id_hashable, with_default_fields in *.
    destruct (dict_get_default "id" PNone row) as [| | | |s| |]; try discriminate;
      try reflexivity.
    simpl.
    rewrite (bool_decide_ext (s ∈ (list_to_set (default [] exclude_ids) : gset string))
               (s ∈ default [] exclude_ids)) by apply elem_of_list_to_set.
    destruct (bool_decide (s ∈ default [] exclude_ids)); reflexivity. }
  unfold get_candidate_articles, get_candidate_articles_body.
  destruct Hrows as [[Hq Hne]|[Hq Hany]]; rewrite Hq; simpl.
  - destruct rows as [|row0 rows']; [contradiction|]. simpl.
    simpl in Hloop. rewrite Hloop. reflexivity.
  - rewrite Hany. simpl. rewrite Hloop. reflexivity.
Qed.

(** Three rows, one of them excluded. *)
Lemma candidates_are_filtered_rows_witness :
  get_candidate_articles store_three (Some ["a1"; "a9"]) 300
  = [[("id", PStr "a2"); ("title", PStr "Wind"); ("abstract", PStr "");
      ("tags", PList [])];
     [("id", PStr "a3"); ("title", PStr "Tides"); ("abstract", PStr "Barrages");
      ("tags", PList [])]].
Proof.
  rewrite (candidates_are_filtered_rows store_three (Some ["a1"; "a9"]) 300
             [[("id", PStr "a1"); ("title", PStr "Solar storage");
               ("abstract", PStr "Batteries for the grid");
               ("tags", PList [PStr "energy"])];
              [("id", PStr "a2"); ("title", PStr "Wind")];
              [("id", PStr "a3"); ("title", PStr "Tides");
               ("abstract", PStr "Barrages"); ("tags", PList [])]]).
  - vm_compute. reflexivity.
  - left. split; [reflexivity|discriminate].
  - repeat constructor.
Defined.

(** ** Bounds of the trend aggregation *)

(** X14. For a limit that is not negative, [get_trending_topics] returns at
    most [limit] topics, none for a limit of 0, and every topic it returns
    was provided by the news feed, by the social feed or by the static list
    of [_get_trending_from_twitter]: the list of
    [_get_fallback_trending_topics] is never the source. *)
Theorem trending_topics_bounded
    (news_api_key : option string)
    (newsapi_topics reddit_topics : Z -> Except (list string)) (limit : Z) :
  (0 <= limit)%Z ->
  let result := get_trending_topics news_api_key newsapi_topics reddit_topics limit in
  length result <= Z.to_nat limit /\
  Forall (fun t =>
            t ∈ _get_trending_from_newsapi news_api_key newsapi_topics limit \/
            t ∈ _get_trending_from_reddit reddit_topics limit \/
            t ∈ current_trending) result.
Proof.
  intros Hlimit result. subst result.
  unfold get_trending_topics, get_trending_topics_body.
  rewrite dict_fromkeys_first_seen. unfold py_slice_to.
  destruct (Z.ltb_spec limit 0) as [Hneg|_]; [lia|].
  split; [rewrite length_take; lia|].
  apply Forall_forall. intros t Ht.
  apply list_elem_of_lookup in Ht as [i Hi]. apply lookup_take_Some in Hi as [Hi _].
  apply list_elem_of_lookup_2 in Hi. rewrite first_seen_elem in Hi.
  assert (t ∈ _get_trending_from_twitter limit -> t ∈ current_trending) as Hstatic.
  { unfold _get_trending_from_twitter, py_slice_to.
    destruct (limit <? 0)%Z; intros Hin;
      apply list_elem_of_lookup in Hin as [j Hj];
      apply lookup_take_Some in Hj as [Hj _];
      eapply list_elem_of_lookup_2, Hj. }
  cbv zeta in Hi. revert Hi.
  destruct (has_news_api_key news_api_key) eqn:Hkey; intros Hi.
  - rewrite !elem_of_app in Hi.
    destruct Hi as [[[Hnil|Hnews]|Hsocial]|Htw]; auto.
    inversion Hnil.
  - rewrite !elem_of_app in Hi. destruct Hi as [[Hnil|Hsocial]|Htw]; auto.
    inversion Hnil.
Qed.

(** A limit of 2 with the news feed down. *)
Lemma trending_topics_bounded_witness :
  length (get_trending_topics (Some "key") news_feed_down social_feed_three 2) <= 2.
Proof.
  apply (trending_topics_bounded (Some "key") news_feed_down social_feed_three 2).
  discriminate.
Defined.

(** ** The parser of tag recommendations *)

Lemma float_in_range (f : pyfloat) :
  float_le (FFin 1) f && float_le f (FFin 5) = true ->
  exists q : Q, f = FFin q /\ (1 <= q <= 5)%Q.
Proof.
  destruct f as [|[|]|q]; simpl; try discriminate.
  intros H. apply andb_true_iff in H as [H1 H5].
  apply Qle_bool_iff in H1, H5. eauto.
Qed.

Lemma validate_tag_Some (float_of_str : string -> option pyfloat)
    (all_available_tags : list string) (rec : pyval) (e : pydict) :
  validate_tag float_of_str all_available_tags rec = Ok (Some e) ->
  exists (d : pydict) (s : string) (raw : pyval) (q : Q),
    rec = PDict d /\
    dict_get "tag" d = Some (PStr s) /\ s ∈ all_available_tags /\
    dict_get "score" d = Some raw /\ py_float float_of_str raw = Ok (FFin q) /\
    (1 <= q <= 5)%Q /\
    e = [("tag", PStr s); ("score", PFloat (FFin q))].
Proof.
  destruct rec as [| | | | |l|d]; try (simpl; discriminate). unfold validate_tag.
  destruct (dict_get "tag" d) as [tag|] eqn:Htag; [|discriminate].
  destruct (dict_get "score" d) as [raw|] eqn:Hraw; [|discriminate].
  destruct (tag_available all_available_tags tag) eqn:Havail; [|discriminate].
  destruct tag as [| | | |s| |]; simpl in Havail; try discriminate.
  apply bool_decide_eq_true in Havail.
  destruct (py_float float_of_str raw) as [f|[]] eqn:Hf; cbv iota;
    try discriminate.
  destruct (float_le (FFin 1) f && float_le f (FFin 5)) eqn:Hrange; cbv iota;
    [|discriminate].
  apply float_in_range in Hrange as (q & -> & Hq).
  intros H. injection H as <-. exists d, s, raw, q. auto 10.
Qed.

Lemma insert_by_score_Permutation (x : pydict) (l : list pydict) :
  Permutation (insert_by_score x l) (x :: l).
Proof.
  induction l as [|y l IH]; simpl; [reflexivity|].
  destruct (float_lt (score_of y) (score_of x)); [reflexivity|].
  rewrite IH. apply perm_swap.
Qed.

Lemma sort_from_Permutation (l sorted : list pydict) :
  Permutation (fold_left (fun sorted x => insert_by_score x sorted) l sorted)
    (sorted ++ l).
Proof.
  revert sorted. induction l as [|x l IH]; intros sorted; simpl.
  - rewrite app_nil_r. reflexivity.
  - rewrite IH, insert_by_score_Permutation.
    change (x :: sorted ++ l) with ((x :: sorted) ++ l).
    rewrite (Permutation_middle sorted l x). reflexivity.
Qed.

Lemma sort_by_score_Permutation (l : list pydict) : Permutation (sort_by_score l) l.
Proof. unfold sort_by_score. rewrite sort_from_Permutation. reflexivity. Qed.

(** An entry with a finite score. *)
Lemma score_ge_total (a b : pydict) (qa qb : Q) :
  score_of a = FFin qa -> score_of b = FFin qb ->
  float_lt (score_of a) (score_of b) = false -> score_ge a b.
Proof.
  intros Ha Hb Hlt. rewrite Ha, Hb in Hlt. simpl in Hlt.
  destruct (Qlt_le_dec qa qb); [discriminate|].
  exists qa, qb. auto.
Qed.

Lemma insert_by_score_sorted (x : pydict) (l : list pydict) :
  (exists q, score_of x = FFin q) ->
  Forall (fun y => exists q, score_of y = FFin q) l ->
  StronglySorted score_ge l -> StronglySorted score_ge (insert_by_score x l).
Proof.
  intros [qx Hx] Hfin Hsorted. induction Hsorted as [|y l Hl IH Hy]; simpl.
  - repeat constructor.
  - apply Forall_cons in Hfin as [[qy Hqy] Hfin].
    destruct (float_lt (score_of y) (score_of x)) eqn:Hlt.
    + constructor; [constructor; assumption|].
      assert (score_ge x y) as Hxy.
      { rewrite Hqy, Hx in Hlt. simpl in Hlt.
        destruct (Qlt_le_dec qy qx); [|discriminate].
        exists qx, qy. split; [assumption|]. split; [assumption|]. lra. }
      constructor; [exact Hxy|].
      rewrite List.Forall_forall in Hy. apply List.Forall_forall. intros z Hz.
      destruct Hxy as (qx' & qy' & Hx' & Hy' & Hle).
      destruct (Hy z Hz) as (qy'' & qz & Hy'' & Hz' & Hle').
      exists qx', qz. split; [assumption|]. split; [assumption|].
      rewrite Hy' in Hy''. injection Hy'' as <-. lra.
    + constructor; [apply IH; assumption|].
      apply List.Forall_forall. intros z Hz.
      apply (Permutation_in _ (insert_by_score_Permutation x l)) in Hz.
      destruct Hz as [<-|Hz].
      * eapply score_ge_total; eauto.
      * rewrite List.Forall_forall in Hy. apply Hy. exact Hz.
Qed.

Lemma sort_from_sorted (l sorted : list pydict) :
  Forall (fun y => exists q, score_of y = FFin q) l ->
  Forall (fun y => exists q, score_of y = FFin q) sorted ->
  StronglySorted score_ge sorted ->
  StronglySorted score_ge (fold_left (fun sorted x => insert_by_score x sorted) l sorted).
Proof.
  intros Hl. revert sorted. induction Hl as [|x l Hx _ IH]; intros sorted Hfin Hs.
  - exact Hs.
  - simpl. apply IH.
    + apply Forall_forall. intros y Hy. apply list_elem_of_In in Hy.
      apply (Permutation_in _ (insert_by_score_Permutation x sorted)) in Hy.
      destruct Hy as [<-|Hy]; [exact Hx|].
      rewrite Forall_forall in Hfin. apply Hfin, list_elem_of_In, Hy.
    + apply insert_by_score_sorted; assumption.
Qed.

Lemma StronglySorted_take {A : Type} (R : A -> A -> Prop) (n : nat) (l : list A) :
  StronglySorted R l -> StronglySorted R (take n l).
Proof.
  intros H. revert n. induction H as [|x l Hl IH Hx]; intros [|n]; simpl;
    try constructor; [apply IH|].
  apply List.Forall_forall. intros y Hy. rewrite List.Forall_forall in Hx.
  apply Hx. apply list_elem_of_In in Hy. apply list_elem_of_In.
  apply list_elem_of_lookup in Hy as [i Hi]. apply lookup_take_Some in Hi as [Hi _].
  eapply list_elem_of_lookup_2, Hi.
Qed.


(** The two ways the parser of tag recommendations ends. *)
Lemma tag_parser_outcome
    (json_loads : string -> Except pyval) (float_of_str : string -> option pyfloat)
    (response : string) (all_available_tags : list string) :
  let r := _parse_tag_recommendations json_loads float_of_str response
             all_available_tags in
  r = [] \/
  exists (data : pyval) (items : list pyval) (valid : list pydict),
    json_loads (strip (strip_code_fence response)) = Ok data /\
    py_iter data = Ok items /\
    except_omap (validate_tag float_of_str all_available_tags) items = Ok valid /\
    r = take 10 (sort_by_score valid).
Proof.
  unfold _parse_tag_recommendations, _parse_tag_recommendations_body. simpl.
  destruct (json_loads _) as [data|] eqn:Hdata; simpl; [|left; reflexivity].
  destruct (py_iter data) as [items|] eqn:Hitems; simpl; [|left; reflexivity].
  destruct (except_omap _ items) as [valid|] eqn:Hvalid; simpl; [|left; reflexivity].
  right. exists data, items, valid. auto.
Qed.

Lemma validated_finite (float_of_str : string -> option pyfloat)
    (all_available_tags : list string) (items : list pyval) (valid : list pydict) :
  except_omap (validate_tag float_of_str all_available_tags) items = Ok valid ->
  Forall (validated_from float_of_str all_available_tags items) valid.
Proof.
  intros Hvalid. apply Forall_forall. intros e He.
  destruct (except_omap_elem _ _ _ _ Hvalid He) as (rec & Hrec & Hkeep).
  apply validate_tag_Some in Hkeep
    as (d & s & raw & q & -> & Htag & Hs & Hraw & Hf & Hq & ->).
  exists d, s, raw, q. auto 10.
Qed.

Lemma validated_score (float_of_str : string -> option pyfloat)
    (all_available_tags : list string) (items : list pyval) (e : pydict) :
  validated_from float_of_str all_available_tags items e ->
  exists q : Q, score_of e = FFin q.
Proof.
  intros (d & s & raw & q & _ & _ & _ & _ & _ & _ & ->). exists q. reflexivity.
Qed.

(** X15. [_parse_tag_recommendations] returns at most 10 entries, in
    non-increasing order of score; each is built from one item of the decoded
    reply that has a tag of [all_available_tags] and a score that [float]
    reads as a number between 1.0 and 5.0, and holds exactly that tag and
    that score: a score outside the range is not clamped, the item is left
    out. *)
Theorem tag_recommendations_valid
    (json_loads : string -> Except pyval) (float_of_str : string -> option pyfloat)
    (response : string) (all_available_tags : list string) :
  let r := _parse_tag_recommendations json_loads float_of_str response
             all_available_tags in
  length r <= 10 /\
  StronglySorted score_ge r /\
  Forall (fun e : pydict =>
            exists (data : pyval) (items : list pyval),
              json_loads (strip (strip_code_fence response)) = Ok data /\
              py_iter data = Ok items /\
              validated_from float_of_str all_available_tags items e) r.
Proof.
  intros r. subst r.
  destruct (tag_parser_outcome json_loads float_of_str response all_available_tags)
    as [->|(data & items & valid & Hdata & Hitems & Hvalid & ->)].
  { simpl. split; [lia|]. split; constructor. }
  pose proof (validated_finite _ _ _ _ Hvalid) as Hfrom.
  assert (Forall (fun y => exists q, score_of y = FFin q) valid) as Hfin.
  { eapply Forall_impl; [exact Hfrom|]. intros e He. eapply validated_score, He. }
  split; [rewrite length_take; lia|]. split.
  - apply StronglySorted_take. unfold sort_by_score.
    apply sort_from_sorted; [exact Hfin|constructor|constructor].
  - apply Forall_forall. intros e He.
    exists data, items. split; [exact Hdata|]. split; [exact Hitems|].
    rewrite Forall_forall in Hfrom. apply Hfrom.
    apply list_elem_of_lookup in He as [i Hi]. apply lookup_take_Some in Hi as [Hi _].
    apply list_elem_of_lookup_2 in Hi. apply list_elem_of_In in Hi.
    apply list_elem_of_In.
    eapply Permutation_in; [apply sort_by_score_Permutation|exact Hi].
Qed.


Example parse_tag_reply :
  _parse_tag_recommendations json_loads_ref float_of_str_ref tag_reply available_tags
  = [[("tag", PStr "space"); ("score", PFloat (FFin 4.5))];
     [("tag", PStr "energy"); ("score", PFloat (FFin 2.5))]].
Proof. vm_compute. reflexivity. Qed.


(** X17. One item with a known tag and an integer score too large for a
    [float] empties the result of [_parse_tag_recommendations], the valid
    entries included: the inner handler catches [ValueError] and [TypeError]
    only.  The other parser, [_parse_llm_only_output], merely leaves such an
    item out. *)
Theorem tag_parser_overflow_loses_all
    (json_loads : string -> Except pyval) (float_of_str : string -> option pyfloat)
    (response : string) (all_available_tags : list string)
    (data : pyval) (items : list pyval) (d : pydict) (s : string) (z : Z) :
  json_loads (strip (strip_code_fence response)) = Ok data ->
  py_iter data = Ok items ->
  PDict d ∈ items ->
  dict_get "tag" d = Some (PStr s) -> s ∈ all_available_tags ->
  dict_get "score" d = Some (PInt z) -> (float_int_bound <= Z.abs z)%Z ->
  _parse_tag_recommendations json_loads float_of_str response all_available_tags = [] /\
  parse_tag float_of_str (PDict d) = None.
Proof.
  intros Hdata Hitems Hin Htag Hs Hscore Hbig.
  assert (py_float float_of_str (PInt z) = Raise OverflowError) as Hfloat.
  { simpl. destruct (Z.ltb_spec (Z.abs z) float_int_bound); [lia|reflexivity]. }
  split.
  - unfold _parse_tag_recommendations, _parse_tag_recommendations_body.
    rewrite Hdata. simpl. rewrite Hitems. simpl.
    destruct (except_omap _ items) as [valid|] eqn:Hvalid; [|reflexivity].
    destruct (except_omap_all_Ok _ _ _ (PDict d) Hvalid Hin) as [o Ho].
    unfold validate_tag in Ho. rewrite Htag, Hscore, Hfloat in Ho.
    unfold tag_available in Ho. rewrite bool_decide_eq_true_2 in Ho by exact Hs.
    discriminate Ho.
  - unfold parse_tag. rewrite Htag, Hscore, Hfloat. reflexivity.
Qed.

(** A score of 401 digits after a valid entry. *)
Lemma tag_parser_overflow_loses_all_witness :
  _parse_tag_recommendations json_loads_ref float_of_str_ref tag_reply_huge_score
    available_tags = [].
Proof.
  eapply (tag_parser_overflow_loses_all json_loads_ref float_of_str_ref
            tag_reply_huge_score available_tags
            (PList [PDict [("tag", PStr "energy"); ("score", PInt 4)];
                    PDict [("tag", PStr "ai"); ("score", PInt (10 ^ 400))]])
            _ [("tag", PStr "ai"); ("score", PInt (10 ^ 400))] "ai" (10 ^ 400)).
  - vm_compute. reflexivity.
  - reflexivity.
  - right. left.
  - reflexivity.
  - vm_compute. repeat constructor. 
  - reflexivity.
  - vm_compute. discriminate.
Defined.

(** ** User signals *)

Lemma dict_get_dict_set (k : string) (v : pyval) (d : pydict) :
  dict_get k (dict_set k v d) = Some v.
Proof.
  induction d as [|[k0 v0] d IH]; simpl.
  - rewrite String.eqb_refl. reflexivity.
  - destruct (String.eqb k k0) eqn:Hk; simpl.
    + rewrite String.eqb_refl. reflexivity.
    + rewrite Hk. exact IH.
Qed.

Lemma dict_get_dict_set_other (k k' : string) (v : pyval) (d : pydict) :
  k' <> k -> dict_get k' (dict_set k v d) = dict_get k' d.
Proof.
  intros Hne. induction d as [|[k0 v0] d IH]; simpl.
  - destruct (String.eqb_spec k' k); [contradiction|reflexivity].
  - destruct (String.eqb_spec k k0) as [->|Hk0]; simpl.
    + destruct (String.eqb_spec k' k0); [contradiction|reflexivity].
    + destruct (String.eqb k' k0); [reflexivity|exact IH].
Qed.

(** The lookup that tracks the shared entries is the lookup. *)
Lemma lookup_shared_lookup
    (query_items : query -> Except (list pydict)) (read_item : string -> Except pydict)
    (now current_time : Q) (article_ids : list string) (g : gateway) :
  fst (get_articles_by_ids_optimized_shared query_items read_item now current_time
         article_ids g)
  = get_articles_by_ids_optimized query_items read_item now current_time article_ids g.
Proof.
  unfold get_articles_by_ids_optimized_shared, get_articles_by_ids_optimized.
  destruct article_ids as [|id0 rest]; [reflexivity|].
  destruct (_get_from_cache now (id0 :: rest) (_article_cache g))
    as [[cached missing] cache1].
  destruct missing as [|m0 missing]; [reflexivity|].
  destruct (query_items (ByIds (m0 :: missing))) as [db|e].
  - destruct (_update_cache current_time db cache1) as [cache2 [[]|e]]; [reflexivity|].
    destruct (get_articles_by_ids _ _ _ _) as [g3 found]. reflexivity.
  - destruct (get_articles_by_ids _ _ _ _) as [g3 found]. reflexivity.
Qed.

(** The labels of an article, read off the three lists. *)
Lemma interaction_types_spec (liked bookmarked disliked : list string) (a : pydict) :
  let labels := interaction_types liked bookmarked disliked a in
  sublist labels ["liked"; "bookmarked"; "disliked"] /\
  (forall s : string,
      dict_get "id" a = Some (PStr s) ->
      ("liked" ∈ labels <-> s ∈ liked) /\
      ("bookmarked" ∈ labels <-> s ∈ bookmarked) /\
      ("disliked" ∈ labels <-> s ∈ disliked)) /\
  ((forall s : string, dict_get "id" a <> Some (PStr s)) -> labels = []).
Proof.
  unfold interaction_types, dict_get_default. split; [|split].
  - destruct (id_in liked _), (id_in bookmarked _), (id_in disliked _); simpl;
      repeat first [apply sublist_nil | apply sublist_skip; solve [repeat constructor]
                   | apply sublist_cons | apply sublist_skip | apply sublist_nil_l ].
  - intros s Hs. rewrite Hs. unfold id_in.
    destruct (bool_decide_reflect (s ∈ liked)), (bool_decide_reflect (s ∈ bookmarked)),
      (bool_decide_reflect (s ∈ disliked)); simpl;
      repeat split; intros H; try assumption; try contradiction;
      repeat match goal with
        | |- _ ∈ _ :: _ => first [ apply list_elem_of_here | apply list_elem_of_further ]
        | H : _ ∈ [] |- _ => inversion H
        | H : ?x ∈ ?y :: _ |- _ =>
            apply elem_of_cons in H as [H|H]; [discriminate H|]
        end.
  - intros Hno. destruct (dict_get "id" a) as [[| | | |s| |]|]; try reflexivity.
    exfalso. exact (Hno s eq_refl).
Qed.

(** An iteration order of sets: the order of first occurrence. *)
Lemma first_seen_order : set_order.
Proof.
  exact {| list_of_set := first_seen;
           list_of_set_NoDup := first_seen_NoDup;
           list_of_set_elem := first_seen_elem |}.
Defined.

(** X18. For a user document whose interaction fields are lists of strings,
    [get_user_articles_with_interactions] returns the articles of one cached
    lookup of the distinct ids, in its order and with no other request to the
    store; each article keeps its fields and gains [interaction_types], which
    lists, in the order liked, bookmarked, disliked, exactly the interactions
    whose list holds the article's id (several when the id is in several
    lists, none when the id is not a string), whatever labels the cached
    copy carried.  A user with no interaction gets the empty list without a
    request. *)
Theorem user_articles_labelled
    (query_items : query -> Except (list pydict)) (read_item : string -> Except pydict)
    (order : set_order) (now current_time : Q) (user_data : pydict) (g : gateway)
    (liked bookmarked disliked : list string) :
  interaction_ids "liked_articles" user_data = Some liked ->
  interaction_ids "bookmarked_articles" user_data = Some bookmarked ->
  interaction_ids "disliked_articles" user_data = Some disliked ->
  let looked_up :=
    get_articles_by_ids_optimized query_items read_item now current_time
      (list_of_set order (liked ++ bookmarked ++ disliked)) g in
  exists (g' : gateway) (found : list pydict),
    get_user_articles_with_interactions query_items read_item order now current_time
      user_data g = Some (g', found) /\
    store_log g' = store_log (fst looked_up) /\
    (liked ++ bookmarked ++ disliked = [] -> g' = g /\ found = []) /\
    Forall2 (fun a b : pydict =>
               (forall k : string,
                   k <> "interaction_types" -> dict_get k b = dict_get k a) /\
               exists labels : list string,
                 dict_get "interaction_types" b = Some (PList (map PStr labels)) /\
                 sublist labels ["liked"; "bookmarked"; "disliked"] /\
                 (forall s : string,
                     dict_get "id" a = Some (PStr s) ->
                     ("liked" ∈ labels <-> s ∈ liked) /\
                     ("bookmarked" ∈ labels <-> s ∈ bookmarked) /\
                     ("disliked" ∈ labels <-> s ∈ disliked)) /\
                 ((forall s : string, dict_get "id" a <> Some (PStr s)) -> labels = []))
      (snd looked_up) found.
Proof.
  intros Hl Hb Hd looked_up. subst looked_up.
  unfold get_user_articles_with_interactions. rewrite Hl, Hb, Hd. simpl.
  rewrite <- lookup_shared_lookup.
  destruct (list_of_set order (liked ++ bookmarked ++ disliked)) as [|id0 ids] eqn:Hids.
  { exists g, []. simpl. repeat split; constructor. }
  destruct (get_articles_by_ids_optimized_shared _ _ _ _ (id0 :: ids) g)
    as [[g1 found] shared].
  eexists _, _. split; [reflexivity|]. split; [reflexivity|]. split.
  { intros Hnil. exfalso.
    assert (id0 ∈ list_of_set order (liked ++ bookmarked ++ disliked)) as Hin
        by (rewrite Hids; left).
    apply list_of_set_elem in Hin. rewrite Hnil in Hin. inversion Hin. }
  simpl. apply Forall2_fmap_r, Forall_Forall2_diag, Forall_forall. intros a _.
  split.
  - intros k Hk. unfold with_interaction_types. apply dict_get_dict_set_other, Hk.
  - exists (interaction_types liked bookmarked disliked a). split.
    + unfold with_interaction_types. apply dict_get_dict_set.
    + apply interaction_types_spec.
Qed.

(** A user who liked [a1] and [a2] and bookmarked [a2]; [a1] is cached. *)
Lemma user_articles_labelled_witness :
  exists (g' : gateway) (found : list pydict),
    get_user_articles_with_interactions queries_up reads_up first_seen_order 1100 1101
      user_ab gateway_a1 = Some (g', found) /\
    map (dict_get "interaction_types") found
    = [Some (PList [PStr "liked"]); Some (PList [PStr "liked"; PStr "bookmarked"])].
Proof.
  destruct (user_articles_labelled queries_up reads_up first_seen_order 1100 1101
              user_ab gateway_a1 ["a1"; "a2"] ["a2"] [] eq_refl eq_refl eq_refl)
    as (g' & found & Hrun & _).
  exists g', found. split; [exact Hrun|].
  vm_compute in Hrun. injection Hrun as _ <-. reflexivity.
Defined.

Lemma mutate_cached_lookup (f : pydict -> pydict) (shared : list string)
    (cache : gmap string cache_entry) (k : string) :
  NoDup shared ->
  mutate_cached f shared cache !! k =
  if bool_decide (k ∈ shared)
  then (fun e => {| article := f (article e); timestamp := timestamp e |}) <$> cache !! k
  else cache !! k.
Proof.
  induction 1 as [|k0 shared Hk0 Hnd IH]; simpl; [reflexivity|].
  destruct (decide (k = k0)) as [->|Hne].
  - rewrite lookup_alter_eq, IH.
    rewrite (bool_decide_eq_false_2 (k0 ∈ shared)) by exact Hk0.
    rewrite bool_decide_eq_true_2 by left. reflexivity.
  - rewrite lookup_alter_ne by congruence. rewrite IH.
    destruct (bool_decide_reflect (k ∈ shared)) as [Hin|Hnin].
    + rewrite bool_decide_eq_true_2 by (right; exact Hin). reflexivity.
    + rewrite bool_decide_eq_false_2; [reflexivity|].
      intros [?|?]%elem_of_cons; contradiction.
Qed.

(** X19. The labels are written on the cached articles themselves.  When
    every id of the user has a fresh entry, [get_user_articles_with_interactions]
    sends nothing to the store and leaves the cache with the same entries and
    time stamps, the article of each entry it served now carrying this user's
    [interaction_types]: the next reader of the cache finds the labels of the
    last user served. *)
Theorem interaction_labels_reach_cache
    (query_items : query -> Except (list pydict)) (read_item : string -> Except pydict)
    (order : set_order) (now current_time : Q) (user_data : pydict) (g : gateway)
    (liked bookmarked disliked : list string) :
  interaction_ids "liked_articles" user_data = Some liked ->
  interaction_ids "bookmarked_articles" user_data = Some bookmarked ->
  interaction_ids "disliked_articles" user_data = Some disliked ->
  Forall (fun id => is_fresh now (_article_cache g) id = true)
    (liked ++ bookmarked ++ disliked) ->
  exists (g' : gateway) (found : list pydict),
    get_user_articles_with_interactions query_items read_item order now current_time
      user_data g = Some (g', found) /\
    store_log g' = store_log g /\
    forall k : string,
      _article_cache g' !! k =
      if bool_decide (k ∈ liked ++ bookmarked ++ disliked)
      then (fun e => {| article :=
                          with_interaction_types liked bookmarked disliked (article e);
                        timestamp := timestamp e |}) <$> _article_cache g !! k
      else _article_cache g !! k.
Proof.
  intros Hl Hb Hd Hfresh.
  unfold get_user_articles_with_interactions. rewrite Hl, Hb, Hd. simpl.
  set (all := liked ++ bookmarked ++ disliked) in *.
  assert (forall k : string, k ∈ list_of_set order all <-> k ∈ all) as Hset
      by (intros k; apply list_of_set_elem).
  pose proof (list_of_set_NoDup order all) as Hnd.
  destruct (list_of_set order all) as [|id0 ids] eqn:Hids.
  { exists g, []. split; [reflexivity|]. split; [reflexivity|]. intros k.
    rewrite bool_decide_eq_false_2; [reflexivity|].
    intros Hk. apply Hset in Hk. inversion Hk. }
  assert (Forall (fun id => is_fresh now (_article_cache g) id = true) (id0 :: ids))
    as Hfresh'.
  { apply Forall_forall. intros k Hk. rewrite Forall_forall in Hfresh.
    apply Hfresh, Hset, Hk. }
  unfold get_articles_by_ids_optimized_shared.
  pose proof (get_from_cache_spec now (id0 :: ids) (_article_cache g)) as Hspec.
  destruct (_get_from_cache now (id0 :: ids) (_article_cache g))
    as [[cached missing] cache1].
  destruct Hspec as (_ & Hmissing & Hcache1).
  assert (missing = []) as ->.
  { rewrite Hmissing. clear - Hfresh'.
    induction Hfresh' as [|x l Hx _ IH]; simpl; [reflexivity|]. rewrite Hx. exact IH. }
  assert (cache1 = _article_cache g) as ->.
  { apply map_eq. intros k. rewrite Hcache1.
    destruct (_article_cache g !! k) as [e|] eqn:Hk; [|reflexivity].
    destruct (_is_cache_valid now e) eqn:Hvalid; [reflexivity|].
    destruct (bool_decide_reflect (k ∈ id0 :: ids)) as [Hin|]; [|reflexivity].
    rewrite Forall_forall in Hfresh'. specialize (Hfresh' k Hin).
    unfold is_fresh, fresh in Hfresh'. rewrite Hk, Hvalid in Hfresh'.
    discriminate Hfresh'. }
  eexists _, _. split; [reflexivity|]. split; [reflexivity|]. intros k.
  unfold with_cache. cbn [_article_cache].
  rewrite filter_all by (intros x Hx; rewrite Forall_forall in Hfresh'; auto).
  rewrite mutate_cached_lookup by exact Hnd.
  rewrite (bool_decide_ext (k ∈ id0 :: ids) (k ∈ all)) by apply Hset.
  reflexivity.
Qed.

(** [a1], cached, is the one article the user liked. *)
Lemma interaction_labels_reach_cache_witness :
  exists (g' : gateway) (found : list pydict),
    get_user_articles_with_interactions queries_up reads_up first_seen_order 1100 1101
      [("id", PStr "u1"); ("liked_articles", PList [PStr "a1"])] gateway_a1
    = Some (g', found) /\
    store_log g' = [] /\
    _article_cache g' !! "a1"
    = Some {| article := cached_a1 ++ [("interaction_types", PList [PStr "liked"])];
              timestamp := 1000 |}.
Proof.
  destruct (interaction_labels_reach_cache queries_up reads_up first_seen_order
              1100 1101 [("id", PStr "u1"); ("liked_articles", PList [PStr "a1"])]
              gateway_a1 ["a1"] [] [] eq_refl eq_refl eq_refl)
    as (g' & found & Hrun & Hlog & Hcache).
  { repeat constructor. }
  exists g', found. split; [exact Hrun|]. split; [exact Hlog|].
  rewrite (Hcache "a1"). reflexivity.
Defined.

(** X20. For a user document whose interaction fields are lists of strings
    and a non-negative limit, [prepare_user_article_ids] returns at most
    [limit] ids, all different, each one liked, bookmarked or disliked by the
    user; when the user has at most [limit] distinct ids it returns every
    one of them. *)
Theorem prepared_ids_distinct_bounded (order : set_order) (user_data : pydict)
    (limit : Z) (liked bookmarked disliked : list string) :
  interaction_ids "liked_articles" user_data = Some liked ->
  interaction_ids "bookmarked_articles" user_data = Some bookmarked ->
  interaction_ids "disliked_articles" user_data = Some disliked ->
  (0 <= limit)%Z ->
  exists ids : list string,
    prepare_user_article_ids order user_data limit = Some ids /\
    NoDup ids /\
    length ids <= Z.to_nat limit /\
    (forall x : string, x ∈ ids -> x ∈ liked ++ bookmarked ++ disliked) /\
    (length (remove_dups (liked ++ bookmarked ++ disliked)) <= Z.to_nat limit ->
     forall x : string, x ∈ liked ++ bookmarked ++ disliked -> x ∈ ids).
Proof.
  intros Hl Hb Hd Hlimit.
  unfold prepare_user_article_ids. rewrite Hl, Hb, Hd. simpl.
  set (all := liked ++ bookmarked ++ disliked).
  pose proof (list_of_set_NoDup order all) as Hnd.
  eexists. split; [reflexivity|].
  unfold py_slice_to. destruct (Z.ltb_spec limit 0) as [|_]; [lia|].
  split; [|split; [|split]].
  - apply (py_slice_to_NoDup limit) in Hnd. unfold py_slice_to in Hnd.
    destruct (Z.ltb_spec limit 0) as [|_]; [lia|exact Hnd].
  - rewrite length_take. lia.
  - intros x Hx. apply (list_of_set_elem order).
    apply list_elem_of_lookup in Hx as [i Hi]. apply lookup_take_Some in Hi as [Hi _].
    apply list_elem_of_lookup_2 in Hi. exact Hi.
  - intros Hfew x Hx.
    assert (length (list_of_set order all) = length (remove_dups all)) as Hlen.
    { apply Permutation_length, NoDup_Permutation.
      - apply list_of_set_NoDup.
      - apply NoDup_remove_dups.
      - intros y. rewrite list_of_set_elem, elem_of_remove_dups. reflexivity. }
    rewrite take_ge by lia. apply list_of_set_elem, Hx.
Qed.

Lemma prepared_ids_distinct_bounded_witness :
  exists ids : list string,
    prepare_user_article_ids first_seen_order user_ab 50 = Some ids /\
    NoDup ids /\
    length ids <= 50 /\
    (forall x : string, x ∈ ids -> x ∈ ["a1"; "a2"; "a2"]) /\
    (length (remove_dups ["a1"; "a2"; "a2"]) <= 50 ->
     forall x : string, x ∈ ["a1"; "a2"; "a2"] -> x ∈ ids).
Proof.
  apply (prepared_ids_distinct_bounded first_seen_order user_ab 50 ["a1"; "a2"] ["a2"] []);
    [reflexivity|reflexivity|reflexivity|lia].
Defined.

(** X21. The ids prepared for a user are the exclusion list of the candidate
    pool: when the user has at most [limit] distinct interactions, no
    candidate returned by [get_candidate_articles] is an article the user
    has liked, bookmarked or disliked. *)
Theorem candidates_exclude_interactions
    (query_items : query -> Except (list pydict)) (order : set_order)
    (user_data : pydict) (limit candidate_limit : Z)
    (liked bookmarked disliked ids : list string) :
  interaction_ids "liked_articles" user_data = Some liked ->
  interaction_ids "bookmarked_articles" user_data = Some bookmarked ->
  interaction_ids "disliked_articles" user_data = Some disliked ->
  (0 <= limit)%Z ->
  length (remove_dups (liked ++ bookmarked ++ disliked)) <= Z.to_nat limit ->
  prepare_user_article_ids order user_data limit = Some ids ->
  Forall (fun it : pydict =>
            forall s : string,
              dict_get "id" it = Some (PStr s) -> s ∉ liked ++ bookmarked ++ disliked)
    (get_candidate_articles query_items (Some ids) candidate_limit).
Proof.
  intros Hl Hb Hd Hlimit Hfew Hids.
  assert (forall x : string, x ∈ liked ++ bookmarked ++ disliked -> x ∈ ids) as Hall.
  { revert Hids. unfold prepare_user_article_ids. rewrite Hl, Hb, Hd. simpl.
    intros [= <-]. intros x Hx.
    unfold py_slice_to. destruct (Z.ltb_spec limit 0) as [|_]; [lia|].
    assert (length (list_of_set order (liked ++ bookmarked ++ disliked))
            = length (remove_dups (liked ++ bookmarked ++ disliked))) as Hlen.
    { apply Permutation_length, NoDup_Permutation.
      - apply list_of_set_NoDup.
      - apply NoDup_remove_dups.
      - intros y. rewrite list_of_set_elem, elem_of_remove_dups. reflexivity. }
    rewrite take_ge by lia. apply list_of_set_elem, Hx. }
  apply Forall_forall. intros it Hit s Hs Hin.
  unfold get_candidate_articles, get_candidate_articles_body in Hit.
  destruct (query_items (ActivePublished candidate_limit)) as [items|] eqn:Hq;
    simpl in Hit; [|inversion Hit].
  assert (exists rows : list pydict,
             it ∈ match except_omap (candidate_of (list_to_set ids)) rows with
                  | Ok candidates => candidates
                  | Raise _ => []
                  end) as [rows Hrows].
  { destruct items as [|row0 items].
    - destruct (query_items (AnyArticle candidate_limit)) as [rows|]; simpl in Hit;
        [|inversion Hit].
      exists rows. exact Hit.
    - exists (row0 :: items). exact Hit. }
  destruct (except_omap _ rows) as [candidates|] eqn:Hc; [|inversion Hrows].
  destruct (except_omap_elem _ _ _ _ Hc Hrows) as (row & _ & Hrow).
  apply candidate_of_Some in Hrow as (Hex & _).
  exact (Hex s Hs (Hall s Hin)).
Qed.

(** The user who liked [a1] and [a2]: only [a3] is left of the three stored
    articles. *)
Lemma candidates_exclude_interactions_witness :
  Forall (fun it : pydict =>
            forall s : string,
              dict_get "id" it = Some (PStr s) -> s ∉ ["a1"; "a2"; "a2"])
    (get_candidate_articles store_three (Some ["a1"; "a2"]) 30).
Proof.
  apply (candidates_exclude_interactions store_three first_seen_order user_ab 50 30
           ["a1"; "a2"] ["a2"] [] ["a1"; "a2"]);
    [reflexivity|reflexivity|reflexivity|lia|vm_compute; lia|reflexivity].
Defined.

(** ** The users container *)

(** X22. [update_user_recommendations] reads the user document and replaces
    it: it returns [True] exactly when the read succeeds, the document
    exists and is not empty, and the replacement succeeds.  The document
    stored is then the one read with the five recommendation fields set
    (the lists passed, the time of the update as text and as a number) and
    every other field unchanged; when it returns [False] the users container
    is unchanged.  It sends nothing to the chat endpoint or to the articles
    container. *)
Theorem update_user_recommendations_outcome
    (user_read_error user_replace_error : nat -> string -> option exn)
    (isoformat : Z -> string) (epoch_seconds : Z -> Z)
    (user_id : string) (tags_recommendation articles_recommendation : list pydict)
    (ids : list string) (t : readings) (w : world) :
  let out :=
    update_user_recommendations user_read_error user_replace_error isoformat
      epoch_seconds user_id tags_recommendation articles_recommendation ids t w in
  let n := length (w_user_calls w) in
  w_chat (fst out) = w_chat w /\
  w_articles (fst out) = w_articles w /\
  (snd out = true <->
   user_read_error n user_id = None /\
   (exists user : pydict, w_users w !! user_id = Some user /\ user <> []) /\
   user_replace_error (S n) user_id = None) /\
  (snd out = false -> w_users (fst out) = w_users w) /\
  (snd out = true ->
   exists user doc : pydict,
     w_users w !! user_id = Some user /\
     w_users (fst out) = <[user_id := doc]> (w_users w) /\
     w_user_calls (fst out)
     = w_user_calls w ++ [UserRead user_id; UserReplace user_id doc] /\
     dict_get "tags_recommendation" doc = Some (PList (map PDict tags_recommendation)) /\
     dict_get "articles_recommendation" doc
     = Some (PList (map PDict articles_recommendation)) /\
     dict_get "id_articles_for_recommendation" doc = Some (PList (map PStr ids)) /\
     dict_get "recommendations_updated_at" doc = Some (PStr (isoformat (written_at t))) /\
     dict_get "time_stamp_recommend" doc = Some (PInt (epoch_seconds (stamped_at t))) /\
     forall k : string,
       k ∉ ["tags_recommendation"; "articles_recommendation";
            "id_articles_for_recommendation"; "recommendations_updated_at";
            "time_stamp_recommend"] ->
       dict_get k doc = dict_get k user).
Proof.
  intros out n. subst out n.
  unfold update_user_recommendations, get_user_by_id.
  destruct (user_read_error (length (w_user_calls w)) user_id) as [e|] eqn:Hread.
  { simpl. repeat split; try reflexivity; try discriminate.
    intros (H & _). discriminate H. }
  destruct (w_users w !! user_id) as [user|] eqn:Huser.
  2:{ simpl. repeat split; try reflexivity; try discriminate.
      intros (_ & (user & H & _) & _). discriminate H. }
  destruct user as [|kv user].
  { simpl. repeat split; try reflexivity; try discriminate.
    intros (_ & (user & H & Hne) & _). injection H as <-. contradiction. }
  cbn [py_truthy negb].
  cbv zeta.
  replace (length (w_user_calls (user_logged (UserRead user_id) w)))
    with (S (length (w_user_calls w)))
    by (unfold user_logged; cbn [w_user_calls]; rewrite length_app; simpl; lia).
  destruct (user_replace_error (S (length (w_user_calls w))) user_id) as [e|] eqn:Hwrite.
  { cbn [fst snd]. repeat split; try reflexivity; try discriminate.
    intros (_ & _ & H). discriminate H. }
  cbn [fst snd].
  split; [reflexivity|]. split; [reflexivity|]. split.
  { split; [intros _|reflexivity]. split; [reflexivity|]. split; [|reflexivity].
    exists (kv :: user). split; [reflexivity|discriminate]. }
  split; [discriminate|]. intros _.
  eexists (kv :: user), _. split; [reflexivity|].
  split; [reflexivity|]. split.
  { unfold with_user, user_logged. cbn [w_user_calls].
    rewrite <- app_assoc. reflexivity. }
  unfold with_recommendations.
  repeat match goal with
         | |- _ /\ _ => split
         end.
  - rewrite !dict_get_dict_set_other by discriminate. apply dict_get_dict_set.
  - rewrite !dict_get_dict_set_other by discriminate. apply dict_get_dict_set.
  - rewrite !dict_get_dict_set_other by discriminate. apply dict_get_dict_set.
  - rewrite !dict_get_dict_set_other by discriminate. apply dict_get_dict_set.
  - apply dict_get_dict_set.
  - intros k Hk.
    rewrite !dict_get_dict_set_other; [reflexivity|..];
      intros ->; apply Hk; repeat first [left; reflexivity|right]; left.
Qed.

(** ** The pipeline *)

Lemma generate_llm_never_raises
    (json_loads : string -> Except pyval) (float_of_str : string -> option pyfloat)
    (chat_create : nat -> string -> Except string)
    (build_prompt : list pydict -> list pydict -> Z -> Z -> Z -> Z -> Except string)
    (user_articles candidate_articles : list pydict)
    (tag_count tag_wildcard article_count article_wildcard : Z) (w : io) :
  exists llm_out : recommendations,
    snd (generate_llm_only_recommendations json_loads float_of_str chat_create
           build_prompt user_articles candidate_articles
           tag_count tag_wildcard article_count article_wildcard w)
    = Ok llm_out.
Proof.
  unfold generate_llm_only_recommendations.
  destruct (generate_llm_only_recommendations_body _ _ _ _ _ _ _ _ _ _ w) as [w1 [r|e]];
    simpl; eauto.
Qed.

Section PipelineProperties.

Context (json_loads : string -> Except pyval) (float_of_str : string -> option pyfloat)
  (chat_create : nat -> string -> Except string)
  (build_prompt : list pydict -> list pydict -> Z -> Z -> Z -> Z -> Except string)
  (query_items : query -> Except (list pydict)) (read_item : string -> Except pydict)
  (fromisoformat : string -> option datetime) (order : set_order)
  (user_read_error user_replace_error : nat -> string -> option exn)
  (isoformat : Z -> string) (epoch_seconds : Z -> Z) (exn_str : exn -> string).

Local Abbreviation run :=
  (generate_recommendations_for_user json_loads float_of_str chat_create build_prompt
     query_items read_item fromisoformat order user_read_error user_replace_error
     isoformat epoch_seconds exn_str).

Local Abbreviation update :=
  (update_user_recommendations user_read_error user_replace_error isoformat
     epoch_seconds).

Local Abbreviation generate :=
  (generate_llm_only_recommendations json_loads float_of_str chat_create build_prompt).

(** The run of the pipeline from the user document on, when the policy does
    not skip it. *)
Lemma generation_from_document (user_id : string) (force_update : bool)
    (tag_count tag_wildcard article_count article_wildcard candidate_limit : Z)
    (t : readings) (w : world) (user_data : pydict) :
  user_read_error (length (w_user_calls w)) user_id = None ->
  w_users w !! user_id = Some user_data ->
  user_data <> [] ->
  negb force_update && should_skip_update fromisoformat (skip_now t) user_data 24
  = false ->
  run user_id force_update tag_count tag_wildcard article_count article_wildcard
    candidate_limit t w
  = match get_user_articles_with_interactions query_items read_item order
            (lookup_now t) (cache_stamp t) user_data (w_articles w),
          prepare_user_article_ids order user_data 50 with
    | Some (g, []), _ =>
        Some (with_articles g (user_logged (UserRead user_id) w),
              failure user_id "No articles found for user")
    | Some (g, user_articles), Some ids =>
        let candidates := get_candidate_articles query_items (Some ids) candidate_limit in
        let generated :=
          generate user_articles candidates
            tag_count tag_wildcard article_count article_wildcard (w_chat w) in
        match snd generated with
        | Ok llm_out =>
            let recs := _process_llm_output llm_out candidates in
            let updated :=
              update user_id (tags recs) (articles recs) ids t
                (with_chat (fst generated)
                   (with_articles g (user_logged (UserRead user_id) w))) in
            Some (fst updated,
                  if snd updated then
                    served_result user_id recs (isoformat (returned_at t))
                  else failure user_id
                         "Failed to update user recommendations in database")
        | Raise e =>
            Some (with_chat (fst generated)
                    (with_articles g (user_logged (UserRead user_id) w)),
                  failure user_id (exn_str e))
        end
    | _, _ => None
    end.
Proof.
  intros Hread Huser Hne Hgo.
  unfold generate_recommendations_for_user, generate_recommendations_for_user_body,
    get_user_by_id.
  rewrite Hread, Huser.
  destruct user_data as [|kv user_data]; [contradiction|].
  rewrite Hgo.
  change (w_articles (user_logged (UserRead user_id) w)) with (w_articles w).
  destruct (get_user_articles_with_interactions _ _ _ _ _ _ _) as [[g user_articles]|];
    [|reflexivity].
  destruct user_articles as [|a user_articles]; [reflexivity|].
  cbn [mbind option_bind].
  destruct (prepare_user_article_ids order (kv :: user_data) 50) as [ids|];
    [|reflexivity].
  cbn [mbind option_bind]. cbv zeta.
  change (w_chat (with_articles g (user_logged (UserRead user_id) w))) with (w_chat w).
  destruct (generate _ _ _ _ _ _ _) as [c [llm_out|e]]; cbn [fst snd].
  - destruct (update _ _ _ _ _ _) as [w4 [|]]; reflexivity.
  - reflexivity.
Qed.


(** The requests of one generation: none when the prompt cannot be built, at
    most three otherwise. *)
Lemma generate_calls (user_articles candidate_articles : list pydict)
    (tag_count tag_wildcard article_count article_wildcard : Z) (c : io) :
  let out :=
    generate user_articles candidate_articles
      tag_count tag_wildcard article_count article_wildcard c in
  llm_calls c <= llm_calls (fst out) <= llm_calls c + 3.
Proof.
  unfold generate_llm_only_recommendations, generate_llm_only_recommendations_body.
  destruct (build_prompt _ _ _ _ _ _) as [prompt|e]; [|simpl; lia].
  pose proof (call_chat_completion_spec chat_create prompt 3 c ltac:(lia)) as H.
  change (Z.of_nat 3) with 3%Z in H.
  destruct (_call_chat_completion chat_create prompt 3 c) as [c1 [content|e]];
    cbn [fst].
  - destruct H as (k & Hk & _ & _ & Hcalls & _). lia.
  - destruct H as (_ & _ & Hcalls & _). lia.
Qed.

(** With the endpoint down the generation returns the empty result after
    three requests. *)
Lemma generate_when_down (user_articles candidate_articles : list pydict)
    (tag_count tag_wildcard article_count article_wildcard : Z) (c : io)
    (prompt : string) :
  build_prompt user_articles candidate_articles
    tag_count tag_wildcard article_count article_wildcard = Ok prompt ->
  (forall i : nat, i < 3 ->
     exists e : exn, chat_create (llm_calls c + i) prompt = Raise e) ->
  exists c' : io,
    generate user_articles candidate_articles
      tag_count tag_wildcard article_count article_wildcard c
    = (c', Ok empty_recommendations) /\
    llm_calls c' = llm_calls c + 3.
Proof.
  intros Hprompt Hdown.
  unfold generate_llm_only_recommendations, generate_llm_only_recommendations_body.
  rewrite Hprompt.
  pose proof (call_chat_completion_spec chat_create prompt 3 c ltac:(lia)) as H.
  change (Z.of_nat 3) with 3%Z in H.
  destruct (_call_chat_completion chat_create prompt 3 c) as [c1 [content|e]].
  - destruct H as (k & Hk & _ & Hok & _).
    destruct (Hdown k Hk) as [e He]. congruence.
  - destruct H as (_ & _ & Hcalls & _). exists c1. split; [reflexivity|exact Hcalls].
Qed.

(** What [update_user_recommendations] does. *)
Lemma update_cases (user_id : string)
    (tags_recommendation articles_recommendation : list pydict)
    (ids : list string) (t : readings) (w : world) :
  let out := update user_id tags_recommendation articles_recommendation ids t w in
  let n := length (w_user_calls w) in
  (snd out = false /\ w_users (fst out) = w_users w /\
   w_chat (fst out) = w_chat w /\ w_articles (fst out) = w_articles w /\
   (user_read_error n user_id <> None \/
    w_users w !! user_id = None \/ w_users w !! user_id = Some [] \/
    user_replace_error (S n) user_id <> None)) \/
  (exists user : pydict,
      user_read_error n user_id = None /\ user_replace_error (S n) user_id = None /\
      w_users w !! user_id = Some user /\ user <> [] /\
      let doc :=
        with_recommendations tags_recommendation articles_recommendation ids
          (isoformat (written_at t)) (epoch_seconds (stamped_at t)) user in
      out = (with_user user_id doc
               (user_logged (UserReplace user_id doc)
                  (user_logged (UserRead user_id) w)),
             true)).
Proof.
  intros out n. subst out n.
  unfold update_user_recommendations, get_user_by_id.
  destruct (user_read_error (length (w_user_calls w)) user_id) as [e|] eqn:Hread.
  { left. simpl. repeat split; try reflexivity. left. discriminate. }
  destruct (w_users w !! user_id) as [user|] eqn:Huser.
  2:{ left. simpl. repeat split; try reflexivity. right. left. reflexivity. }
  destruct user as [|kv user].
  { left. simpl. repeat split; try reflexivity. right. right. left. reflexivity. }
  cbn [py_truthy negb]. cbv zeta.
  replace (length (w_user_calls (user_logged (UserRead user_id) w)))
    with (S (length (w_user_calls w)))
    by (unfold user_logged; cbn [w_user_calls]; rewrite length_app; simpl; lia).
  destruct (user_replace_error (S (length (w_user_calls w))) user_id) as [e|] eqn:Hwrite.
  { left. cbn [fst snd]. repeat split; try reflexivity.
    right. right. right. discriminate. }
  right. exists (kv :: user). repeat split; try reflexivity. discriminate.
Qed.

(** The outcomes of a run of the pipeline. *)
Lemma generation_outcome (user_id : string) (force_update : bool)
    (tag_count tag_wildcard article_count article_wildcard candidate_limit : Z)
    (t : readings) (w w' : world) (result : pydict) :
  run user_id force_update tag_count tag_wildcard article_count article_wildcard
    candidate_limit t w = Some (w', result) ->
  llm_calls (w_chat w) <= llm_calls (w_chat w') <= llm_calls (w_chat w) + 3 /\
  ((exists msg : string, result = failure user_id msg /\ w_users w' = w_users w) \/
   (exists user_data : pydict,
       result = skipped_result user_id user_data /\
       w' = user_logged (UserRead user_id) w /\
       force_update = false /\
       w_users w !! user_id = Some user_data /\
       should_skip_update fromisoformat (skip_now t) user_data 24 = true) \/
   (exists (recs : recommendations) (ids : list string) (user : pydict),
       result = served_result user_id recs (isoformat (returned_at t)) /\
       w_users w !! user_id = Some user /\
       prepare_user_article_ids order user 50 = Some ids /\
       let doc :=
         with_recommendations (tags recs) (articles recs) ids
           (isoformat (written_at t)) (epoch_seconds (stamped_at t)) user in
       w_users w' = <[user_id := doc]> (w_users w) /\
       w_user_calls w'
       = w_user_calls w ++ [UserRead user_id; UserRead user_id;
                            UserReplace user_id doc])).
Proof.
  intros Hrun.
  destruct (user_read_error (length (w_user_calls w)) user_id) as [e|] eqn:Hread.
  { revert Hrun.
    unfold generate_recommendations_for_user, generate_recommendations_for_user_body,
      get_user_by_id.
    rewrite Hread. cbn [mbind option_bind]. intros [= <- <-].
    split; [simpl; lia|]. left. eexists. split; reflexivity. }
  destruct (w_users w !! user_id) as [user_data|] eqn:Huser.
  2:{ revert Hrun.
      unfold generate_recommendations_for_user, generate_recommendations_for_user_body,
        get_user_by_id.
      rewrite Hread, Huser. cbn [mbind option_bind]. intros [= <- <-].
      split; [simpl; lia|]. left. eexists. split; reflexivity. }
  destruct user_data as [|kv user_data].
  { revert Hrun.
    unfold generate_recommendations_for_user, generate_recommendations_for_user_body,
      get_user_by_id.
    rewrite Hread, Huser. cbn [mbind option_bind]. intros [= <- <-].
    split; [simpl; lia|]. left. eexists. split; reflexivity. }
  destruct (negb force_update
            && should_skip_update fromisoformat (skip_now t) (kv :: user_data) 24)
    eqn:Hgo.
  { revert Hrun.
    unfold generate_recommendations_for_user, generate_recommendations_for_user_body,
      get_user_by_id.
    rewrite Hread, Huser, Hgo. cbn [mbind option_bind]. intros [= <- <-].
    split; [simpl; lia|]. right. left. exists (kv :: user_data).
    apply andb_true_iff in Hgo as [Hforce Hskip]. apply negb_true_iff in Hforce.
    auto. }
  rewrite (generation_from_document user_id force_update tag_count tag_wildcard
             article_count article_wildcard candidate_limit t w (kv :: user_data)
             Hread Huser ltac:(discriminate) Hgo) in Hrun.
  destruct (get_user_articles_with_interactions _ _ _ _ _ _ _)
    as [[g [|a user_articles]]|]; [| |discriminate Hrun].
  { injection Hrun as <- <-. split; [simpl; lia|]. left. eexists. split; reflexivity. }
  destruct (prepare_user_article_ids order (kv :: user_data) 50) as [ids|] eqn:Hids;
    [|discriminate Hrun].
  cbv zeta in Hrun.
  pose proof (generate_calls (a :: user_articles)
                (get_candidate_articles query_items (Some ids) candidate_limit)
                tag_count tag_wildcard article_count article_wildcard (w_chat w))
    as Hcalls.
  cbv zeta in Hcalls.
  destruct (generate _ _ _ _ _ _ _) as [c [llm_out|e]]; cbn [fst snd] in Hrun, Hcalls.
  2:{ injection Hrun as <- <-. split; [exact Hcalls|].
      left. eexists. split; reflexivity. }
  set (recs := _process_llm_output llm_out
                 (get_candidate_articles query_items (Some ids) candidate_limit)) in *.
  set (w3 := with_chat c (with_articles g (user_logged (UserRead user_id) w))) in *.
  destruct (update_cases user_id (tags recs) (articles recs) ids t w3)
    as [(Hfalse & Husers & Hchat & _)|(user & _ & _ & Huser3 & _ & Hout)].
  - rewrite Hfalse in Hrun. injection Hrun as <- <-.
    rewrite Hchat. split; [exact Hcalls|].
    left. eexists. split; [reflexivity|]. rewrite Husers. reflexivity.
  - cbv zeta in Hout. rewrite Hout in Hrun. cbn [fst snd] in Hrun.
    injection Hrun as <- <-.
    split; [exact Hcalls|]. right. right.
    exists recs, ids, (kv :: user_data).
    assert (user = kv :: user_data) as -> by (cbn in Huser3; congruence).
    split; [reflexivity|]. split; [reflexivity|]. split; [exact Hids|].
    split; [reflexivity|].
    subst w3. unfold with_user, user_logged, with_chat, with_articles.
    cbn [w_user_calls w_users w_chat w_articles].
    rewrite <- !app_assoc. reflexivity.
Qed.

End PipelineProperties.

(** X23. Without a user document the pipeline stops at its first step.  When
    the read of the user fails it reports the error of the store; when there
    is no document, or an empty one, it reports [User <id> not found].  In
    both cases that read is the only request made: nothing is sent to the
    chat endpoint or to the articles container, and nothing is written. *)
Theorem generation_needs_user
    (json_loads : string -> Except pyval) (float_of_str : string -> option pyfloat)
    (chat_create : nat -> string -> Except string)
    (build_prompt : list pydict -> list pydict -> Z -> Z -> Z -> Z -> Except string)
    (query_items : query -> Except (list pydict)) (read_item : string -> Except pydict)
    (fromisoformat : string -> option datetime) (order : set_order)
    (user_read_error user_replace_error : nat -> string -> option exn)
    (isoformat : Z -> string) (epoch_seconds : Z -> Z) (exn_str : exn -> string)
    (user_id : string) (force_update : bool) (tag_count tag_wildcard article_count article_wildcard candidate_limit : Z)
    (t : readings) (w : world) :
  let n := length (w_user_calls w) in
  let result :=
    generate_recommendations_for_user json_loads float_of_str chat_create build_prompt
       query_items read_item fromisoformat order user_read_error user_replace_error
       isoformat epoch_seconds exn_str
      user_id force_update tag_count tag_wildcard article_count article_wildcard candidate_limit t w in
  (forall e : exn,
      user_read_error n user_id = Some e ->
      result = Some (user_logged (UserRead user_id) w, failure user_id (exn_str e))) /\
  (user_read_error n user_id = None ->
   w_users w !! user_id = None \/ w_users w !! user_id = Some [] ->
   result = Some (user_logged (UserRead user_id) w,
                  failure user_id ("User " +:+ user_id +:+ " not found"))).
Proof.
  intros n result. subst n result.
  unfold generate_recommendations_for_user, generate_recommendations_for_user_body,
    get_user_by_id.
  split.
  - intros e He. rewrite He. reflexivity.
  - intros Hread [Hnone|Hempty]; rewrite Hread.
    + rewrite Hnone. reflexivity.
    + rewrite Hempty. reflexivity.
Qed.

(** The users container is down; the user [u9] has no document. *)
Lemma generation_needs_user_witness :
  generate_recommendations_for_user json_loads_ref float_of_str_ref chat_up fixed_prompt
       store_full reads_up fromisoformat_ref first_seen_order users_down users_up
       isoformat_ref (fun t => (t / 1000000)%Z) exn_str_ref
    "u7" false 15 5 15 5 400 sample_readings sample_world
  = Some (user_logged (UserRead "u7") sample_world,
          failure "u7" "users container unavailable") /\
  generate_recommendations_for_user json_loads_ref float_of_str_ref chat_up fixed_prompt
       store_full reads_up fromisoformat_ref first_seen_order users_up users_up
       isoformat_ref (fun t => (t / 1000000)%Z) exn_str_ref
    "u9" false 15 5 15 5 400 sample_readings sample_world
  = Some (user_logged (UserRead "u9") sample_world, failure "u9" "User u9 not found").
Proof.
  split.
  - destruct (generation_needs_user json_loads_ref float_of_str_ref chat_up fixed_prompt
       store_full reads_up fromisoformat_ref first_seen_order users_down users_up
       isoformat_ref (fun t => (t / 1000000)%Z) exn_str_ref
                "u7" false 15 5 15 5 400 sample_readings sample_world) as [Hfails _].
    apply (Hfails (ServiceError "users container unavailable")). reflexivity.
  - destruct (generation_needs_user json_loads_ref float_of_str_ref chat_up fixed_prompt
       store_full reads_up fromisoformat_ref first_seen_order users_up users_up
       isoformat_ref (fun t => (t / 1000000)%Z) exn_str_ref
                "u9" false 15 5 15 5 400 sample_readings sample_world) as [_ Hnone].
    apply Hnone; [reflexivity|left; reflexivity].
Defined.



(** X25. A user without any interaction gets no recommendation: the run,
    when it is not skipped, ends with the failure [No articles found for
    user] after reading the user, without a request to the articles
    container or to the chat endpoint and without writing anything. *)
Theorem generation_needs_interactions
    (json_loads : string -> Except pyval) (float_of_str : string -> option pyfloat)
    (chat_create : nat -> string -> Except string)
    (build_prompt : list pydict -> list pydict -> Z -> Z -> Z -> Z -> Except string)
    (query_items : query -> Except (list pydict)) (read_item : string -> Except pydict)
    (fromisoformat : string -> option datetime) (order : set_order)
    (user_read_error user_replace_error : nat -> string -> option exn)
    (isoformat : Z -> string) (epoch_seconds : Z -> Z) (exn_str : exn -> string)
    (user_id : string) (force_update : bool) (tag_count tag_wildcard article_count article_wildcard candidate_limit : Z)
    (t : readings) (w : world) (user_data : pydict) :
  user_read_error (length (w_user_calls w)) user_id = None ->
  w_users w !! user_id = Some user_data ->
  user_data <> [] ->
  negb force_update && should_skip_update fromisoformat (skip_now t) user_data 24
  = false ->
  interaction_ids "liked_articles" user_data = Some [] ->
  interaction_ids "bookmarked_articles" user_data = Some [] ->
  interaction_ids "disliked_articles" user_data = Some [] ->
  generate_recommendations_for_user json_loads float_of_str chat_create build_prompt
       query_items read_item fromisoformat order user_read_error user_replace_error
       isoformat epoch_seconds exn_str
    user_id force_update tag_count tag_wildcard article_count article_wildcard candidate_limit t w
  = Some (user_logged (UserRead user_id) w,
          failure user_id "No articles found for user").
Proof.
  intros Hread Huser Hne Hgo Hl Hb Hd.
  rewrite (generation_from_document _ _ _ _ _ _ _ _ _ _ _ _ _
             user_id force_update tag_count tag_wildcard article_count article_wildcard candidate_limit t w user_data Hread Huser Hne Hgo).
  unfold get_user_articles_with_interactions. rewrite Hl, Hb, Hd.
  cbn [mbind option_bind app].
  destruct (list_of_set order []) as [|x l] eqn:Hset.
  - reflexivity.
  - exfalso.
    assert (x ∈ list_of_set order []) as Hin by (rewrite Hset; left).
    apply list_of_set_elem in Hin. inversion Hin.
Qed.

(** The new user [u8], in a forced run. *)
Lemma generation_needs_interactions_witness :
  generate_recommendations_for_user json_loads_ref float_of_str_ref chat_up fixed_prompt
       store_full reads_up fromisoformat_ref first_seen_order users_up users_up
       isoformat_ref (fun t => (t / 1000000)%Z) exn_str_ref
    "u8" true 15 5 15 5 400 sample_readings new_user_world
  = Some (user_logged (UserRead "u8") new_user_world,
          failure "u8" "No articles found for user").
Proof.
  apply (generation_needs_interactions json_loads_ref float_of_str_ref chat_up fixed_prompt
       store_full reads_up fromisoformat_ref first_seen_order users_up users_up
       isoformat_ref (fun t => (t / 1000000)%Z) exn_str_ref
           "u8" true 15 5 15 5 400 sample_readings new_user_world [("id", PStr "u8")]);
    first [reflexivity|discriminate].
Defined.

Lemma process_empty (candidates : list pydict) :
  _process_llm_output empty_recommendations candidates = empty_recommendations.
Proof.
  unfold _process_llm_output, _process_llm_output_body.
  cbn [tags articles empty_recommendations take except_map mbind except_bind].
  destruct (candidate_abstract_by_id candidates ∅) as [by_id|e]; reflexivity.
Qed.

Lemma with_recommendations_fields
    (tags_recommendation articles_recommendation : list pydict) (ids : list string)
    (updated_at : string) (time_stamp : Z) (user : pydict) :
  let doc :=
    with_recommendations tags_recommendation articles_recommendation ids
      updated_at time_stamp user in
  dict_get "tags_recommendation" doc = Some (PList (map PDict tags_recommendation)) /\
  dict_get "articles_recommendation" doc
  = Some (PList (map PDict articles_recommendation)) /\
  dict_get "id_articles_for_recommendation" doc = Some (PList (map PStr ids)) /\
  dict_get "recommendations_updated_at" doc = Some (PStr updated_at) /\
  dict_get "time_stamp_recommend" doc = Some (PInt time_stamp) /\
  forall k : string,
    k ∉ ["tags_recommendation"; "articles_recommendation";
         "id_articles_for_recommendation"; "recommendations_updated_at";
         "time_stamp_recommend"] ->
    dict_get k doc = dict_get k user.
Proof.
  unfold with_recommendations. cbv zeta.
  repeat match goal with
         | |- _ /\ _ => split
         end.
  - rewrite !dict_get_dict_set_other by discriminate. apply dict_get_dict_set.
  - rewrite !dict_get_dict_set_other by discriminate. apply dict_get_dict_set.
  - rewrite !dict_get_dict_set_other by discriminate. apply dict_get_dict_set.
  - rewrite !dict_get_dict_set_other by discriminate. apply dict_get_dict_set.
  - apply dict_get_dict_set.
  - intros k Hk.
    rewrite !dict_get_dict_set_other; [reflexivity|..];
      intros ->; apply Hk; repeat first [left; reflexivity|right]; left.
Qed.

(** X26. When the chat endpoint fails three times for a user who has
    articles, the run still reports success: after the three requests it
    replaces the user document with empty lists of tags and of articles and
    a new time stamp, and returns these empty lists with [success] true. *)
Theorem generation_llm_down_stores_empty
    (json_loads : string -> Except pyval) (float_of_str : string -> option pyfloat)
    (chat_create : nat -> string -> Except string)
    (build_prompt : list pydict -> list pydict -> Z -> Z -> Z -> Z -> Except string)
    (query_items : query -> Except (list pydict)) (read_item : string -> Except pydict)
    (fromisoformat : string -> option datetime) (order : set_order)
    (user_read_error user_replace_error : nat -> string -> option exn)
    (isoformat : Z -> string) (epoch_seconds : Z -> Z) (exn_str : exn -> string)
    (user_id : string) (force_update : bool) (tag_count tag_wildcard article_count article_wildcard candidate_limit : Z)
    (t : readings) (w : world) (user_data : pydict) (g : gateway)
    (user_articles : list pydict) (ids : list string) (prompt : string) :
  let n := length (w_user_calls w) in
  user_read_error n user_id = None ->
  w_users w !! user_id = Some user_data ->
  user_data <> [] ->
  negb force_update && should_skip_update fromisoformat (skip_now t) user_data 24
  = false ->
  get_user_articles_with_interactions query_items read_item order
    (lookup_now t) (cache_stamp t) user_data (w_articles w)
  = Some (g, user_articles) ->
  user_articles <> [] ->
  prepare_user_article_ids order user_data 50 = Some ids ->
  build_prompt user_articles
    (get_candidate_articles query_items (Some ids) candidate_limit)
    tag_count tag_wildcard article_count article_wildcard = Ok prompt ->
  (forall i : nat, i < 3 ->
     exists e : exn, chat_create (llm_calls (w_chat w) + i) prompt = Raise e) ->
  user_read_error (S n) user_id = None ->
  user_replace_error (S (S n)) user_id = None ->
  exists (w' : world) (doc : pydict),
    generate_recommendations_for_user json_loads float_of_str chat_create build_prompt
       query_items read_item fromisoformat order user_read_error user_replace_error
       isoformat epoch_seconds exn_str
      user_id force_update tag_count tag_wildcard article_count article_wildcard candidate_limit t w
    = Some (w', served_result user_id empty_recommendations
                  (isoformat (returned_at t))) /\
    llm_calls (w_chat w') = llm_calls (w_chat w) + 3 /\
    w_users w' !! user_id = Some doc /\
    dict_get "tags_recommendation" doc = Some (PList []) /\
    dict_get "articles_recommendation" doc = Some (PList []) /\
    dict_get "recommendations_updated_at" doc = Some (PStr (isoformat (written_at t))).
Proof.
  intros n Hread Huser Hne Hgo Harts Hsome Hids Hprompt Hdown Hread2 Hwrite.
  rewrite (generation_from_document _ _ _ _ _ _ _ _ _ _ _ _ _
             user_id force_update tag_count tag_wildcard article_count article_wildcard candidate_limit t w user_data Hread Huser Hne Hgo).
  rewrite Harts, Hids.
  destruct user_articles as [|a user_articles]; [contradiction|].
  cbv zeta.
  destruct (generate_when_down json_loads float_of_str chat_create build_prompt
              (a :: user_articles)
              (get_candidate_articles query_items (Some ids) candidate_limit)
              tag_count tag_wildcard article_count article_wildcard (w_chat w)
              prompt Hprompt Hdown) as (c & -> & Hcalls).
  cbn [fst snd]. rewrite process_empty.
  set (w3 := with_chat c (with_articles g (user_logged (UserRead user_id) w))).
  assert (length (w_user_calls w3) = S n) as Hlen.
  { subst w3 n. unfold with_chat, with_articles, user_logged. cbn [w_user_calls].
    rewrite length_app. simpl. lia. }
  destruct (update_cases user_read_error user_replace_error isoformat epoch_seconds
              user_id (tags empty_recommendations) (articles empty_recommendations)
              ids t w3)
    as [(_ & _ & _ & _ & Hwhy)|(user & _ & _ & Huser3 & _ & Hout)].
  { exfalso. rewrite Hlen in Hwhy.
    assert (w_users w3 !! user_id = Some user_data) as Huser3 by exact Huser.
    destruct Hwhy as [H|[H|[H|H]]]; try congruence. }
  cbv zeta in Hout. rewrite Hout. cbn [fst snd].
  eexists _, _. split; [reflexivity|].
  split; [exact Hcalls|]. split.
  { unfold with_user. cbn [w_users]. apply lookup_insert_eq. }
  pose proof (with_recommendations_fields (tags empty_recommendations)
                (articles empty_recommendations) ids (isoformat (written_at t))
                (epoch_seconds (stamped_at t)) user) as (Ht & Ha & _ & Hu & _).
  auto.
Qed.

(** The user [u7] while the endpoint is down. *)
Lemma generation_llm_down_stores_empty_witness :
  exists (w' : world) (doc : pydict),
    generate_recommendations_for_user json_loads_ref float_of_str_ref chat_down fixed_prompt
       store_full reads_up fromisoformat_ref first_seen_order users_up users_up
       isoformat_ref (fun t => (t / 1000000)%Z) exn_str_ref
      "u7" true 15 5 15 5 400 sample_readings sample_world
    = Some (w', served_result "u7" empty_recommendations
                  (isoformat_ref (returned_at sample_readings))) /\
    llm_calls (w_chat w') = llm_calls (w_chat sample_world) + 3 /\
    w_users w' !! "u7" = Some doc /\
    dict_get "tags_recommendation" doc = Some (PList []) /\
    dict_get "articles_recommendation" doc = Some (PList []) /\
    dict_get "recommendations_updated_at" doc
    = Some (PStr (isoformat_ref (written_at sample_readings))).
Proof.
  pose (found := default (gateway_a1, [])
                   (get_user_articles_with_interactions store_full reads_up
                      first_seen_order 1100 1101 user_ab gateway_a1)).
  apply (generation_llm_down_stores_empty json_loads_ref float_of_str_ref chat_down fixed_prompt
       store_full reads_up fromisoformat_ref first_seen_order users_up users_up
       isoformat_ref (fun t => (t / 1000000)%Z) exn_str_ref
           "u7" true 15 5 15 5 400 sample_readings sample_world user_ab
           (fst found) (snd found) ["a1"; "a2"] "recommend").
  - reflexivity.
  - reflexivity.
  - discriminate.
  - reflexivity.
  - vm_compute. reflexivity.
  - vm_compute. discriminate.
  - vm_compute. reflexivity.
  - reflexivity.
  - intros i _. eexists. reflexivity.
  - reflexivity.
  - reflexivity.
Defined.

Lemma interaction_ids_with_recommendations
    (tags_recommendation articles_recommendation : list pydict) (ids : list string)
    (updated_at : string) (time_stamp : Z) (user : pydict) (k : string) :
  k ∈ ["liked_articles"; "bookmarked_articles"; "disliked_articles"] ->
  interaction_ids k
    (with_recommendations tags_recommendation articles_recommendation ids
       updated_at time_stamp user)
  = interaction_ids k user.
Proof.
  intros Hk.
  pose proof (with_recommendations_fields tags_recommendation articles_recommendation
                ids updated_at time_stamp user) as (_ & _ & _ & _ & _ & Hother).
  cbv zeta in Hother.
  unfold interaction_ids, dict_get_default. rewrite Hother; [reflexivity|].
  intros Hin.
  repeat (apply elem_of_cons in Hk as [->|Hk];
          [repeat (apply elem_of_cons in Hin as [Hin|Hin]; [discriminate Hin|]);
           inversion Hin|]).
  inversion Hk.
Qed.

(** The replacement of the document keeps the interaction fields. *)
Lemma modelled_with_recommendations
    (tags_recommendation articles_recommendation : list pydict) (ids : list string)
    (updated_at : string) (time_stamp : Z) (user : pydict) :
  interactions_modelled user ->
  interactions_modelled
    (with_recommendations tags_recommendation articles_recommendation ids
       updated_at time_stamp user).
Proof.
  unfold interactions_modelled.
  rewrite !interaction_ids_with_recommendations
    by (repeat first [left; reflexivity|right]; left).
  auto.
Qed.

(** A run for a user whose document the model covers gives a result. *)
Lemma generation_answers
    (json_loads : string -> Except pyval) (float_of_str : string -> option pyfloat)
    (chat_create : nat -> string -> Except string)
    (build_prompt : list pydict -> list pydict -> Z -> Z -> Z -> Z -> Except string)
    (query_items : query -> Except (list pydict)) (read_item : string -> Except pydict)
    (fromisoformat : string -> option datetime) (order : set_order)
    (user_read_error user_replace_error : nat -> string -> option exn)
    (isoformat : Z -> string) (epoch_seconds : Z -> Z) (exn_str : exn -> string)
    (user_id : string) (force_update : bool) (tag_count tag_wildcard article_count article_wildcard candidate_limit : Z)
    (t : readings) (w : world) :
  (forall user_data : pydict,
      w_users w !! user_id = Some user_data -> interactions_modelled user_data) ->
  exists (w' : world) (result : pydict),
    generate_recommendations_for_user json_loads float_of_str chat_create build_prompt
       query_items read_item fromisoformat order user_read_error user_replace_error
       isoformat epoch_seconds exn_str
      user_id force_update tag_count tag_wildcard article_count article_wildcard candidate_limit t w
    = Some (w', result).
Proof.
  intros Hmodelled.
  destruct (user_read_error (length (w_user_calls w)) user_id) as [e|] eqn:Hread.
  { unfold generate_recommendations_for_user, generate_recommendations_for_user_body,
      get_user_by_id.
    rewrite Hread. cbn [mbind option_bind]. eauto. }
  destruct (w_users w !! user_id) as [user_data|] eqn:Huser.
  2:{ unfold generate_recommendations_for_user, generate_recommendations_for_user_body,
        get_user_by_id.
      rewrite Hread, Huser. cbn [mbind option_bind]. eauto. }
  destruct user_data as [|kv user_data].
  { unfold generate_recommendations_for_user, generate_recommendations_for_user_body,
      get_user_by_id.
    rewrite Hread, Huser. cbn [mbind option_bind]. eauto. }
  destruct (negb force_update
            && should_skip_update fromisoformat (skip_now t) (kv :: user_data) 24)
    eqn:Hgo.
  { unfold generate_recommendations_for_user, generate_recommendations_for_user_body,
      get_user_by_id.
    rewrite Hread, Huser, Hgo. cbn [mbind option_bind]. eauto. }
  rewrite (generation_from_document _ _ _ _ _ _ _ _ _ _ _ _ _
             user_id force_update tag_count tag_wildcard article_count article_wildcard candidate_limit t w (kv :: user_data)
             Hread Huser ltac:(discriminate) Hgo).
  destruct (Hmodelled _ eq_refl) as ([l Hl] & [b Hb] & [d Hd]).
  unfold get_user_articles_with_interactions, prepare_user_article_ids.
  rewrite Hl, Hb, Hd. cbn [mbind option_bind].
  destruct (list_of_set order (l ++ b ++ d)); [eauto|].
  destruct (get_articles_by_ids_optimized_shared _ _ _ _ _ _) as [[g1 found] shared].
  destruct (map _ found); [eauto|].
  cbv zeta.
  destruct (snd (generate_llm_only_recommendations _ _ _ _ _ _ _ _ _ _ _)); eauto.
Qed.

(** A run leaves the documents the model covers within the model. *)
Lemma generation_keeps_modelled
    (json_loads : string -> Except pyval) (float_of_str : string -> option pyfloat)
    (chat_create : nat -> string -> Except string)
    (build_prompt : list pydict -> list pydict -> Z -> Z -> Z -> Z -> Except string)
    (query_items : query -> Except (list pydict)) (read_item : string -> Except pydict)
    (fromisoformat : string -> option datetime) (order : set_order)
    (user_read_error user_replace_error : nat -> string -> option exn)
    (isoformat : Z -> string) (epoch_seconds : Z -> Z) (exn_str : exn -> string)
    (user_id : string) (force_update : bool) (tag_count tag_wildcard article_count article_wildcard candidate_limit : Z)
    (t : readings) (w w' : world) (result : pydict) (other : string) :
  generate_recommendations_for_user json_loads float_of_str chat_create build_prompt
       query_items read_item fromisoformat order user_read_error user_replace_error
       isoformat epoch_seconds exn_str
    user_id force_update tag_count tag_wildcard article_count article_wildcard candidate_limit t w
  = Some (w', result) ->
  (forall user_data : pydict,
      w_users w !! other = Some user_data -> interactions_modelled user_data) ->
  forall user_data : pydict,
    w_users w' !! other = Some user_data -> interactions_modelled user_data.
Proof.
  intros Hrun Hmodelled user_data Hother.
  apply generation_outcome in Hrun
    as (_ & [(msg & _ & Husers)|[(ud & _ & -> & _)|Hserved]]).
  - rewrite Husers in Hother. auto.
  - apply Hmodelled. exact Hother.
  - destruct Hserved as (recs & ids & user & _ & Huser & _ & Hdoc).
    cbv zeta in Hdoc. destruct Hdoc as [Husers _].
    rewrite Husers in Hother.
    destruct (decide (other = user_id)) as [->|Hne].
    + rewrite lookup_insert_eq in Hother. injection Hother as <-.
      apply modelled_with_recommendations. auto.
    + rewrite lookup_insert_ne in Hother by congruence. auto.
Qed.

(** X27. What a run of the pipeline may change, for a user whose document,
    if there is one, has lists of strings (or nothing) as its liked,
    bookmarked and disliked fields.  The run returns a result carrying the
    user id, sends at most three requests to the chat endpoint and touches no
    user document but that of [user_id].  It replaces that document exactly
    when it reports a success that is not a skip, and then the tags and the
    articles stored are the lists it returns, the time stamp is the time of
    the write and the other fields of the document are kept; a failed or
    skipped run leaves the users container as it was. *)
Theorem generation_writes_what_it_returns
    (json_loads : string -> Except pyval) (float_of_str : string -> option pyfloat)
    (chat_create : nat -> string -> Except string)
    (build_prompt : list pydict -> list pydict -> Z -> Z -> Z -> Z -> Except string)
    (query_items : query -> Except (list pydict)) (read_item : string -> Except pydict)
    (fromisoformat : string -> option datetime) (order : set_order)
    (user_read_error user_replace_error : nat -> string -> option exn)
    (isoformat : Z -> string) (epoch_seconds : Z -> Z) (exn_str : exn -> string)
    (user_id : string) (force_update : bool) (tag_count tag_wildcard article_count article_wildcard candidate_limit : Z)
    (t : readings) (w : world) :
  (forall user_data : pydict,
      w_users w !! user_id = Some user_data -> interactions_modelled user_data) ->
  exists (w' : world) (result : pydict),
    generate_recommendations_for_user json_loads float_of_str chat_create build_prompt
       query_items read_item fromisoformat order user_read_error user_replace_error
       isoformat epoch_seconds exn_str
      user_id force_update tag_count tag_wildcard article_count article_wildcard candidate_limit t w
    = Some (w', result) /\
    llm_calls (w_chat w') <= llm_calls (w_chat w) + 3 /\
    (forall k : string, k <> user_id -> w_users w' !! k = w_users w !! k) /\
    dict_get "user_id" result = Some (PStr user_id) /\
    match outcome_of result with
    | Successful =>
        exists user doc : pydict,
          w_users w !! user_id = Some user /\
          w_users w' !! user_id = Some doc /\
          dict_get "tags_recommendation" doc = dict_get "tags_recommendation" result /\
          dict_get "articles_recommendation" doc
          = dict_get "articles_recommendation" result /\
          dict_get "recommendations_updated_at" doc
          = Some (PStr (isoformat (written_at t))) /\
          forall k : string,
            k ∉ ["tags_recommendation"; "articles_recommendation";
                 "id_articles_for_recommendation"; "recommendations_updated_at";
                 "time_stamp_recommend"] ->
            dict_get k doc = dict_get k user
    | Failed | Skipped => w_users w' = w_users w
    end.
Proof.
  intros Hmodelled.
  destruct (generation_answers json_loads float_of_str chat_create build_prompt
       query_items read_item fromisoformat order user_read_error user_replace_error
       isoformat epoch_seconds exn_str
              user_id force_update tag_count tag_wildcard article_count article_wildcard candidate_limit t w Hmodelled) as (w' & result & Hrun).
  exists w', result. split; [exact Hrun|].
  apply generation_outcome in Hrun
    as (Hcalls & [(msg & -> & Husers)|[Hskip|Hserved]]).
  - split; [lia|]. split; [intros k _; rewrite Husers; reflexivity|].
    split; [reflexivity|]. exact Husers.
  - destruct Hskip as (user_data & -> & -> & _).
    split; [lia|]. split; [reflexivity|]. split; reflexivity.
  - destruct Hserved as (recs & ids & user & -> & Huser & _ & Hdoc).
    cbv zeta in Hdoc. destruct Hdoc as [Husers _].
    split; [lia|]. split.
    { intros k Hk. rewrite Husers. apply lookup_insert_ne. congruence. }
    split; [reflexivity|].
    change (outcome_of (served_result user_id recs (isoformat (returned_at t))))
      with Successful.
    pose proof (with_recommendations_fields (tags recs) (articles recs) ids
                  (isoformat (written_at t)) (epoch_seconds (stamped_at t)) user)
      as (Ht & Ha & _ & Hu & _ & Hother).
    eexists user, _. split; [exact Huser|]. split.
    { rewrite Husers. apply lookup_insert_eq. }
    split; [rewrite Ht; reflexivity|]. split; [rewrite Ha; reflexivity|].
    split; [exact Hu|exact Hother].
Qed.

Example sample_run_served :
  (fun r : world * pydict => outcome_of (snd r)) <$>
    generate_recommendations_for_user json_loads_ref float_of_str_ref chat_up fixed_prompt
       store_full reads_up fromisoformat_ref first_seen_order users_up users_up
       isoformat_ref (fun t => (t / 1000000)%Z) exn_str_ref
      "u7" false 15 5 15 5 400 sample_readings sample_world
  = Some Successful.
Proof. vm_compute. reflexivity. Qed.

Lemma sample_world_modelled (user_id : string) (user_data : pydict) :
  w_users sample_world !! user_id = Some user_data -> interactions_modelled user_data.
Proof.
  unfold sample_world. cbn [w_users]. intros Hdoc.
  apply lookup_singleton_Some in Hdoc as [_ <-].
  repeat split; eexists; reflexivity.
Qed.

(** The user [u7], served with the sample reply. *)
Lemma generation_writes_what_it_returns_witness :
  exists (w' : world) (result : pydict),
    generate_recommendations_for_user json_loads_ref float_of_str_ref chat_up fixed_prompt
       store_full reads_up fromisoformat_ref first_seen_order users_up users_up
       isoformat_ref (fun t => (t / 1000000)%Z) exn_str_ref
      "u7" false 15 5 15 5 400 sample_readings sample_world
    = Some (w', result) /\
    outcome_of result = Successful /\
    llm_calls (w_chat w') <= 3 /\
    exists doc : pydict,
      w_users w' !! "u7" = Some doc /\
      dict_get "tags_recommendation" doc = dict_get "tags_recommendation" result.
Proof.
  destruct (generation_writes_what_it_returns json_loads_ref float_of_str_ref chat_up fixed_prompt
       store_full reads_up fromisoformat_ref first_seen_order users_up users_up
       isoformat_ref (fun t => (t / 1000000)%Z) exn_str_ref
              "u7" false 15 5 15 5 400 sample_readings sample_world
              (sample_world_modelled "u7"))
    as (w' & result & Hrun & Hcalls & _ & _ & Hdoc).
  pose proof sample_run_served as Hserved.
  rewrite Hrun in Hserved. injection Hserved as Hout. cbn [snd] in Hout.
  rewrite Hout in Hdoc.
  destruct Hdoc as (user & doc & _ & Hdoc & Ht & _).
  exists w', result. split; [exact Hrun|]. split; [exact Hout|].
  split; [exact Hcalls|].
  exists doc. split; [exact Hdoc|exact Ht].
Defined.

(** A run that finds a recent time stamp is skipped. *)
Lemma generation_skips
    (json_loads : string -> Except pyval) (float_of_str : string -> option pyfloat)
    (chat_create : nat -> string -> Except string)
    (build_prompt : list pydict -> list pydict -> Z -> Z -> Z -> Z -> Except string)
    (query_items : query -> Except (list pydict)) (read_item : string -> Except pydict)
    (fromisoformat : string -> option datetime) (order : set_order)
    (user_read_error user_replace_error : nat -> string -> option exn)
    (isoformat : Z -> string) (epoch_seconds : Z -> Z) (exn_str : exn -> string)
    (user_id : string) (tag_count tag_wildcard article_count article_wildcard candidate_limit : Z)
    (t : readings) (w : world) (user_data : pydict) :
  user_read_error (length (w_user_calls w)) user_id = None ->
  w_users w !! user_id = Some user_data ->
  user_data <> [] ->
  should_skip_update fromisoformat (skip_now t) user_data 24 = true ->
  generate_recommendations_for_user json_loads float_of_str chat_create build_prompt
       query_items read_item fromisoformat order user_read_error user_replace_error
       isoformat epoch_seconds exn_str
    user_id false tag_count tag_wildcard article_count article_wildcard candidate_limit t w
  = Some (user_logged (UserRead user_id) w, skipped_result user_id user_data).
Proof.
  intros Hread Huser Hne Hskip.
  unfold generate_recommendations_for_user, generate_recommendations_for_user_body,
    get_user_by_id.
  rewrite Hread, Huser.
  destruct user_data as [|kv user_data]; [contradiction|].
  rewrite Hskip. reflexivity.
Qed.

(** X28. Write, then skip.  After a run that served the user, a second run
    that is not forced and can read the user is skipped exactly when less
    than 24 hours separate its clock reading from the time written by the
    first, provided [fromisoformat] reads back the text [isoformat] wrote;
    the skipped run returns as [existing_recommendations] the tags the first
    run returned, sends nothing to the chat endpoint and writes nothing. *)
Theorem generation_then_skipped
    (json_loads : string -> Except pyval) (float_of_str : string -> option pyfloat)
    (chat_create : nat -> string -> Except string)
    (build_prompt : list pydict -> list pydict -> Z -> Z -> Z -> Z -> Except string)
    (query_items : query -> Except (list pydict)) (read_item : string -> Except pydict)
    (fromisoformat : string -> option datetime) (order : set_order)
    (user_read_error user_replace_error : nat -> string -> option exn)
    (isoformat : Z -> string) (epoch_seconds : Z -> Z) (exn_str : exn -> string)
    (user_id : string) (force_update : bool) (tag_count tag_wildcard article_count article_wildcard candidate_limit : Z)
    (t1 t2 : readings) (w w1 : world) (result1 : pydict) :
  generate_recommendations_for_user json_loads float_of_str chat_create build_prompt
       query_items read_item fromisoformat order user_read_error user_replace_error
       isoformat epoch_seconds exn_str
    user_id force_update tag_count tag_wildcard article_count article_wildcard candidate_limit t1 w
  = Some (w1, result1) ->
  outcome_of result1 = Successful ->
  isoformat (written_at t1) <> "" ->
  fromisoformat (replace_Z (isoformat (written_at t1)))
  = Some {| micros := written_at t1; utcoffset := None |} ->
  user_read_error (length (w_user_calls w1)) user_id = None ->
  exists (w2 : world) (result2 : pydict),
    generate_recommendations_for_user json_loads float_of_str chat_create build_prompt
       query_items read_item fromisoformat order user_read_error user_replace_error
       isoformat epoch_seconds exn_str
      user_id false tag_count tag_wildcard article_count article_wildcard candidate_limit t2 w1
    = Some (w2, result2) /\
    (outcome_of result2 = Skipped <->
     (skip_now t2 - written_at t1 < 24 * 3600000000)%Z) /\
    (outcome_of result2 = Skipped ->
     w2 = user_logged (UserRead user_id) w1 /\
     dict_get "existing_recommendations" result2
     = dict_get "tags_recommendation" result1).
Proof.
  intros Hrun Hout Hne Hround Hread.
  apply generation_outcome in Hrun
    as (_ & [(msg & -> & _)|[(ud & -> & _)|Hserved]]);
    [discriminate Hout|discriminate Hout|].
  destruct Hserved as (recs & ids & user & -> & Huser & Hids & Hdoc).
  cbv zeta in Hdoc. destruct Hdoc as [Husers _].
  set (doc := with_recommendations (tags recs) (articles recs) ids
                (isoformat (written_at t1)) (epoch_seconds (stamped_at t1)) user)
    in *.
  pose proof (with_recommendations_fields (tags recs) (articles recs) ids
                (isoformat (written_at t1)) (epoch_seconds (stamped_at t1)) user)
    as (Ht & _ & _ & Hu & _ & Hother).
  cbv zeta in Ht, Hu, Hother. fold doc in Ht, Hu, Hother.
  assert (w_users w1 !! user_id = Some doc) as Hdoc1
      by (rewrite Husers; apply lookup_insert_eq).
  assert (doc <> []) as Hdoc_ne by (intros Hnil; rewrite Hnil in Hu; discriminate Hu).
  pose proof (skip_naive fromisoformat (skip_now t2) doc 24
                (isoformat (written_at t1)) (written_at t1) Hu Hne Hround) as Hiff.
  destruct (should_skip_update fromisoformat (skip_now t2) doc 24) eqn:Hskip.
  - eexists _, _. split.
    { apply generation_skips; eassumption. }
    split; [split; [intros _; apply Hiff; reflexivity|reflexivity]|].
    intros _. split; [reflexivity|].
    unfold skipped_result, served_result, dict_get_default. cbn [dict_get String.eqb Ascii.eqb Bool.eqb].
    rewrite Ht. reflexivity.
  - destruct (generate_recommendations_for_user json_loads float_of_str chat_create build_prompt
       query_items read_item fromisoformat order user_read_error user_replace_error
       isoformat epoch_seconds exn_str
                user_id false tag_count tag_wildcard article_count article_wildcard candidate_limit t2 w1)
      as [[w2 result2]|] eqn:Hrun2.
    + exists w2, result2. split; [reflexivity|].
      apply generation_outcome in Hrun2
        as (_ & [(msg & -> & _)|[(ud & -> & _ & _ & Hud & Hskip2)|Hserved2]]).
      * split; [split; [discriminate|]|discriminate].
        intros Hlt. apply Hiff in Hlt. discriminate Hlt.
      * rewrite Hdoc1 in Hud. injection Hud as <-. congruence.
      * destruct Hserved2 as (recs2 & ids2 & user2 & -> & _).
        split; [split; [discriminate|]|discriminate].
        intros Hlt. apply Hiff in Hlt. discriminate Hlt.
    + exfalso.
      rewrite (generation_from_document _ _ _ _ _ _ _ _ _ _ _ _ _
                 user_id false tag_count tag_wildcard article_count article_wildcard candidate_limit t2 w1 doc Hread Hdoc1 Hdoc_ne) in Hrun2
        by (rewrite Hskip; reflexivity).
      assert (exists l b d : list string,
                 interaction_ids "liked_articles" doc = Some l /\
                 interaction_ids "bookmarked_articles" doc = Some b /\
                 interaction_ids "disliked_articles" doc = Some d)
        as (l & b & d & Hl & Hb & Hd).
      { assert (forall k : string,
                   k ∈ ["liked_articles"; "bookmarked_articles"; "disliked_articles"] ->
                   interaction_ids k doc = interaction_ids k user) as Hsame.
        { intros k Hk. unfold interaction_ids, dict_get_default.
          rewrite Hother; [reflexivity|].
          intros Hin.
          repeat (apply elem_of_cons in Hk as [->|Hk];
                  [repeat (apply elem_of_cons in Hin as [Hin|Hin]; [discriminate Hin|]);
                   inversion Hin|]).
          inversion Hk. }
        rewrite !Hsame by (repeat first [left; reflexivity|right]; left).
        revert Hids. unfold prepare_user_article_ids.
        destruct (interaction_ids "liked_articles" user) as [l|]; [|discriminate].
        destruct (interaction_ids "bookmarked_articles" user) as [b|]; [|discriminate].
        destruct (interaction_ids "disliked_articles" user) as [d|]; [|discriminate].
        intros _. exists l, b, d. auto. }
      revert Hrun2.
      unfold get_user_articles_with_interactions, prepare_user_article_ids.
      rewrite Hl, Hb, Hd. cbn [mbind option_bind].
      destruct (list_of_set order (l ++ b ++ d)); [discriminate|].
      destruct (get_articles_by_ids_optimized_shared _ _ _ _ _ _) as [[g1 found] shared].
      destruct (map _ found); [discriminate|].
      cbv zeta.
      destruct (snd (generate_llm_only_recommendations _ _ _ _ _ _ _ _ _ _ _));
        discriminate.
Qed.

(** One hour after the user [u7] was served. *)
Lemma generation_then_skipped_witness :
  exists (w1 w2 : world) (result1 result2 : pydict),
    generate_recommendations_for_user json_loads_ref float_of_str_ref chat_up fixed_prompt
       store_full reads_up fromisoformat_ref first_seen_order users_up users_up
       isoformat_ref (fun t => (t / 1000000)%Z) exn_str_ref
      "u7" false 15 5 15 5 400 sample_readings sample_world
    = Some (w1, result1) /\
    generate_recommendations_for_user json_loads_ref float_of_str_ref chat_up fixed_prompt
       store_full reads_up fromisoformat_ref first_seen_order users_up users_up
       isoformat_ref (fun t => (t / 1000000)%Z) exn_str_ref
      "u7" false 15 5 15 5 400 later_readings w1
    = Some (w2, result2) /\
    outcome_of result2 = Skipped /\
    dict_get "existing_recommendations" result2
    = dict_get "tags_recommendation" result1.
Proof.
  pose proof sample_run_served as Hserved.
  destruct (generate_recommendations_for_user json_loads_ref float_of_str_ref chat_up fixed_prompt
       store_full reads_up fromisoformat_ref first_seen_order users_up users_up
       isoformat_ref (fun t => (t / 1000000)%Z) exn_str_ref
              "u7" false 15 5 15 5 400 sample_readings sample_world)
    as [[w1 result1]|] eqn:Hrun; [|discriminate Hserved].
  injection Hserved as Hout. cbn [snd] in Hout.
  destruct (generation_then_skipped json_loads_ref float_of_str_ref chat_up fixed_prompt
       store_full reads_up fromisoformat_ref first_seen_order users_up users_up
       isoformat_ref (fun t => (t / 1000000)%Z) exn_str_ref
              "u7" false 15 5 15 5 400 sample_readings later_readings
              sample_world w1 result1 Hrun Hout)
    as (w2 & result2 & Hrun2 & Hiff & Hskipped).
  - vm_compute. discriminate.
  - vm_compute. reflexivity.
  - reflexivity.
  - assert (outcome_of result2 = Skipped) as Hout2
        by (apply Hiff; vm_compute; reflexivity).
    exists w1, w2, result1, result2.
    split; [reflexivity|]. split; [exact Hrun2|]. split; [exact Hout2|].
    apply Hskipped, Hout2.
Defined.

(** ** Batches *)

Lemma count_outcomes (rs : list pydict) :
  length (List.filter (has_outcome Successful) rs)
  + length (List.filter (has_outcome Failed) rs)
  + length (List.filter (has_outcome Skipped) rs)
  = length rs.
Proof.
  induction rs as [|r rs IH]; [reflexivity|].
  cbn [List.filter].
  assert (has_outcome Successful r
          = match outcome_of r with Successful => true | _ => false end) as ->
      by reflexivity.
  assert (has_outcome Failed r
          = match outcome_of r with Failed => true | _ => false end) as ->
      by reflexivity.
  assert (has_outcome Skipped r
          = match outcome_of r with Skipped => true | _ => false end) as ->
      by reflexivity.
  destruct (outcome_of r); cbn [length]; lia.
Qed.

(** How the loop counts the three kinds of result. *)
Lemma batch_step_counts (exn_str : exn -> string) (user_id : string)
    (result : pydict) (acc : tally) :
  (exists msg : string, result = failure user_id msg) \/
  (exists user_data : pydict, result = skipped_result user_id user_data) \/
  (exists (recs : recommendations) (returned : string),
      result = served_result user_id recs returned) ->
  let acc' := batch_step exn_str user_id result acc in
  let one (o : outcome) : Z := if has_outcome o result then 1%Z else 0%Z in
  results acc' = results acc ++ [result] /\
  successful acc' = (successful acc + one Successful)%Z /\
  failed acc' = (failed acc + one Failed)%Z /\
  skipped acc' = (skipped acc + one Skipped)%Z /\
  dict_get "user_id" result = Some (PStr user_id).
Proof.
  intros [(msg & ->)|[(user_data & ->)|(recs & returned & ->)]]; cbv zeta;
    unfold batch_step; cbn; repeat split; lia.
Qed.

Lemma batch_loop_spec
    (json_loads : string -> Except pyval) (float_of_str : string -> option pyfloat)
    (chat_create : nat -> string -> Except string)
    (build_prompt : list pydict -> list pydict -> Z -> Z -> Z -> Z -> Except string)
    (query_items : query -> Except (list pydict)) (read_item : string -> Except pydict)
    (fromisoformat : string -> option datetime) (order : set_order)
    (user_read_error user_replace_error : nat -> string -> option exn)
    (isoformat : Z -> string) (epoch_seconds : Z -> Z) (exn_str : exn -> string)
    (force_update : bool) (tag_count tag_wildcard article_count article_wildcard candidate_limit : Z)
    (schedule : nat -> readings) (user_ids : list string) :
  forall (n : nat) (w w' : world) (acc acc' : tally),
    batch_loop json_loads float_of_str chat_create build_prompt
       query_items read_item fromisoformat order user_read_error user_replace_error
       isoformat epoch_seconds exn_str
      user_ids force_update tag_count tag_wildcard article_count article_wildcard candidate_limit schedule n w acc
    = Some (w', acc') ->
    exists rs : list pydict,
      let count (o : outcome) : Z := Z.of_nat (length (List.filter (has_outcome o) rs)) in
      results acc' = results acc ++ rs /\
      Forall2 (fun user_id r => dict_get "user_id" r = Some (PStr user_id)) user_ids rs /\
      successful acc' = (successful acc + count Successful)%Z /\
      failed acc' = (failed acc + count Failed)%Z /\
      skipped acc' = (skipped acc + count Skipped)%Z /\
      llm_calls (w_chat w') <= llm_calls (w_chat w) + 3 * length user_ids.
Proof.
  induction user_ids as [|user_id user_ids IH]; intros n w w' acc acc' Hloop.
  - injection Hloop as <- <-. exists []. cbn. rewrite app_nil_r.
    repeat split; try lia. constructor.
  - cbn [batch_loop] in Hloop.
    destruct (generate_recommendations_for_user json_loads float_of_str chat_create build_prompt
       query_items read_item fromisoformat order user_read_error user_replace_error
       isoformat epoch_seconds exn_str
                user_id force_update tag_count tag_wildcard article_count article_wildcard candidate_limit (schedule n) w)
      as [[w1 result]|] eqn:Hrun; [|discriminate Hloop].
    cbn [mbind option_bind] in Hloop.
    apply IH in Hloop as (rs & Hrs & Hids & Hs & Hf & Hk & Hcalls).
    cbv zeta in Hs, Hf, Hk.
    apply generation_outcome in Hrun as (Hcalls1 & Hshape).
    assert ((exists msg : string, result = failure user_id msg) \/
            (exists user_data : pydict, result = skipped_result user_id user_data) \/
            (exists (recs : recommendations) (returned : string),
                result = served_result user_id recs returned)) as Hshape'.
    { destruct Hshape as [(msg & -> & _)|[(ud & -> & _)|(recs & ids & u & -> & _)]];
        eauto. }
    destruct (batch_step_counts exn_str user_id result acc Hshape')
      as (Hr1 & Hs1 & Hf1 & Hk1 & Hid).
    exists (result :: rs). cbv zeta. cbn [List.filter].
    rewrite Hrs, Hr1, <- app_assoc. split; [reflexivity|].
    split; [constructor; assumption|].
    rewrite Hs, Hf, Hk, Hs1, Hf1, Hk1.
    destruct (has_outcome Successful result), (has_outcome Failed result),
      (has_outcome Skipped result); cbn [length]; repeat split; lia.
Qed.

(** The loop runs the pipeline for each id in turn: [ws] lists the worlds
    the runs leave. *)
Lemma batch_loop_runs
    (json_loads : string -> Except pyval) (float_of_str : string -> option pyfloat)
    (chat_create : nat -> string -> Except string)
    (build_prompt : list pydict -> list pydict -> Z -> Z -> Z -> Z -> Except string)
    (query_items : query -> Except (list pydict)) (read_item : string -> Except pydict)
    (fromisoformat : string -> option datetime) (order : set_order)
    (user_read_error user_replace_error : nat -> string -> option exn)
    (isoformat : Z -> string) (epoch_seconds : Z -> Z) (exn_str : exn -> string)
    (force_update : bool) (tag_count tag_wildcard article_count article_wildcard candidate_limit : Z)
    (schedule : nat -> readings) (user_ids : list string) :
  forall (n : nat) (w : world) (acc : tally),
    Forall (fun user_id : string =>
              forall user_data : pydict,
                w_users w !! user_id = Some user_data ->
                interactions_modelled user_data) user_ids ->
    exists (w' : world) (acc' : tally) (rs : list pydict) (ws : list world),
      batch_loop json_loads float_of_str chat_create build_prompt
       query_items read_item fromisoformat order user_read_error user_replace_error
       isoformat epoch_seconds exn_str
        user_ids force_update tag_count tag_wildcard article_count article_wildcard candidate_limit schedule n w acc
      = Some (w', acc') /\
      results acc' = results acc ++ rs /\
      length ws = length user_ids /\
      last (w :: ws) = Some w' /\
      forall (i : nat) (user_id : string),
        user_ids !! i = Some user_id ->
        exists (before after : world) (r : pydict),
          (w :: ws) !! i = Some before /\ ws !! i = Some after /\ rs !! i = Some r /\
          generate_recommendations_for_user json_loads float_of_str chat_create build_prompt
       query_items read_item fromisoformat order user_read_error user_replace_error
       isoformat epoch_seconds exn_str
            user_id force_update tag_count tag_wildcard article_count article_wildcard candidate_limit (schedule (n + i)) before
          = Some (after, r).
Proof.
  induction user_ids as [|user_id user_ids IH]; intros n w acc Hmodelled.
  - exists w, acc, [], []. cbn. rewrite app_nil_r.
    repeat split. intros i user_id Hi. inversion Hi.
  - apply Forall_cons in Hmodelled as [Hhead Hrest].
    destruct (generation_answers json_loads float_of_str chat_create build_prompt
       query_items read_item fromisoformat order user_read_error user_replace_error
       isoformat epoch_seconds exn_str
                user_id force_update tag_count tag_wildcard article_count article_wildcard candidate_limit (schedule n) w Hhead)
      as (w1 & r & Hrun).
    assert (Forall (fun other : string =>
                      forall user_data : pydict,
                        w_users w1 !! other = Some user_data ->
                        interactions_modelled user_data) user_ids) as Hrest1.
    { eapply Forall_impl; [exact Hrest|]. intros other Hother.
      eapply generation_keeps_modelled; eassumption. }
    destruct (IH (S n) w1 (batch_step exn_str user_id r acc) Hrest1)
      as (w' & acc' & rs & ws & Hloop & Hresults & Hlen & Hlast & Hruns).
    exists w', acc', (r :: rs), (w1 :: ws).
    split.
    { cbn [batch_loop]. rewrite Hrun. cbn [mbind option_bind]. exact Hloop. }
    split.
    { rewrite Hresults.
      pose proof Hrun as Hshape.
      apply generation_outcome in Hshape as (_ & Hshape).
      destruct (batch_step_counts exn_str user_id r acc) as (Hr1 & _).
      { destruct Hshape as [(msg & -> & _)|[(ud & -> & _)|(recs & ids & u & -> & _)]];
          eauto. }
      rewrite Hr1, <- app_assoc. reflexivity. }
    split; [cbn [length]; rewrite Hlen; reflexivity|].
    split; [exact Hlast|].
    intros i id Hi. destruct i as [|i].
    + injection Hi as <-. exists w, w1, r. rewrite Nat.add_0_r. auto.
    + destruct (Hruns i id Hi) as (before & after & r' & Hb & Ha & Hr & Hrun').
      exists before, after, r'. rewrite Nat.add_succ_r. auto.
Qed.

(** X29. When the liked, bookmarked and disliked fields of the documents of
    the users of the batch are lists of strings (or absent),
    [generate_recommendations_batch] returns a summary whose results are
    those of [generate_recommendations_for_user] run for each id in turn,
    each run starting in the state the run before it left.  The summary
    holds one result per id, carrying that id; the counters [successful],
    [failed] and [skipped] count the results of each kind and add up to
    [total_users]; the batch sends at most three requests per user to the
    chat endpoint. *)
Theorem batch_counts
    (json_loads : string -> Except pyval) (float_of_str : string -> option pyfloat)
    (chat_create : nat -> string -> Except string)
    (build_prompt : list pydict -> list pydict -> Z -> Z -> Z -> Z -> Except string)
    (query_items : query -> Except (list pydict)) (read_item : string -> Except pydict)
    (fromisoformat : string -> option datetime) (order : set_order)
    (user_read_error user_replace_error : nat -> string -> option exn)
    (isoformat : Z -> string) (epoch_seconds : Z -> Z) (exn_str : exn -> string)
    (user_ids : list string) (force_update : bool) (tag_count tag_wildcard article_count article_wildcard candidate_limit : Z)
    (schedule : nat -> readings) (w : world) :
  Forall (fun user_id : string =>
            forall user_data : pydict,
              w_users w !! user_id = Some user_data ->
              interactions_modelled user_data) user_ids ->
  exists (w' : world) (rs : list pydict) (ws : list world),
    let count (o : outcome) : Z := Z.of_nat (length (List.filter (has_outcome o) rs)) in
    generate_recommendations_batch json_loads float_of_str chat_create build_prompt
       query_items read_item fromisoformat order user_read_error user_replace_error
       isoformat epoch_seconds exn_str
      user_ids force_update tag_count tag_wildcard article_count article_wildcard candidate_limit schedule w
    = Some (w', [("total_users", PInt (Z.of_nat (length user_ids)));
                 ("successful", PInt (count Successful));
                 ("failed", PInt (count Failed));
                 ("skipped", PInt (count Skipped));
                 ("results", PList (map PDict rs))]) /\
    length ws = length user_ids /\
    last (w :: ws) = Some w' /\
    (forall (i : nat) (user_id : string),
        user_ids !! i = Some user_id ->
        exists (before after : world) (r : pydict),
          (w :: ws) !! i = Some before /\ ws !! i = Some after /\ rs !! i = Some r /\
          generate_recommendations_for_user json_loads float_of_str chat_create build_prompt
       query_items read_item fromisoformat order user_read_error user_replace_error
       isoformat epoch_seconds exn_str
            user_id force_update tag_count tag_wildcard article_count article_wildcard candidate_limit (schedule i) before
          = Some (after, r)) /\
    Forall2 (fun user_id r => dict_get "user_id" r = Some (PStr user_id)) user_ids rs /\
    (count Successful + count Failed + count Skipped = Z.of_nat (length user_ids))%Z /\
    llm_calls (w_chat w') <= llm_calls (w_chat w) + 3 * length user_ids.
Proof.
  intros Hmodelled.
  destruct (batch_loop_runs json_loads float_of_str chat_create build_prompt
       query_items read_item fromisoformat order user_read_error user_replace_error
       isoformat epoch_seconds exn_str
              force_update tag_count tag_wildcard article_count article_wildcard candidate_limit schedule user_ids 0 w
              {| successful := 0; failed := 0; skipped := 0; results := [] |} Hmodelled)
    as (w' & acc' & rs & ws & Hloop & Hresults & Hlen & Hlast & Hruns).
  pose proof Hloop as Hspec.
  apply batch_loop_spec in Hspec as (rs' & Hrs & Hids & Hs & Hf & Hk & Hcalls).
  cbv zeta in Hs, Hf, Hk.
  cbn [results successful failed skipped app] in Hresults, Hrs, Hs, Hf, Hk.
  assert (rs' = rs) as -> by congruence.
  exists w', rs, ws. cbv zeta.
  split.
  { unfold generate_recommendations_batch. rewrite Hloop. cbn [mbind option_bind].
    rewrite Hrs, Hs, Hf, Hk. reflexivity. }
  split; [exact Hlen|]. split; [exact Hlast|]. split; [exact Hruns|].
  split; [exact Hids|]. split; [|exact Hcalls].
  pose proof (count_outcomes rs) as Hsum.
  apply Forall2_length in Hids. lia.
Qed.

Example sample_batch :
  (fun r : world * pydict =>
     (dict_get "successful" (snd r), dict_get "failed" (snd r),
      dict_get "skipped" (snd r), llm_calls (w_chat (fst r)))) <$>
    generate_recommendations_batch json_loads_ref float_of_str_ref chat_up fixed_prompt
       store_full reads_up fromisoformat_ref first_seen_order users_up users_up
       isoformat_ref (fun t => (t / 1000000)%Z) exn_str_ref
      ["u7"; "u9"; "u7"] false 15 5 15 5 400 sample_schedule sample_world
  = Some (Some (PInt 1), Some (PInt 1), Some (PInt 1), 1).
Proof. vm_compute. reflexivity. Qed.

(** A batch of three: the user [u7] is served, [u9] has no document, and
    [u7] is skipped the second time. *)
Lemma batch_counts_witness :
  exists (w' : world) (summary : pydict) (rs : list pydict),
    generate_recommendations_batch json_loads_ref float_of_str_ref chat_up fixed_prompt
       store_full reads_up fromisoformat_ref first_seen_order users_up users_up
       isoformat_ref (fun t => (t / 1000000)%Z) exn_str_ref
      ["u7"; "u9"; "u7"] false 15 5 15 5 400 sample_schedule sample_world
    = Some (w', summary) /\
    dict_get "results" summary = Some (PList (map PDict rs)) /\
    Forall2 (fun user_id r => dict_get "user_id" r = Some (PStr user_id))
      ["u7"; "u9"; "u7"] rs /\
    dict_get "successful" summary = Some (PInt 1) /\
    dict_get "failed" summary = Some (PInt 1) /\
    dict_get "skipped" summary = Some (PInt 1).
Proof.
  destruct (batch_counts json_loads_ref float_of_str_ref chat_up fixed_prompt
       store_full reads_up fromisoformat_ref first_seen_order users_up users_up
       isoformat_ref (fun t => (t / 1000000)%Z) exn_str_ref
              ["u7"; "u9"; "u7"] false 15 5 15 5 400 sample_schedule sample_world)
    as (w' & rs & ws & Hbatch & _ & _ & _ & Hids & _).
  { repeat (constructor; [apply sample_world_modelled|]). constructor. }
  cbv zeta in Hbatch.
  pose proof sample_batch as Hsample.
  rewrite Hbatch in Hsample. injection Hsample as Hs Hf Hk _.
  cbn [snd] in Hs, Hf, Hk.
  eexists w', _, rs. split; [exact Hbatch|].
  split; [reflexivity|]. split; [exact Hids|].
  cbn [dict_get String.eqb Ascii.eqb Bool.eqb].
  rewrite Hs, Hf, Hk. auto.
Defined.

(** ** Embeddings *)

Lemma concat_chunks (texts : list string) (m a : nat) :
  concat (map (fun k => take 10 (drop (k * 10) texts)) (seq a m))
  = take (m * 10) (drop (a * 10) texts).
Proof.
  revert a. induction m as [|m IH]; intros a; [reflexivity|].
  cbn [seq map concat]. rewrite IH.
  replace (S a * 10) with (a * 10 + 10) by lia.
  rewrite <- drop_drop.
  replace (S m * 10) with (10 + m * 10) by lia.
  apply take_take_drop.
Qed.

Lemma answers_cons
    (embeddings_create : nat -> list string -> Except (list (list pyfloat)))
    (n : nat) (b : list string) (bs : list (list string)) :
  answers embeddings_create n (b :: bs)
  = match embeddings_create n b with
    | Ok batch_embeddings => batch_embeddings
    | Raise _ => []
    end :: answers embeddings_create (S n) bs.
Proof.
  unfold answers. cbn [imap]. rewrite Nat.add_0_r. f_equal.
  apply imap_ext. intros k x _. cbn. rewrite Nat.add_succ_r. reflexivity.
Qed.

(** The loop from batch number [a] on, [m] batches being left. *)
Lemma embed_batches_spec
    (embeddings_create : nat -> list string -> Except (list (list pyfloat)))
    (texts : list string) (m : nat) :
  forall (a : nat) (w : embed_io) (acc : list (list pyfloat)),
    a + m = (length texts + 9) / 10 ->
    let bs := map (fun k => take 10 (drop (k * 10) texts)) (seq a m) in
    let out := embed_batches embeddings_create texts
                 (map (fun k => k * 10) (seq a m)) w acc in
    let n := length (embed_log w) in
    (exists sent : list (list string),
        embed_log (fst out) = embed_log w ++ sent /\ sent `prefix_of` bs) /\
    ((forall (k : nat) (b : list string),
         bs !! k = Some b ->
         exists vs : list (list pyfloat), embeddings_create (n + k) b = Ok vs) ->
     out = ({| embed_log := embed_log w ++ bs;
               embed_slept := embed_slept w ++ replicate (m - 1) (1 # 10) |},
            Ok (acc ++ concat (answers embeddings_create n bs)))) /\
    (forall (k : nat) (b : list string) (e : exn),
        bs !! k = Some b -> embeddings_create (n + k) b = Raise e ->
        exists e' : exn, snd out = Raise e').
Proof.
  induction m as [|m IH]; intros a w acc Hsum bs out n; subst bs out n.
  - cbn. split; [exists []; rewrite app_nil_r; split; [reflexivity|apply prefix_nil]|].
    split.
    + intros _. rewrite !app_nil_r. destruct w. reflexivity.
    + intros k b e Hk. inversion Hk.
  - cbn [seq map embed_batches].
    set (batch := take 10 (drop (a * 10) texts)).
    assert ((a * 10 + 10 <? length texts) = negb (m =? 0)) as Hpause.
    { pose proof (Nat.div_mod_eq (length texts + 9) 10) as Hdiv.
      pose proof (Nat.mod_upper_bound (length texts + 9) 10 ltac:(lia)) as Hmod.
      destruct (Nat.ltb_spec (a * 10 + 10) (length texts)) as [Hlt|Hge];
        destruct (Nat.eqb_spec m 0) as [->|Hm]; try reflexivity; exfalso; lia. }
    destruct (embeddings_create (length (embed_log w)) batch) as [vs|e] eqn:Hfirst.
    + rewrite Hpause.
      set (w2 := if negb (m =? 0) then _ else _).
      assert (embed_log w2 = embed_log w ++ [batch]) as Hlog2
          by (subst w2; destruct (negb (m =? 0)); reflexivity).
      assert (embed_slept w2
              = embed_slept w ++ (if negb (m =? 0) then [1 # 10] else [])) as Hslept2.
      { subst w2. destruct (negb (m =? 0)); cbn [embed_slept];
          [reflexivity|rewrite app_nil_r; reflexivity]. }
      destruct (IH (S a) w2 (acc ++ vs) ltac:(lia)) as (Hsent & Hok & Hfail).
      cbv zeta in Hsent, Hok, Hfail.
      rewrite Hlog2 in Hsent, Hok, Hfail.
      rewrite length_app in Hok, Hfail. cbn [length] in Hok, Hfail.
      split; [|split].
      * destruct Hsent as (sent & Hsent & Hprefix). exists (batch :: sent).
        rewrite Hsent, <- app_assoc. split; [reflexivity|].
        apply prefix_cons, Hprefix.
      * intros Hall. rewrite Hok.
        { rewrite Hslept2, answers_cons, Hfirst. cbn [concat].
          replace (length (embed_log w) + 1) with (S (length (embed_log w))) by lia.
          f_equal; [f_equal|f_equal].
          - rewrite <- app_assoc. reflexivity.
          - rewrite <- app_assoc. f_equal.
            destruct (Nat.eqb_spec m 0) as [->|Hm]; cbn [negb]; [reflexivity|].
            replace (S m - 1) with (S (m - 1)) by lia. reflexivity.
          - rewrite <- app_assoc. reflexivity. }
        intros k b Hk.
        replace (length (embed_log w) + 1 + k) with (length (embed_log w) + S k) by lia.
        apply Hall. exact Hk.
      * intros k b e Hk He. destruct k as [|k].
        { injection Hk as <-. rewrite Nat.add_0_r in He. congruence. }
        apply (Hfail k b e); [exact Hk|].
        replace (length (embed_log w) + 1 + k) with (length (embed_log w) + S k) by lia.
        exact He.
    + cbn [fst snd embed_log]. split; [|split].
      * exists [batch]. split; [reflexivity|]. apply prefix_cons, prefix_nil.
      * intros Hall. destruct (Hall 0 batch eq_refl) as [vs Hvs].
        rewrite Nat.add_0_r in Hvs. congruence.
      * intros _ _ _ _ _. exists e. reflexivity.
Qed.

(** The loop when request number [k] is the first to fail: it stops there. *)
Lemma embed_batches_first_failure
    (embeddings_create : nat -> list string -> Except (list (list pyfloat)))
    (texts : list string) (m : nat) :
  forall (a : nat) (w : embed_io) (acc : list (list pyfloat))
         (k : nat) (b : list string) (e : exn),
    a + m = (length texts + 9) / 10 ->
    let bs := map (fun k => take 10 (drop (k * 10) texts)) (seq a m) in
    let n := length (embed_log w) in
    bs !! k = Some b ->
    (forall (j : nat) (b' : list string),
        j < k -> bs !! j = Some b' ->
        exists vs : list (list pyfloat), embeddings_create (n + j) b' = Ok vs) ->
    embeddings_create (n + k) b = Raise e ->
    embed_batches embeddings_create texts (map (fun k => k * 10) (seq a m)) w acc
    = ({| embed_log := embed_log w ++ take (S k) bs;
          embed_slept := embed_slept w ++ replicate k (1 # 10) |},
       Raise e).
Proof.
  induction m as [|m IH]; intros a w acc k b e Hsum bs n Hk Hbefore Hfail;
    subst bs n; [inversion Hk|].
  cbn [seq map embed_batches] in *.
  set (batch := take 10 (drop (a * 10) texts)) in *.
  destruct k as [|k].
  - injection Hk as <-. rewrite Nat.add_0_r in Hfail. rewrite Hfail.
    cbn [take replicate]. rewrite app_nil_r. reflexivity.
  - destruct (Hbefore 0 batch ltac:(lia) eq_refl) as [vs Hvs].
    rewrite Nat.add_0_r in Hvs. rewrite Hvs.
    assert (m <> 0) as Hm.
    { intros ->. cbn in Hk. inversion Hk. }
    assert ((a * 10 + 10 <? length texts) = true) as ->.
    { pose proof (Nat.div_mod_eq (length texts + 9) 10) as Hdiv.
      pose proof (Nat.mod_upper_bound (length texts + 9) 10 ltac:(lia)) as Hmod.
      apply Nat.ltb_lt. lia. }
    rewrite (IH (S a) _ (acc ++ vs) k b e ltac:(lia)).
    + cbn [embed_log embed_slept take replicate].
      rewrite <- !app_assoc. reflexivity.
    + exact Hk.
    + cbn [embed_log]. rewrite length_app. cbn [length].
      intros j b' Hj Hb'.
      replace (length (embed_log w) + 1 + j) with (length (embed_log w) + S j) by lia.
      apply Hbefore; [lia|exact Hb'].
    + cbn [embed_log]. rewrite length_app. cbn [length].
      replace (length (embed_log w) + 1 + k) with (length (embed_log w) + S k) by lia.
      exact Hfail.
Qed.

(** X30. [get_embeddings] cuts the texts, in order, into batches of ten
    (the last one possibly shorter) and sends them one by one, pausing 0.1
    second between two batches.  When every request succeeds it returns the
    vectors of the answers, in order.  When a request fails it returns the
    empty list, the vectors already received included; the failing request
    is the last one sent: the batches sent are those up to it, with one
    pause after each batch before it. *)
Theorem embeddings_batched
    (embeddings_create : nat -> list string -> Except (list (list pyfloat)))
    (texts : list string) (w : embed_io) :
  let batches := batches_of texts in
  let out := get_embeddings embeddings_create texts w in
  let n := length (embed_log w) in
  concat batches = texts /\
  Forall (fun b : list string => 0 < length b <= 10) batches /\
  length batches = (length texts + 9) / 10 /\
  (exists sent : list (list string),
      embed_log (fst out) = embed_log w ++ sent /\ sent `prefix_of` batches) /\
  ((forall (k : nat) (b : list string),
       batches !! k = Some b ->
       exists vs : list (list pyfloat), embeddings_create (n + k) b = Ok vs) ->
   embed_log (fst out) = embed_log w ++ batches /\
   embed_slept (fst out)
   = embed_slept w ++ replicate (length batches - 1) (1 # 10) /\
   snd out = concat (answers embeddings_create n batches)) /\
  (forall (k : nat) (b : list string) (e : exn),
      batches !! k = Some b -> embeddings_create (n + k) b = Raise e ->
      snd out = []) /\
  (forall (k : nat) (b : list string) (e : exn),
      batches !! k = Some b ->
      (forall (j : nat) (b' : list string),
          j < k -> batches !! j = Some b' ->
          exists vs : list (list pyfloat), embeddings_create (n + j) b' = Ok vs) ->
      embeddings_create (n + k) b = Raise e ->
      embed_log (fst out) = embed_log w ++ take (S k) batches /\
      embed_slept (fst out) = embed_slept w ++ replicate k (1 # 10) /\
      snd out = []).
Proof.
  intros batches out n. subst batches out n.
  unfold batches_of, get_embeddings, py_range_step.
  replace (length texts + 10 - 1) with (length texts + 9) by lia.
  set (N := (length texts + 9) / 10).
  assert (length texts <= N * 10) as Hcover.
  { subst N. pose proof (Nat.div_mod_eq (length texts + 9) 10).
    pose proof (Nat.mod_upper_bound (length texts + 9) 10 ltac:(lia)). lia. }
  assert (forall k : nat, k < N -> k * 10 < length texts) as Hstart.
  { intros k Hk. subst N.
    pose proof (Nat.div_mod_eq (length texts + 9) 10).
    pose proof (Nat.mod_upper_bound (length texts + 9) 10 ltac:(lia)). lia. }
  rewrite map_map.
  destruct (embed_batches_spec embeddings_create texts N 0 w [] eq_refl)
    as (Hsent & Hok & Hfail).
  cbv zeta in Hsent, Hok, Hfail.
  pose proof (embed_batches_first_failure embeddings_create texts N 0 w []) as Hfirst.
  cbv zeta in Hfirst.
  split; [|split; [|split; [|split; [|split; [|split]]]]].
  - rewrite concat_chunks. rewrite drop_0. apply take_ge. lia.
  - apply Forall_forall. intros b Hb.
    apply list_elem_of_fmap in Hb as (k & -> & Hk).
    apply elem_of_seq in Hk. rewrite length_take, length_drop.
    specialize (Hstart k ltac:(lia)). lia.
  - rewrite length_map, length_seq. reflexivity.
  - destruct (embed_batches _ _ _ _ _) as [w' [vs|e]]; exact Hsent.
  - intros Hall. rewrite (Hok Hall). cbn [fst snd embed_log embed_slept].
    rewrite length_map, length_seq. auto.
  - intros k b e Hk He. destruct (Hfail k b e Hk He) as [e' He'].
    destruct (embed_batches _ _ _ _ _) as [w' [vs|e'']]; [discriminate He'|reflexivity].
  - intros k b e Hk Hbefore He.
    rewrite (Hfirst k b e eq_refl Hk Hbefore He). cbn [fst snd embed_log embed_slept].
    auto.
Qed.

Example embeddings_third_request_fails :
  (fun out : embed_io * list (list pyfloat) =>
     (map (length (A:=string)) (embed_log (fst out)), embed_slept (fst out), snd out))
    (get_embeddings embed_third_fails texts_25
       {| embed_log := []; embed_slept := [] |})
  = ([10; 10; 5], [1 # 10; 1 # 10], []).
Proof. vm_compute. reflexivity. Qed.

(** Twenty-five texts: an endpoint that answers gets three batches, with two
    pauses, and returns one vector per text; one that fails at its second
    request gets two batches only. *)
Lemma embeddings_batched_witness :
  let start := {| embed_log := []; embed_slept := [] |} in
  (let out := get_embeddings embed_up texts_25 start in
   map (length (A:=string)) (embed_log (fst out)) = [10; 10; 5] /\
   embed_slept (fst out) = [1 # 10; 1 # 10] /\
   length (snd out) = 25) /\
  (let out := get_embeddings embed_second_fails texts_25 start in
   map (length (A:=string)) (embed_log (fst out)) = [10; 10] /\
   embed_slept (fst out) = [1 # 10] /\
   snd out = []).
Proof.
  cbv zeta. split.
  - destruct (embeddings_batched embed_up texts_25
                {| embed_log := []; embed_slept := [] |})
      as (_ & _ & _ & _ & Hok & _).
    destruct Hok as (Hlog & Hslept & Hres).
    { intros k b _. eexists. reflexivity. }
    rewrite Hlog, Hslept, Hres.
    vm_compute. repeat split; reflexivity.
  - destruct (embeddings_batched embed_second_fails texts_25
                {| embed_log := []; embed_slept := [] |})
      as (_ & _ & _ & _ & _ & _ & Hstop).
    destruct (Hstop 1 (replicate 10 "text") (ServiceError "429 Too Many Requests"))
      as (Hlog & Hslept & Hres).
    + reflexivity.
    + intros j b' Hj _. eexists.
      replace j with 0 by lia. reflexivity.
    + reflexivity.
    + rewrite Hlog, Hslept, Hres. vm_compute. repeat split; reflexivity.
Defined.
